(** * newsfeed_media_dl: a shallow embedding of [newsfeed_media_dl.py]

    The script scans syndication feeds, keeps the entries whose title matches
    a pattern and which are newer than a cutoff, hands their links to an
    external downloader and checkpoints, per feed, the timestamp of the newest
    entry in [.newsfeed_media_dl.json].

    Python values are modelled by inductive types, exceptions by an error
    result, and the effects of the script (working directory, the watermark
    file, logging, feed retrieval, sub-processes) by a state monad over an
    explicit world.  Strings are Stdlib strings read as ASCII text. *)

From Stdlib Require Import ZArith List String Ascii Bool Lia Permutation.
Import ListNotations.

Local Open Scope string_scope.
Local Open Scope list_scope.
Local Open Scope Z_scope.

Set Implicit Arguments.

(* ===================================================================== *)
(** * Python values loaded from JSON *)
(* ===================================================================== *)

(** A Python [float]: a finite binary fraction [m * 2^e], an infinity or a
    not-a-number. *)
Inductive pyfloat :=
| FFinite (m e : Z)
| FInf (negative : bool)
| FNan.

Set Warnings "-register-all".

(** The objects [json.loads] produces.  A [dict] keeps its insertion order;
    its keys are strings and pairwise different. *)
Inductive json :=
| JNull
| JBool (b : bool)
| JInt (n : Z)
| JFloat (f : pyfloat)
| JStr (s : string)
| JList (l : list json)
| JDict (d : list (string * json)).

Set Warnings "register-all".

(* ===================================================================== *)
(** * Exceptions *)
(* ===================================================================== *)

(** The messages with which the script raises [InvalidInputDataException]. *)
Inductive config_error :=
| NoDirectory            (* "No directory given in settings file" *)
| DirectoryMissing       (* "Directory given in settings file does not exist" *)
| NoTimeFrame            (* "No time frame given in settings file" *)
| InvalidTimeFrame       (* "Invalid time frame given in settings file" *)
| NoFeeds                (* "No feeds given in settings file" *)
| InvalidFeedsList       (* "Invalid feeds list" *)
| UnsupportedDownloader (downloader : json). (* "Unsupported downloader: %s" *)

(** The exception classes that occur.  [OSError] stands for itself and its
    subclasses ([IOError] is an alias of it, [FileNotFoundError] a subclass);
    [JSONDecodeError] is kept apart from [ValueError] because the script
    catches the former only, and so is [UnicodeDecodeError], which a handler
    for [OSError] or [JSONDecodeError] does not catch either. *)
Inductive exn :=
| KeyError
| TypeError
| ValueError
| IndexError
| AttributeError
| OverflowError
| OSError
| JSONDecodeError
| UnicodeDecodeError
| RecursionError
| CalledProcessError
| ReError
| InvalidInputDataException (msg : config_error).

Inductive result (A : Type) :=
| Ok (a : A)
| Raise (e : exn).

Arguments Ok {A} a.
Arguments Raise {A} e.

Definition is_KeyError (e : exn) : bool :=
  match e with KeyError => true | _ => false end.
Definition is_TypeError (e : exn) : bool :=
  match e with TypeError => true | _ => false end.
Definition is_AttributeError (e : exn) : bool :=
  match e with AttributeError => true | _ => false end.
Definition is_OSError (e : exn) : bool :=
  match e with OSError => true | _ => false end.
Definition is_JSONDecodeError (e : exn) : bool :=
  match e with JSONDecodeError => true | _ => false end.
Definition is_CalledProcessError (e : exn) : bool :=
  match e with CalledProcessError => true | _ => false end.
Definition is_InvalidInputDataException (e : exn) : bool :=
  match e with InvalidInputDataException _ => true | _ => false end.

(** Pure computations that may raise. *)
Module Exc.

Definition bind {A B} (r : result A) (k : A -> result B) : result B :=
  match r with
  | Ok a => k a
  | Raise e => Raise e
  end.

(** [try: r  except <class>: h] *)
Definition try_except {A} (r : result A) (catches : exn -> bool)
           (h : result A) : result A :=
  match r with
  | Ok a => Ok a
  | Raise e => if catches e then h else Raise e
  end.

End Exc.

Declare Scope exc_scope.
Delimit Scope exc_scope with exc.
Notation "x <- c ;; k" := (Exc.bind c (fun x => k))
  (at level 61, c at next level, right associativity) : exc_scope.

(* ===================================================================== *)
(** * Subscripting, [int()] and iteration on loaded values *)
(* ===================================================================== *)

Fixpoint assoc_get (d : list (string * json)) (k : string) : option json :=
  match d with
  | [] => None
  | (k', v) :: d' => if String.eqb k' k then Some v else assoc_get d' k
  end.

(** [d[k] = v] on a dict: an existing key keeps its place, a new key goes
    last. *)
Fixpoint assoc_set (d : list (string * json)) (k : string) (v : json)
  : list (string * json) :=
  match d with
  | [] => [(k, v)]
  | (k', v') :: d' =>
      if String.eqb k' k then (k', v) :: d' else (k', v') :: assoc_set d' k v
  end.

(** Python's sequence indexing: a negative index counts from the end. *)
Definition seq_index {A} (l : list A) (i : Z) : result A :=
  let n := Z.of_nat (List.length l) in
  let j := if i <? 0 then i + n else i in
  if (0 <=? j) && (j <? n)
  then match nth_error l (Z.to_nat j) with
       | Some a => Ok a
       | None => Raise IndexError
       end
  else Raise IndexError.

(** [container[key]].  A dict loaded from JSON has string keys only, so a
    hashable key of another type is never found; lists and dicts are not
    hashable.  Lists and strings take integers (and booleans, which are
    integers) as indices. *)
Definition py_subscript (container key : json) : result json :=
  match container with
  | JDict d =>
      match key with
      | JStr k => match assoc_get d k with
                  | Some v => Ok v
                  | None => Raise KeyError
                  end
      | JList _ | JDict _ => Raise TypeError
      | _ => Raise KeyError
      end
  | JList l =>
      match key with
      | JInt i => seq_index l i
      | JBool b => seq_index l (if b then 1 else 0)
      | _ => Raise TypeError
      end
  | JStr s =>
      match key with
      | JInt i =>
          Exc.bind (seq_index (list_ascii_of_string s) i)
                   (fun c => Ok (JStr (String c EmptyString)))
      | JBool b =>
          Exc.bind (seq_index (list_ascii_of_string s) (if b then 1 else 0))
                   (fun c => Ok (JStr (String c EmptyString)))
      | _ => Raise TypeError
      end
  | _ => Raise TypeError
  end.

(** [container[key] = value] with a string key, the only kind of key the
    script ever stores under. *)
Definition py_setitem (container : json) (key : string) (value : json)
  : result json :=
  match container with
  | JDict d => Ok (JDict (assoc_set d key value))
  | _ => Raise TypeError
  end.

Definition is_digit (c : ascii) : bool :=
  let n := N_of_ascii c in ((48 <=? n) && (n <=? 57))%N.

Definition digit_val (c : ascii) : Z := Z.of_N (N_of_ascii c) - 48.

(** The characters [str.strip] and [int] treat as white space. *)
Definition is_space (c : ascii) : bool :=
  let n := N_of_ascii c in
  (((9 <=? n) && (n <=? 13)) || ((28 <=? n) && (n <=? 32)))%N.

Fixpoint lstrip (s : list ascii) : list ascii :=
  match s with
  | c :: s' => if is_space c then lstrip s' else s
  | [] => []
  end.

Definition strip (s : list ascii) : list ascii :=
  rev (lstrip (rev (lstrip s))).

(** Digits with single underscores between them, as [int] reads them;
    [after_digit] tells whether the previous character was a digit. *)
Fixpoint int_digits (s : list ascii) (acc : Z) (after_digit : bool)
  : option Z :=
  match s with
  | [] => if after_digit then Some acc else None
  | c :: s' =>
      if is_digit c then int_digits s' (10 * acc + digit_val c) true
      else if Ascii.eqb c "_" && after_digit
           then match s' with
                | d :: _ => if is_digit d then int_digits s' acc false else None
                | [] => None
                end
           else None
  end.

(** [sys.get_int_max_str_digits()]: the longest number [int] converts. *)
Definition MAX_STR_DIGITS : Z := 4300.

(** [int(s)] for a string in base ten.  A number of more than
    [MAX_STR_DIGITS] digits, leading zeros counted, signs, underscores and
    white space not, is refused with a [ValueError]. *)
Definition int_of_string (s : string) : result Z :=
  let body := strip (list_ascii_of_string s) in
  let '(neg, ds) :=
    match body with
    | c :: r => if Ascii.eqb c "-" then (true, r)
                else if Ascii.eqb c "+" then (false, r) else (false, body)
    | [] => (false, [])
    end in
  match int_digits ds 0 false with
  | Some n =>
      if Z.of_nat (List.length (filter is_digit ds)) <=? MAX_STR_DIGITS
      then Ok (if neg then - n else n)
      else Raise ValueError
  | None => Raise ValueError
  end.

(** [int(f)] truncates towards zero. *)
Definition int_of_float (f : pyfloat) : result Z :=
  match f with
  | FFinite m e =>
      Ok (if 0 <=? e then m * 2 ^ e else Z.quot m (2 ^ (- e)))
  | FInf _ => Raise OverflowError
  | FNan => Raise ValueError
  end.

(** [int(x)]. *)
Definition py_int (x : json) : result Z :=
  match x with
  | JInt n => Ok n
  | JBool b => Ok (if b then 1 else 0)
  | JFloat f => int_of_float f
  | JStr s => int_of_string s
  | JNull | JList _ | JDict _ => Raise TypeError
  end.

(** [for x in v]: the items a [for] loop visits. *)
Definition py_iter (v : json) : result (list json) :=
  match v with
  | JList l => Ok l
  | JDict d => Ok (map (fun kv => JStr (fst kv)) d)
  | JStr s =>
      Ok (map (fun c => JStr (String c EmptyString)) (list_ascii_of_string s))
  | _ => Raise TypeError
  end.

(* ===================================================================== *)
(** * Naive date-times *)
(* ===================================================================== *)

(** A [datetime.datetime] without time zone: the day as a proleptic Gregorian
    ordinal (day 1 is 0001-01-01, as [date.toordinal] counts), the second of
    that day and the microsecond.  Python orders date-times by year, month,
    day, hour, minute, second and microsecond, which is the order of these
    three fields. *)
Record datetime := mk_datetime {
  dt_day : Z;
  dt_sec : Z;
  dt_us : Z
}.

Definition dt_compare (a b : datetime) : comparison :=
  match dt_day a ?= dt_day b with
  | Eq => match dt_sec a ?= dt_sec b with
          | Eq => dt_us a ?= dt_us b
          | c => c
          end
  | c => c
  end.

(** [a > b] *)
Definition dt_gtb (a b : datetime) : bool :=
  match dt_compare a b with Gt => true | _ => false end.

(** [a >= b] *)
Definition dt_geb (a b : datetime) : bool :=
  match dt_compare a b with Lt => false | _ => true end.

(** [max(a, b)]: the first argument unless the second is greater. *)
Definition dt_max (a b : datetime) : datetime :=
  if dt_gtb b a then b else a.

(** [max(iterable)] over date-times already produced: the first greatest
    item; an empty iterable is a [ValueError]. *)
Fixpoint max_from (cur : datetime) (l : list datetime) : datetime :=
  match l with
  | [] => cur
  | x :: l' => max_from (if dt_gtb x cur then x else cur) l'
  end.

Definition py_max (l : list datetime) : result datetime :=
  match l with
  | [] => Raise ValueError
  | x :: l' => Ok (max_from x l')
  end.

Definition MINORDINAL : Z := 1.
Definition MAXORDINAL : Z := 3652059.      (* date(9999, 12, 31).toordinal() *)

(** [d.replace(hour=0, minute=0, second=0, microsecond=0)] *)
Definition midnight (d : datetime) : datetime :=
  {| dt_day := dt_day d; dt_sec := 0; dt_us := 0 |}.

(** [timedelta(days=n)]: the day count, limited to nine digits. *)
Definition timedelta_days (n : Z) : result Z :=
  if Z.abs n <=? 999999999 then Ok n else Raise OverflowError.

(** [d - timedelta]: the date has to stay between the years 1 and 9999. *)
Definition dt_sub_days (d : datetime) (days : Z) : result datetime :=
  let o := dt_day d - days in
  if (MINORDINAL <=? o) && (o <=? MAXORDINAL)
  then Ok {| dt_day := o; dt_sec := dt_sec d; dt_us := dt_us d |}
  else Raise OverflowError.

(** ** The calendar *)

Definition is_leap (y : Z) : bool :=
  (y mod 4 =? 0) && (negb (y mod 100 =? 0) || (y mod 400 =? 0)).

Definition days_in_month (y m : Z) : Z :=
  if m =? 2 then (if is_leap y then 29 else 28)
  else if (m =? 4) || (m =? 6) || (m =? 9) || (m =? 11) then 30 else 31.

Definition days_before_year (y : Z) : Z :=
  let p := y - 1 in p * 365 + p / 4 - p / 100 + p / 400.

(** Days of the year before the first of month [m], in a common year. *)
Definition DAYS_BEFORE_MONTH (m : Z) : Z :=
  nth (Z.to_nat m) [0; 0; 31; 59; 90; 120; 151; 181; 212; 243; 273; 304; 334] 0.

Definition days_before_month (y m : Z) : Z :=
  DAYS_BEFORE_MONTH m + (if (2 <? m) && is_leap y then 1 else 0).

Definition ymd2ord (y m d : Z) : Z :=
  days_before_year y + days_before_month y m + d.

(** The year, month and day of an ordinal, by the algorithm of the
    [datetime] module. *)
Definition ord2ymd (ordinal : Z) : Z * Z * Z :=
  let n := ordinal - 1 in
  let n400 := n / 146097 in
  let n := n mod 146097 in
  let n100 := n / 36524 in
  let n := n mod 36524 in
  let n4 := n / 1461 in
  let n := n mod 1461 in
  let n1 := n / 365 in
  let n := n mod 365 in
  let year := n400 * 400 + 1 + n100 * 100 + n4 * 4 + n1 in
  if (n1 =? 4) || (n100 =? 4) then (year - 1, 12, 31)
  else
    let leapyear := (n1 =? 3) && (negb (n4 =? 24) || (n100 =? 3)) in
    let month := Z.shiftr (n + 50) 5 in
    let preceding :=
      DAYS_BEFORE_MONTH month + (if (2 <? month) && leapyear then 1 else 0) in
    if n <? preceding
    then
      let month' := month - 1 in
      let preceding' :=
        preceding - (if (month' =? 2) && leapyear then 29
                     else days_in_month 1 month') in
      (year, month', n - preceding' + 1)
    else (year, month, n - preceding + 1).

(** ** [isoformat] *)

Definition digit_char (d : Z) : ascii := ascii_of_N (Z.to_N (48 + d mod 10)).

(** ["%0wd" % n] for [0 <= n < 10^w]. *)
Fixpoint zero_pad (w : nat) (n : Z) : list ascii :=
  match w with
  | O => []
  | S w' => zero_pad w' (n / 10) ++ [digit_char n]
  end.

(** [d.isoformat()]: [YYYY-MM-DDTHH:MM:SS], followed by [.ffffff] when the
    microsecond is not zero. *)
Definition isoformat (d : datetime) : string :=
  let '(y, m, dd) := ord2ymd (dt_day d) in
  let hh := dt_sec d / 3600 in
  let mm := (dt_sec d mod 3600) / 60 in
  let ss := dt_sec d mod 60 in
  string_of_list_ascii
    (zero_pad 4 y ++ ["-"%char] ++ zero_pad 2 m ++ ["-"%char] ++ zero_pad 2 dd
     ++ ["T"%char] ++ zero_pad 2 hh ++ [":"%char] ++ zero_pad 2 mm
     ++ [":"%char] ++ zero_pad 2 ss
     ++ (if dt_us d =? 0 then [] else "."%char :: zero_pad 6 (dt_us d))).

(** ** [strptime] with the format [%Y-%m-%dT%H:%M:%S]

    [_strptime] turns the format into the regular expression
    [(\d\d\d\d)-(1[0-2]|0[1-9]|[1-9])-(3[0-1]|[1-2]\d|0[1-9]|[1-9]| [1-9])T
     (2[0-3]|[0-1]\d|\d):([0-5]\d|\d):(6[0-1]|[0-5]\d|\d)],
    matches it ignoring case at the start of the string, and rejects the
    string when the match fails or does not reach its end. *)
Module Strptime.

Definition char_class := ascii -> bool.

Definition range (lo hi : ascii) : char_class :=
  fun c => ((N_of_ascii lo <=? N_of_ascii c)
            && (N_of_ascii c <=? N_of_ascii hi))%N.

Definition digit : char_class := range "0" "9".
Definition lit (a : ascii) : char_class := Ascii.eqb a.

(** One alternative of a group: a sequence of character classes. *)
Fixpoint match_seq (cs : list char_class) (s : list ascii)
  : option (list ascii * list ascii) :=
  match cs with
  | [] => Some ([], s)
  | cl :: cs' =>
      match s with
      | c :: s' =>
          if cl c
          then match match_seq cs' s' with
               | Some (m, rest) => Some (c :: m, rest)
               | None => None
               end
          else None
      | [] => None
      end
  end.

(** The alternatives of a group in order: the first one that matches and
    lets the rest of the expression match is taken. *)
Fixpoint group {R} (alts : list (list char_class)) (s : list ascii)
         (k : list ascii -> list ascii -> option R) : option R :=
  match alts with
  | [] => None
  | a :: alts' =>
      match match_seq a s with
      | Some (m, rest) =>
          match k m rest with
          | Some r => Some r
          | None => group alts' s k
          end
      | None => group alts' s k
      end
  end.

(** A literal of the format, compared without regard to case. *)
Definition literal {R} (lower upper : ascii) (s : list ascii)
           (k : list ascii -> option R) : option R :=
  match s with
  | c :: s' => if Ascii.eqb c lower || Ascii.eqb c upper then k s' else None
  | [] => None
  end.

Definition re_Y := [[digit; digit; digit; digit]].
Definition re_m := [[lit "1"; range "0" "2"]; [lit "0"; range "1" "9"];
                    [range "1" "9"]].
Definition re_d := [[lit "3"; range "0" "1"]; [range "1" "2"; digit];
                    [lit "0"; range "1" "9"]; [range "1" "9"];
                    [lit " "; range "1" "9"]].
Definition re_H := [[lit "2"; range "0" "3"]; [range "0" "1"; digit];
                    [digit]].
Definition re_M := [[range "0" "5"; digit]; [digit]].
Definition re_S := [[lit "6"; range "0" "1"]; [range "0" "5"; digit];
                    [digit]].

(** [int(found_dict[...])]; the day group may start with a blank. *)
Definition num (ds : list ascii) : Z :=
  fold_left (fun acc c => if is_digit c then 10 * acc + digit_val c else acc)
            ds 0.

Definition fields := (Z * Z * Z * Z * Z * Z)%type.

(** The match of the format's expression: the six fields and what is left
    of the string. *)
Definition format_match (s : list ascii) : option (fields * list ascii) :=
  group re_Y s (fun y s =>
  literal "-" "-" s (fun s =>
  group re_m s (fun m s =>
  literal "-" "-" s (fun s =>
  group re_d s (fun d s =>
  literal "t" "T" s (fun s =>
  group re_H s (fun hh s =>
  literal ":" ":" s (fun s =>
  group re_M s (fun mm s =>
  literal ":" ":" s (fun s =>
  group re_S s (fun ss rest =>
    Some ((num y, num m, num d, num hh, num mm, num ss), rest)))))))))))).

(** [datetime.strptime(s, "%Y-%m-%dT%H:%M:%S")]: unconverted data, the year
    zero, a day the month does not have and a second above 59 are all
    [ValueError]s. *)
Definition strptime (s : string) : result datetime :=
  match format_match (list_ascii_of_string s) with
  | Some ((y, m, d, hh, mm, ss), []) =>
      if (1 <=? y) && (d <=? days_in_month y m) && (ss <=? 59)
      then Ok {| dt_day := ymd2ord y m d;
                 dt_sec := hh * 3600 + mm * 60 + ss;
                 dt_us := 0 |}
      else Raise ValueError
  | _ => Raise ValueError
  end.

End Strptime.

(** [datetime.strptime(v, "%Y-%m-%dT%H:%M:%S")] on a loaded value: only a
    string is accepted. *)
Definition py_strptime (v : json) : result datetime :=
  match v with
  | JStr s => Strptime.strptime s
  | _ => Raise TypeError
  end.

(* ===================================================================== *)
(** * Compiled patterns and [re.match] *)
(* ===================================================================== *)

(** The patterns: the regular constructs of Python's [re] syntax, with the
    start-of-string anchor [^].  [Never] matches nothing; it has no syntax
    and only arises as a residual. *)
Module Re.

Inductive regex :=
| Never
| Eps                          (* the empty pattern *)
| Bol                          (* ^ *)
| Chr (c : ascii)              (* a literal character *)
| Dot                          (* . : any character but a newline *)
| OneOf (cs : list ascii)      (* [abc] *)
| NoneOf (cs : list ascii)     (* [^abc] *)
| Alt (r1 r2 : regex)          (* r1|r2 *)
| Seq (r1 r2 : regex)          (* r1r2 *)
| Star (r : regex).            (* r* *)

Definition newline : ascii := ascii_of_nat 10.

Definition mem (c : ascii) (cs : list ascii) : bool :=
  existsb (Ascii.eqb c) cs.

Definition is_nil {A} (l : list A) : bool :=
  match l with [] => true | _ => false end.

(** [Matches bol r s]: the pattern [r] matches exactly the text [s], which
    starts at the beginning of the subject string iff [bol]. *)
Inductive Matches : bool -> regex -> list ascii -> Prop :=
| M_Eps b : Matches b Eps []
| M_Bol : Matches true Bol []
| M_Chr b c : Matches b (Chr c) [c]
| M_Dot b c : c <> newline -> Matches b Dot [c]
| M_OneOf b c cs : mem c cs = true -> Matches b (OneOf cs) [c]
| M_NoneOf b c cs : mem c cs = false -> Matches b (NoneOf cs) [c]
| M_AltL b r1 r2 s : Matches b r1 s -> Matches b (Alt r1 r2) s
| M_AltR b r1 r2 s : Matches b r2 s -> Matches b (Alt r1 r2) s
| M_Seq b r1 r2 s1 s2 :
    Matches b r1 s1 -> Matches (b && is_nil s1) r2 s2 ->
    Matches b (Seq r1 r2) (s1 ++ s2)
| M_Star0 b r : Matches b (Star r) []
| M_StarS b r c s1 s2 :
    Matches b r (c :: s1) -> Matches false (Star r) s2 ->
    Matches b (Star r) (c :: s1 ++ s2).

(** Does [r] match the empty text at this position? *)
Fixpoint nullable (bol : bool) (r : regex) : bool :=
  match r with
  | Never => false
  | Eps => true
  | Bol => bol
  | Chr _ | Dot | OneOf _ | NoneOf _ => false
  | Alt r1 r2 => nullable bol r1 || nullable bol r2
  | Seq r1 r2 => nullable bol r1 && nullable bol r2
  | Star _ => true
  end.

Definition test (b : bool) : regex := if b then Eps else Never.

(** What is left of [r] after it has consumed the character [c]. *)
Fixpoint deriv (bol : bool) (c : ascii) (r : regex) : regex :=
  match r with
  | Never | Eps | Bol => Never
  | Chr c' => test (Ascii.eqb c c')
  | Dot => test (negb (Ascii.eqb c newline))
  | OneOf cs => test (mem c cs)
  | NoneOf cs => test (negb (mem c cs))
  | Alt r1 r2 => Alt (deriv bol c r1) (deriv bol c r2)
  | Seq r1 r2 =>
      Alt (Seq (deriv bol c r1) r2)
          (if nullable bol r1 then deriv bol c r2 else Never)
  | Star r1 => Seq (deriv bol c r1) (Star r1)
  end.

(** The pattern matches some prefix of [s]. *)
Fixpoint match_prefix (bol : bool) (r : regex) (s : list ascii) : bool :=
  nullable bol r ||
  match s with
  | [] => false
  | c :: s' => match_prefix false (deriv bol c r) s'
  end.

(** The pattern matches all of [s]. *)
Fixpoint match_all (bol : bool) (r : regex) (s : list ascii) : bool :=
  match s with
  | [] => nullable bol r
  | c :: s' => match_all false (deriv bol c r) s'
  end.

(** The pattern matches a prefix of some non-empty suffix's tail. *)
Fixpoint match_later (r : regex) (s : list ascii) : bool :=
  match s with
  | [] => false
  | _ :: s' => match_prefix false r s' || match_later r s'
  end.

(** [re.match(r, s)] is not [None]: a match at the start of [s]. *)
Definition re_match (r : regex) (s : string) : bool :=
  match_prefix true r (list_ascii_of_string s).

(** [re.fullmatch(r, s)] is not [None]: a match of the whole of [s]. *)
Definition re_fullmatch (r : regex) (s : string) : bool :=
  match_all true r (list_ascii_of_string s).

(** [re.search(r, s)] is not [None]: a match somewhere in [s]. *)
Definition re_search (r : regex) (s : string) : bool :=
  let l := list_ascii_of_string s in
  match_prefix true r l || match_later r l.

(** The pattern of the literal text [s]. *)
Fixpoint literal (s : list ascii) : regex :=
  match s with
  | [] => Eps
  | c :: s' => Seq (Chr c) (literal s')
  end.

End Re.

Import Re.

(* ===================================================================== *)
(** * Feed entries and the timestamp of an entry *)
(* ===================================================================== *)

(** The value of a [*_parsed] attribute of a feed entry: [None] when the feed
    gave a date that could not be parsed, else a [time.struct_time], given
    here by the date and the time of day that its fields spell (the parser
    sets [tm_isdst] to zero). *)
Inductive parsed_time :=
| PyNone
| StructTime (t : datetime).

(** A [feedparser.FeedParserDict] entry; an attribute the feed did not give
    is absent ([None] here), and reading it raises [AttributeError]. *)
Record entry := mk_entry {
  published_parsed : option parsed_time;
  updated_parsed : option parsed_time;
  title : option string;
  link : option string
}.

Definition getattr {A} (attribute : option A) : result A :=
  match attribute with
  | Some v => Ok v
  | None => Raise AttributeError
  end.

(* ===================================================================== *)
(** * The world of a run and its effects *)
(* ===================================================================== *)

Inductive level := DEBUG | WARNING | ERROR.

(** The log messages of the script, with their arguments. *)
Inductive message :=
| Starting                       (* "Starting download_new... " *)
| IgnoringWatermarks             (* "Ignoring .newsfeed_media_dl.json due to parsing error" *)
| ParsingFeed (url : json)       (* "Parsing feed: %s" *)
| FoundUrl (vurl : string)       (* "Found url: %s" *)
| DownloadFailed (vurl : string). (* "Download failed: %s" *)

(** What a run does, in order.  [EvExtractItems] marks the entry into
    [extract_items] with its [url] and [newer_than] arguments; it is a
    bookkeeping event without output.  The others are visible outside:
    [EvParse] is the retrieval of a feed, [EvCall] the start of a downloader,
    [EvWrite] the overwriting of the watermark file of a directory. *)
Inductive event :=
| EvLog (lvl : level) (msg : message)
| EvChdir (dir : string)
| EvExtractItems (url : json) (newer_than : datetime)
| EvParse (url : json)
| EvCall (downloader : json) (vurl : string)
| EvWrite (dir : string) (doc : json).

(** A file, up to what reading and [json.loads] make of it: bytes that are
    no text in the encoding of the locale, a text that [json.loads] rejects as
    no JSON, a text with brackets nested deeper than the parser can follow, a
    text with a number of more than [MAX_STR_DIGITS] digits, or a text with
    the document it parses to. *)
Inductive file_content :=
| Undecodable
| NotJson (text : string)
| TooDeep (text : string)
| HugeNumber (text : string)
| JsonDoc (doc : json).

(** How the start of an external program ends. *)
Inductive proc_outcome :=
| Exited (code : Z)
| NotStarted.

(** What [time.localtime] makes of a timestamp: the local date, as an
    ordinal, and the second of the day, or an error when the timestamp is out
    of range for the platform. *)
Inductive localtime_outcome :=
| LocalTime (day sec : Z)
| LocalOverflow               (* [OverflowError] *)
| LocalFailure.               (* [OSError] *)

(** What the surroundings of the script do.  The outcome of a retrieval and
    of a sub-process may depend on everything that happened before. *)
Record world := mk_world {
  w_files : string -> option file_content;  (* files named on the command line *)
  w_dirs : string -> bool;                  (* directories [os.chdir] can enter *)
  w_now : datetime;                         (* [datetime.now()] *)
  w_mktime : datetime -> option Z;          (* [time.mktime] on a [struct_time]
                                               with these fields: the seconds
                                               since the epoch; [None] is
                                               [OverflowError] *)
  w_localtime : Z -> localtime_outcome;     (* [time.localtime] *)
  w_compile : string -> option regex;       (* [re.compile]; [None] is [re.error] *)
  w_feed : list event -> string -> result (list entry);
                                            (* [feedparser.parse(url).entries] *)
  w_exec : list event -> string -> string -> proc_outcome
                                            (* running [downloader vurl] *)
}.

(** The part of the surroundings the script changes: the working directory,
    the file [.newsfeed_media_dl.json] of each directory and the trace of
    events. *)
Record state := mk_state {
  st_cwd : string;
  st_wm : string -> option file_content;
  st_trace : list event
}.

(** Computations with effects that may raise: an exception leaves the effects
    done so far in place. *)
Definition M (A : Type) : Type := state -> result A * state.

Module Eff.

Definition ret {A} (a : A) : M A := fun st => (Ok a, st).

Definition raise {A} (e : exn) : M A := fun st => (Raise e, st).

Definition bind {A B} (m : M A) (k : A -> M B) : M B :=
  fun st =>
    match m st with
    | (Ok a, st') => k a st'
    | (Raise e, st') => (Raise e, st')
    end.

Definition lift {A} (r : result A) : M A := fun st => (r, st).

(** [try: m  except <class>: h] *)
Definition try_except {A} (m : M A) (catches : exn -> bool) (h : M A)
  : M A :=
  fun st =>
    match m st with
    | (Ok a, st') => (Ok a, st')
    | (Raise e, st') => if catches e then h st' else (Raise e, st')
    end.

(** [try: m  except <class1>: h1  except <class2>: h2] *)
Definition try_except2 {A} (m : M A) (catches1 : exn -> bool) (h1 : M A)
           (catches2 : exn -> bool) (h2 : M A) : M A :=
  fun st =>
    match m st with
    | (Ok a, st') => (Ok a, st')
    | (Raise e, st') =>
        if catches1 e then h1 st'
        else if catches2 e then h2 st'
        else (Raise e, st')
    end.

Definition emit (ev : event) : M unit :=
  fun st => (Ok tt, {| st_cwd := st_cwd st;
                       st_wm := st_wm st;
                       st_trace := st_trace st ++ [ev] |}).

(** [for x in l: body x] *)
Fixpoint for_each {A} (l : list A) (body : A -> M unit) : M unit :=
  match l with
  | [] => ret tt
  | x :: l' => bind (body x) (fun _ => for_each l' body)
  end.

End Eff.

Declare Scope eff_scope.
Delimit Scope eff_scope with eff.
Notation "x <- c ;; k" := (Eff.bind c (fun x => k))
  (at level 61, c at next level, right associativity) : eff_scope.
Notation "' p <- c ;; k" := (Eff.bind c (fun x => let p := x in k))
  (at level 61, p pattern, c at next level, right associativity) : eff_scope.
Notation "c ;; k" := (Eff.bind c (fun _ => k))
  (at level 61, right associativity) : eff_scope.

Definition SUPPORTED_DOWNLOADERS : list string :=
  ["aria2c"; "wget"; "youtube-dl"].

Definition WATERMARK_FILE : string := ".newsfeed_media_dl.json".

(** Whether a string has a null character in it. *)
Definition has_nul (s : string) : bool :=
  existsb (Ascii.eqb "000"%char) (list_ascii_of_string s).

(** [x in l] for a list of strings. *)
Definition py_in (x : json) (l : list string) : bool :=
  match x with
  | JStr s => existsb (String.eqb s) l
  | _ => false
  end.

Section Script.

Variable w : world.

Local Open Scope eff_scope.

Definition logging (lvl : level) (msg : message) : M unit :=
  Eff.emit (EvLog lvl msg).

(** [json.loads] on what [read] has returned. *)
Definition json_loads (text : file_content) : result json :=
  match text with
  | JsonDoc doc => Ok doc
  | NotJson _ => Raise JSONDecodeError
  | TooDeep _ => Raise RecursionError
  | HugeNumber _ => Raise ValueError
  | Undecodable => Raise UnicodeDecodeError
  end.

(** [open(path, "r")], [read] and [close]: a file that cannot be opened is an
    [OSError], bytes that do not decode make [read] raise
    [UnicodeDecodeError]. *)
Definition read_file (f : option file_content) : result file_content :=
  match f with
  | Some Undecodable => Raise UnicodeDecodeError
  | Some text => Ok text
  | None => Raise OSError
  end.

(** [time.mktime(v)]; [time.mktime(None)] is a [TypeError]. *)
Definition time_mktime (v : parsed_time) : result Z :=
  match v with
  | StructTime t =>
      match w_mktime w t with
      | Some timestamp => Ok timestamp
      | None => Raise OverflowError
      end
  | PyNone => Raise TypeError
  end.

(** [datetime.fromtimestamp(timestamp)] for a whole number of seconds: the
    local time of the timestamp, which has to lie in the years 1 to 9999. *)
Definition datetime_fromtimestamp (timestamp : Z) : result datetime :=
  match w_localtime w timestamp with
  | LocalTime day sec =>
      if (MINORDINAL <=? day) && (day <=? MAXORDINAL)
         && (0 <=? sec) && (sec <? 86400)
      then Ok {| dt_day := day; dt_sec := sec; dt_us := 0 |}
      else Raise ValueError
  | LocalOverflow => Raise OverflowError
  | LocalFailure => Raise OSError
  end.

(** [datetime.fromtimestamp(time.mktime(v))] *)
Definition local_datetime (v : parsed_time) : result datetime :=
  Exc.bind (time_mktime v) datetime_fromtimestamp.

(** ** [get_entry_datetime] *)

Definition get_entry_datetime (e : entry) : result datetime :=
  Exc.try_except
    (Exc.bind (getattr (published_parsed e)) local_datetime)
    is_AttributeError
    (Exc.bind (getattr (updated_parsed e)) local_datetime).

(** The list comprehension of [extract_items]: the title is read only when
    the entry is new enough, the link only when the title matches too. *)
Fixpoint select_links (regex : regex) (newer_than : datetime)
         (entries : list entry) : result (list string) :=
  match entries with
  | [] => Ok []
  | e :: entries' =>
      (t <- get_entry_datetime e ;;
       keep <- (if dt_gtb t newer_than
                then s <- getattr (title e) ;; Ok (re_match regex s)
                else Ok false) ;;
       if keep
       then l <- getattr (link e) ;;
            rest <- select_links regex newer_than entries' ;;
            Ok (l :: rest)
       else select_links regex newer_than entries')%exc
  end.

(** The items of the generator [get_entry_datetime(e) for e in entries]. *)
Fixpoint entry_datetimes (entries : list entry) : result (list datetime) :=
  match entries with
  | [] => Ok []
  | e :: entries' =>
      (t <- get_entry_datetime e ;;
       ts <- entry_datetimes entries' ;;
       Ok (t :: ts))%exc
  end.

(** [os.chdir(directory)]: a string names a directory, unless it has a null
    character in it, which is a [ValueError]; an integer is taken for a file
    descriptor, which has to fit a C [int], and the script holds none of a
    directory. *)
Definition chdir (directory : json) : M unit :=
  match directory with
  | JStr d =>
      if has_nul d then Eff.raise ValueError
      else if w_dirs w d
      then fun st => (Ok tt, {| st_cwd := d;
                                st_wm := st_wm st;
                                st_trace := st_trace st ++ [EvChdir d] |})
      else Eff.raise OSError
  | JInt fd =>
      if (- 2 ^ 31 <=? fd) && (fd <? 2 ^ 31) then Eff.raise OSError
      else Eff.raise OverflowError
  | JBool _ => Eff.raise OSError
  | _ => Eff.raise TypeError
  end.

(** Reading [.newsfeed_media_dl.json] in the working directory. *)
Definition read_watermark_file : M file_content :=
  fun st => (read_file (st_wm st (st_cwd st)), st).

(** Writing [json.dumps(doc)] over [.newsfeed_media_dl.json] in the working
    directory. *)
Definition write_watermark_file (doc : json) : M unit :=
  fun st =>
    (Ok tt,
     {| st_cwd := st_cwd st;
        st_wm := fun dir => if String.eqb dir (st_cwd st)
                            then Some (JsonDoc doc) else st_wm st dir;
        st_trace := st_trace st ++ [EvWrite (st_cwd st) doc] |}).

(** [feedparser.parse(url).entries] for a URL that is a string.  The feeds
    of this development are named by strings: for another value the
    retrieval is taken to fail. *)
Definition feedparser_parse (url : json) : M (list entry) :=
  fun st =>
    let st' := {| st_cwd := st_cwd st;
                  st_wm := st_wm st;
                  st_trace := st_trace st ++ [EvParse url] |} in
    match url with
    | JStr u => (w_feed w (st_trace st) u, st')
    | _ => (Raise AttributeError, st')
    end.

(** [check_call([downloader, vurl])]: a program that cannot be started is
    an [OSError], an exit status other than zero a [CalledProcessError]. *)
Definition check_call (downloader : json) (vurl : string) : M unit :=
  match downloader with
  | JStr d =>
      fun st =>
        let st' := {| st_cwd := st_cwd st;
                      st_wm := st_wm st;
                      st_trace := st_trace st ++ [EvCall downloader vurl] |} in
        match w_exec w (st_trace st) d vurl with
        | Exited code =>
            if code =? 0 then (Ok tt, st') else (Raise CalledProcessError, st')
        | NotStarted => (Raise OSError, st')
        end
  | _ => Eff.raise TypeError
  end.

(** ** [extract_items] *)

Definition extract_items (url : json) (regex : regex) (newer_than : datetime)
  : M (list string * datetime) :=
  Eff.emit (EvExtractItems url newer_than) ;;
  entries <- feedparser_parse url ;;
  vurls <- Eff.lift (select_links regex newer_than entries) ;;
  newest <- Eff.lift (Exc.bind (entry_datetimes entries) py_max) ;;
  Eff.ret (vurls, newest).

(** ** [download] *)

Definition download (vurl : string) (downloader : json) : M unit :=
  Eff.try_except
    (check_call downloader vurl)
    is_CalledProcessError
    (logging ERROR (DownloadFailed vurl)).

(** ** [download_new] *)

(** [re.compile(v)] *)
Definition re_compile (v : json) : result regex :=
  match v with
  | JStr s => match w_compile w s with
              | Some r => Ok r
              | None => Raise ReError
              end
  | _ => Raise TypeError
  end.

Definition config_error_of {A} (msg : config_error) : M A :=
  Eff.raise (InvalidInputDataException msg).

(** Lines 158 to 163: the three keys of a feed. *)
Definition feed_fields (feed : json) : M (json * regex * json) :=
  Eff.try_except
    (Eff.lift
       (Exc.bind (py_subscript feed (JStr "url")) (fun url =>
        Exc.bind (py_subscript feed (JStr "regex")) (fun source =>
        Exc.bind (re_compile source) (fun regex =>
        Exc.bind (py_subscript feed (JStr "downloader")) (fun downloader =>
        Ok (url, regex, downloader)))))))
    (fun e => is_KeyError e || is_TypeError e)
    (config_error_of InvalidFeedsList).

(** Lines 168 to 173: the cutoff of a feed. *)
Definition feed_newer_than (start_time : datetime) (last_run url : json)
  : M datetime :=
  Eff.try_except
    (Eff.lift
       (Exc.bind (py_subscript last_run url) (fun v =>
        Exc.bind (py_strptime v) (fun t =>
        Ok (dt_max start_time t)))))
    is_KeyError
    (Eff.ret start_time).

(** [last_run[url] = value] for a URL that is a string, the only kind of
    URL the retrieval goes through with here. *)
Definition store_watermark (last_run url value : json) : result json :=
  match url with
  | JStr u => py_setitem last_run u value
  | _ => Raise TypeError
  end.

(** The body of the loop over the feeds, lines 158 to 189; [last_run] is
    the watermark store before, the result the store after. *)
Definition process_feed (start_time : datetime) (feed last_run : json)
  : M json :=
  ' (url, regex, downloader) <- feed_fields feed ;;
  logging DEBUG (ParsingFeed url) ;;
  if negb (py_in downloader SUPPORTED_DOWNLOADERS)
  then config_error_of (UnsupportedDownloader downloader)
  else
    newer_than <- feed_newer_than start_time last_run url ;;
    ' (vurls, newest) <- extract_items url regex newer_than ;;
    Eff.for_each vurls (fun vurl =>
      logging DEBUG (FoundUrl vurl) ;;
      download vurl downloader) ;;
    last_run' <- Eff.lift
      (store_watermark last_run url (JStr (isoformat newest))) ;;
    write_watermark_file last_run' ;;
    Eff.ret last_run'.

(** [for feed in feeds: ...]; the result is the watermark store the loop
    ends with. *)
Fixpoint process_feeds (start_time : datetime) (feeds : list json)
         (last_run : json) : M json :=
  match feeds with
  | [] => Eff.ret last_run
  | feed :: feeds' =>
      last_run' <- process_feed start_time feed last_run ;;
      process_feeds start_time feeds' last_run'
  end.

(** Lines 110 to 139: the settings; the result is the start of the time
    window and the [feeds] value. *)
Definition read_settings (settings_file : string) : M (datetime * json) :=
  text <- Eff.lift (read_file (w_files w settings_file)) ;;
  settings <- Eff.lift (json_loads text) ;;
  directory <- Eff.try_except
    (Eff.lift (py_subscript settings (JStr "directory")))
    is_KeyError (config_error_of NoDirectory) ;;
  Eff.try_except (chdir directory)
    is_OSError (config_error_of DirectoryMissing) ;;
  start_time <- Eff.try_except2
    (Eff.lift
       (Exc.bind (py_subscript settings (JStr "maxage")) (fun v =>
        Exc.bind (py_int v) (fun maxage =>
        Exc.bind (timedelta_days maxage) (fun days =>
        dt_sub_days (midnight (w_now w)) days)))))
    is_KeyError (config_error_of NoTimeFrame)
    is_TypeError (config_error_of InvalidTimeFrame) ;;
  feeds <- Eff.try_except
    (Eff.lift (py_subscript settings (JStr "feeds")))
    is_KeyError (config_error_of NoFeeds) ;;
  Eff.ret (start_time, feeds).

(** Lines 143 to 154: the watermarks of the previous run. *)
Definition read_last_run : M json :=
  text <- Eff.try_except read_watermark_file
    is_OSError (Eff.ret (JsonDoc (JDict []))) ;;
  Eff.try_except (Eff.lift (json_loads text))
    is_JSONDecodeError
    (logging WARNING IgnoringWatermarks ;; Eff.ret (JDict [])).

Definition download_new (settings_file : string) : M unit :=
  logging DEBUG Starting ;;
  ' (start_time, feeds) <- read_settings settings_file ;;
  last_run <- read_last_run ;;
  items <- Eff.lift (py_iter feeds) ;;
  process_feeds start_time items last_run ;;
  Eff.ret tt.

End Script.

(* ===================================================================== *)
(** * A sample run *)
(* ===================================================================== *)

Module Sample.

Definition at_time (day sec : Z) : datetime :=
  {| dt_day := day; dt_sec := sec; dt_us := 0 |}.

Definition today : Z := 738945.          (* 2024-02-29 *)

Definition news (t : datetime) (headline url : string) : entry :=
  {| published_parsed := Some (StructTime t);
     updated_parsed := None;
     title := Some headline;
     link := Some url |}.

(** The feed of the scenario: two headlines that start with "Breaking",
    one of yesterday and one of today, and another one of today. *)
Definition entries : list entry :=
  [ news (at_time (today - 1) 36000) "Breaking News" "http://media/1";
    news (at_time today 3600) "Breaking Update" "http://media/2";
    news (at_time today 1800) "Other" "http://media/3" ].

(** Patterns without special characters compile to themselves. *)
Definition compile (s : string) : option regex :=
  Some (literal (list_ascii_of_string s)).

Definition feed_config (url downloader : string) : json :=
  JDict [("url", JStr url); ("regex", JStr "Breaking");
         ("downloader", JStr downloader)].

Definition settings (maxage : json) (feeds : list json) : json :=
  JDict [("directory", JStr "media"); ("maxage", maxage);
         ("feeds", JList feeds)].

Definition EPOCH : Z := 719163.          (* 1970-01-01 *)

(** A time zone without daylight saving time and without offset: local time
    is UTC. *)
Definition utc_mktime (t : datetime) : option Z :=
  Some ((dt_day t - EPOCH) * 86400 + dt_sec t).

Definition utc_localtime (timestamp : Z) : localtime_outcome :=
  LocalTime (timestamp / 86400 + EPOCH) (timestamp mod 86400).




(** A world in which the settings file holds [doc], the directory "media"
    exists, it is 12:00:00.25 on 2024-02-29, local time is UTC, the feed
    "http://feed/a" has the entries above and every other feed is empty, and
    the downloaders behave as [exec] says. *)
Definition a_world (doc : json) (exec : string -> string -> proc_outcome)
  : world :=
  {| w_files := fun path =>
       if String.eqb path "settings.json" then Some (JsonDoc doc) else None;
     w_dirs := String.eqb "media";
     w_now := {| dt_day := today; dt_sec := 43200; dt_us := 250000 |};
     w_mktime := utc_mktime;
     w_localtime := utc_localtime;
     w_compile := compile;
     w_feed := fun _ url =>
       if String.eqb url "http://feed/a" then Ok entries else Ok [];
     w_exec := fun _ => exec |}.


Definition all_fine (downloader vurl : string) : proc_outcome := Exited 0.

(** Before the run: no watermark file anywhere, unless given. *)
Definition initially (wm : option file_content) : state :=
  {| st_cwd := "/";
     st_wm := fun dir => if String.eqb dir "media" then wm else None;
     st_trace := [] |}.

End Sample.

(* ===================================================================== *)
(** * Auxiliary definitions: the feed filter *)
(* ===================================================================== *)

(** The filter in the words of the specification: the entry has a timestamp
    strictly greater than the cutoff and a title that the pattern matches
    from its first character on. *)
Definition is_new_match (w : world) (regex : regex) (newer_than : datetime)
           (e : entry) : bool :=
  match get_entry_datetime w e with
  | Ok t =>
      dt_gtb t newer_than &&
      match title e with
      | Some s => re_match regex s
      | None => false
      end
  | Raise _ => false
  end.

(** An entry with a timestamp, a title and a link. *)
Definition complete_entry (w : world) (e : entry) : bool :=
  match get_entry_datetime w e, title e, link e with
  | Ok _, Some _, Some _ => true
  | _, _, _ => false
  end.

(** The state after [extract_items]: two more events. *)
Definition after_extract (url : json) (newer_than : datetime) (st : state)
  : state :=
  {| st_cwd := st_cwd st;
     st_wm := st_wm st;
     st_trace := (st_trace st ++ [EvExtractItems url newer_than])
                 ++ [EvParse url] |}.

(** The entries [extract_items] gets to see. *)
Definition fetched (w : world) (url : json) (newer_than : datetime)
           (st : state) : result (list entry) :=
  match url with
  | JStr u => w_feed w (st_trace st ++ [EvExtractItems url newer_than]) u
  | _ => Raise AttributeError
  end.

(** The newest timestamp of a feed: what [max] makes of the timestamps of
    all entries.  Neither the pattern nor the cutoff occurs in it. *)
Definition newest_of (w : world) (entries : list entry) : result datetime :=
  Exc.bind (entry_datetimes w entries) py_max.

(* ===================================================================== *)
(** * Auxiliary definitions: states and events *)
(* ===================================================================== *)

(** The state with the events [evs] appended to its trace. *)
Definition add_events (evs : list event) (st : state) : state :=
  {| st_cwd := st_cwd st;
     st_wm := st_wm st;
     st_trace := st_trace st ++ evs |}.

(** The state after [doc] has been written over the watermark file. *)
Definition written (doc : json) (st : state) : state :=
  {| st_cwd := st_cwd st;
     st_wm := fun dir => if String.eqb dir (st_cwd st)
                         then Some (JsonDoc doc) else st_wm st dir;
     st_trace := st_trace st ++ [EvWrite (st_cwd st) doc] |}.

(** The body of the loop over the links, lines 181 and 182. *)
Definition download_link (w : world) (downloader : json) (vurl : string)
  : M unit :=
  Eff.bind (logging DEBUG (FoundUrl vurl))
           (fun _ => download w vurl downloader).

(* ===================================================================== *)
(** * Auxiliary definitions: one feed *)
(* ===================================================================== *)

(** The three keys of a feed, without the state they do not touch. *)
Definition feed_fields_of (w : world) (feed : json)
  : result (json * regex * json) :=
  Exc.try_except
    (Exc.bind (py_subscript feed (JStr "url")) (fun url =>
     Exc.bind (py_subscript feed (JStr "regex")) (fun source =>
     Exc.bind (re_compile w source) (fun regex =>
     Exc.bind (py_subscript feed (JStr "downloader")) (fun downloader =>
     Ok (url, regex, downloader))))))
    (fun e => is_KeyError e || is_TypeError e)
    (Raise (InvalidInputDataException InvalidFeedsList)).

(** The cutoff of a feed in the words of the specification: the later of the
    start of the time window and the feed's watermark if the store has one,
    the start of the time window if it has none. *)
Inductive cutoff_for (start_time : datetime) (last_run url : json)
  : datetime -> Prop :=
| cutoff_watermark s t :
    py_subscript last_run url = Ok (JStr s) ->
    Strptime.strptime s = Ok t ->
    cutoff_for start_time last_run url (dt_max start_time t)
| cutoff_window :
    py_subscript last_run url = Raise KeyError ->
    cutoff_for start_time last_run url start_time.

(** The cutoff as the code computes it, without the state. *)
Definition newer_than_of (start_time : datetime) (last_run url : json)
  : result datetime :=
  Exc.try_except
    (Exc.bind (py_subscript last_run url) (fun v =>
     Exc.bind (py_strptime v) (fun t =>
     Ok (dt_max start_time t))))
    is_KeyError
    (Ok start_time).

Definition parsing (url : json) : list event :=
  [EvLog DEBUG (ParsingFeed url)].

(** ** The events of one feed *)

Definition is_extract (ev : event) : bool :=
  match ev with EvExtractItems _ _ => true | _ => false end.

Definition is_write (ev : event) : bool :=
  match ev with EvWrite _ _ => true | _ => false end.

(** Events that neither enter [extract_items] nor write the watermarks. *)
Definition plain (ev : event) : Prop :=
  is_extract ev = false /\ is_write ev = false.

(** What the processing of one feed adds to the trace: either nothing that
    enters [extract_items] or writes, or the debug record, the entry into
    [extract_items] with a cutoff that is right for the store, and then
    events that do not enter [extract_items] again. *)
Inductive feed_events (start_time : datetime) (last_run : json)
  : list event -> Prop :=
| fe_plain evs :
    Forall plain evs -> feed_events start_time last_run evs
| fe_extract url newer_than evs :
    cutoff_for start_time last_run url newer_than ->
    Forall (fun ev => is_extract ev = false) evs ->
    feed_events start_time last_run
      (parsing url ++ EvExtractItems url newer_than :: evs).

(* ===================================================================== *)
(** * Auxiliary definitions: the loop over the feeds and the whole run *)
(* ===================================================================== *)

(** The watermark store a trace leaves behind: the document of its last
    write, or [initial] if it has none. *)
Definition current_store (initial : json) (evs : list event) : json :=
  fold_left (fun store ev =>
               match ev with
               | EvWrite _ doc => doc
               | _ => store
               end) evs initial.

(** Every entry into [extract_items] in [evs] has the cutoff that is right
    for the store as it is at that point. *)
Definition cutoffs_right (start_time : datetime) (initial : json)
           (evs : list event) : Prop :=
  forall pre url newer_than post,
    evs = pre ++ EvExtractItems url newer_than :: post ->
    cutoff_for start_time (current_store initial pre) url newer_than.

(** ** The settings and the watermarks of the previous run *)

(** The state after [os.chdir(dir)]. *)
Definition entered (dir : string) (st : state) : state :=
  {| st_cwd := dir;
     st_wm := st_wm st;
     st_trace := st_trace st ++ [EvChdir dir] |}.

(** The store the run starts with: the document in the watermark file, or
    an empty store if the file is missing or is not JSON (with a file that
    cannot be read or loaded otherwise, the run does not start on a
    store). *)
Definition initial_store (f : option file_content) : json :=
  match f with
  | Some (JsonDoc doc) => doc
  | _ => JDict []
  end.

(** The time window of a settings document: the [maxage] as [int] reads
    it. *)
Definition maxage_of (settings : json) : result Z :=
  Exc.bind (py_subscript settings (JStr "maxage")) py_int.

(** Midnight of the current day minus [maxage] days. *)
Definition window_start (w : world) (maxage : Z) : datetime :=
  {| dt_day := dt_day (w_now w) - maxage; dt_sec := 0; dt_us := 0 |}.

(** The start of the time window as the code computes it. *)
Definition start_time_of (w : world) (settings : json) : result datetime :=
  Exc.bind (py_subscript settings (JStr "maxage")) (fun v =>
  Exc.bind (py_int v) (fun maxage =>
  Exc.bind (timedelta_days maxage) (fun days =>
  dt_sub_days (midnight (w_now w)) days))).

(* ===================================================================== *)
(** * Auxiliary definitions: errors of the run *)
(* ===================================================================== *)

(** The loop over the feeds with what precedes and follows it in
    [download_new], lines 157 to 189. *)
Definition run_feeds (w : world) (start_time : datetime) (feeds last_run : json)
  : M unit :=
  Eff.bind (Eff.lift (py_iter feeds)) (fun items =>
  Eff.bind (process_feeds w start_time items last_run) (fun _ =>
  Eff.ret tt)).

(** Retrievals of feeds and starts of downloaders. *)
Definition is_access (ev : event) : bool :=
  match ev with
  | EvParse _ | EvCall _ _ => true
  | _ => false
  end.

(** ** Watermarks that are not timestamps *)

(** The exact format [YYYY-MM-DDTHH:MM:SS]: nineteen characters, digits but
    for the separators. *)
Definition iso_shaped (s : string) : bool :=
  match list_ascii_of_string s with
  | [y1; y2; y3; y4; s1; m1; m2; s2; d1; d2; s3; h1; h2; s4; n1; n2; s5;
     c1; c2] =>
      forallb is_digit [y1; y2; y3; y4; m1; m2; d1; d2; h1; h2; n1; n2; c1; c2]
      && Ascii.eqb s1 "-" && Ascii.eqb s2 "-" && Ascii.eqb s3 "T"
      && Ascii.eqb s4 ":" && Ascii.eqb s5 ":"
  | _ => false
  end.

(* ===================================================================== *)
(** * The command line *)
(* ===================================================================== *)

(** The records the [__main__] block logs, at error severity. *)
Inductive main_record :=
| NoSettingsFile                       (* "No settings file specified" *)
| InvalidInput (err : config_error).   (* "Invalid input: %s" *)

(** The [__main__] block, lines 192 to 202, run with [sys.argv]: the result,
    the state and what the block itself has logged. *)
Definition main (w : world) (argv : list string) (st : state)
  : result unit * state * list main_record :=
  match argv with
  | _ :: settings_file :: _ =>
      match download_new w settings_file st with
      | (Ok _, st') => (Ok tt, st', [])
      | (Raise (InvalidInputDataException err), st') =>
          (Ok tt, st', [InvalidInput err])
      | (Raise e, st') => (Raise e, st', [])
      end
  | _ => (Ok tt, st, [NoSettingsFile])
  end.

(* ===================================================================== *)
(** * Auxiliary definitions: date-times a checkpoint can hold *)
(* ===================================================================== *)

(** The date-times of the [datetime] module with a microsecond of zero, as
    [datetime.fromtimestamp] yields them for a whole number of seconds. *)
Definition whole_second (d : datetime) : Prop :=
  MINORDINAL <= dt_day d <= MAXORDINAL /\
  0 <= dt_sec d < 86400 /\
  dt_us d = 0.

(** The Gregorian calendar repeats every 400 years, which are 146097 days. *)
Definition DI400Y : Z := 146097.

(** Day [r + 1] of the first 400 years has a year, month and day in range
    which [ymd2ord] takes back to [r + 1]; the year 400 only has days from
    number 145732 on. *)
Definition cycle_day_ok (r : Z) : bool :=
  let '(y, m, d) := ord2ymd (r + 1) in
  (1 <=? y) && (y <=? 400) && ((y <? 400) || (145731 <=? r))
  && (1 <=? m) && (m <=? 12)
  && (1 <=? d) && (d <=? days_in_month y m)
  && (ymd2ord y m d =? r + 1).

(** [P] holds for the [count] integers from [i] on. *)
Fixpoint all_from (count : nat) (i : Z) (P : Z -> bool) : bool :=
  match count with
  | O => true
  | S count' => P i && all_from count' (i + 1) P
  end.

(** The links of the entries in feed order that pass the filter. *)
Definition selected_links (w : world) (regex : regex) (newer_than : datetime)
           (entries : list entry) : list (option string) :=
  map link (filter (is_new_match w regex newer_than) entries).

(** The starts of downloaders in a trace, in order. *)
Fixpoint calls_of (evs : list event) : list (json * string) :=
  match evs with
  | [] => []
  | EvCall downloader vurl :: evs' => (downloader, vurl) :: calls_of evs'
  | _ :: evs' => calls_of evs'
  end.

(** The documents written over the watermark file in a trace, in order. *)
Fixpoint writes_of (evs : list event) : list json :=
  match evs with
  | [] => []
  | EvWrite _ doc :: evs' => doc :: writes_of evs'
  | _ :: evs' => writes_of evs'
  end.

(* ===================================================================== *)
(** * Properties *)
(* ===================================================================== *)

Example strptime_iso :
  Strptime.strptime "2024-02-29T13:05:59"
  = Ok {| dt_day := 738945; dt_sec := 47159; dt_us := 0 |}.
Proof. reflexivity. Qed.

Example isoformat_iso :
  isoformat {| dt_day := 738945; dt_sec := 47159; dt_us := 0 |}
  = "2024-02-29T13:05:59".
Proof. reflexivity. Qed.

(** ** The matcher decides [Matches] *)

Lemma nullable_spec b r : nullable b r = true <-> Matches b r [].
Proof.
  split.
  - revert b; induction r; simpl; intros b H; try discriminate.
    + constructor.
    + subst b; constructor.
    + apply orb_true_iff in H as [H|H]; [apply M_AltL | apply M_AltR]; auto.
    + apply andb_true_iff in H as [H1 H2].
      change (@nil ascii) with (@nil ascii ++ []).
      apply M_Seq; auto. simpl. rewrite andb_true_r. auto.
    + constructor.
  - revert b; induction r; intros b H; inversion H; subst; simpl; auto.
    + rewrite IHr1; auto.
    + rewrite IHr2; auto with bool.
    + match goal with E : _ ++ _ = [] |- _ =>
        apply app_eq_nil in E as [-> ->] end.
      simpl in *. rewrite andb_true_r in *.
      rewrite IHr1, IHr2; auto.
Qed.

Lemma test_spec b' b s : Matches b' (test b) s <-> b = true /\ s = [].
Proof.
  destruct b; simpl; split.
  - intros H; inversion H; auto.
  - intros [_ ->]; constructor.
  - intros H; inversion H.
  - intros [H _]; discriminate.
Qed.

Lemma ascii_neq_eqb (c d : ascii) : c <> d <-> negb (Ascii.eqb c d) = true.
Proof.
  destruct (Ascii.eqb_spec c d); simpl; split; congruence.
Qed.

Lemma deriv_sound b c r s :
  Matches false (deriv b c r) s -> Matches b r (c :: s).
Proof.
  revert b s; induction r; simpl; intros b s H;
    try (inversion H; fail);
    try (apply test_spec in H as [H ->]).
  - apply Ascii.eqb_eq in H; subst; constructor.
  - constructor. apply ascii_neq_eqb; auto.
  - constructor; auto.
  - constructor. apply negb_true_iff; auto.
  - inversion H; subst; [apply M_AltL | apply M_AltR]; auto.
  - inversion H as [| | | | | | ? ? ? ? HL | ? ? ? ? HR | | |]; subst.
    + inversion HL; subst. simpl in *.
      change (c :: s1 ++ s2) with ((c :: s1) ++ s2).
      apply M_Seq; auto. simpl. rewrite andb_false_r; auto.
    + destruct (nullable b r1) eqn:N; [| inversion HR].
      change (c :: s) with ([] ++ c :: s).
      apply M_Seq; [apply nullable_spec; auto |].
      simpl. rewrite andb_true_r. auto.
  - inversion H; subst. simpl in *.
    apply M_StarS; auto.
Qed.

Lemma deriv_complete b c r s :
  Matches b r (c :: s) -> Matches false (deriv b c r) s.
Proof.
  revert b s; induction r; intros b s H; inversion H; subst; simpl.
  - rewrite Ascii.eqb_refl; constructor.
  - apply test_spec; split; auto. apply ascii_neq_eqb; auto.
  - apply test_spec; auto.
  - apply test_spec; split; auto. apply negb_true_iff; auto.
  - apply M_AltL; auto.
  - apply M_AltR; auto.
  - destruct s1 as [|c1 s1]; simpl in *.
    + subst s2. rewrite andb_true_r in *.
      apply M_AltR.
      match goal with N : Matches b r1 [] |- _ =>
        apply nullable_spec in N; rewrite N end.
      auto.
    + match goal with E : _ :: _ = _ :: _ |- _ => inversion E; subst end.
      rewrite andb_false_r in *.
      apply M_AltL. apply M_Seq; auto.
  - apply M_Seq; auto.
Qed.

Lemma match_all_spec r : forall b s, match_all b r s = true <-> Matches b r s.
Proof.
  intros b s; revert b r; induction s as [|c s IH]; intros b r; simpl.
  - apply nullable_spec.
  - rewrite IH. split; [apply deriv_sound | apply deriv_complete].
Qed.

(** [re.match] looks for a match that starts at the first character and may
    end anywhere. *)
Lemma match_prefix_spec r : forall b s,
  match_prefix b r s = true <->
  exists pre post, s = pre ++ post /\ Matches b r pre.
Proof.
  intros b s; revert b r; induction s as [|c s IH]; intros b r; simpl.
  - rewrite orb_false_r, nullable_spec. split.
    + intros H; exists [], []; auto.
    + intros (pre & post & E & H). symmetry in E.
      apply app_eq_nil in E as [-> _]; auto.
  - rewrite orb_true_iff, nullable_spec, IH. split.
    + intros [H | (pre & post & -> & H)].
      * exists [], (c :: s); auto.
      * exists (c :: pre), post; split; auto. apply deriv_sound; auto.
    + intros (pre & post & E & H). destruct pre as [|c' pre]; auto.
      simpl in E. inversion E; subst. right.
      exists pre, post; split; auto. apply deriv_complete; auto.
Qed.

Lemma re_match_spec r s :
  re_match r s = true <->
  exists pre post,
    list_ascii_of_string s = pre ++ post /\ Matches true r pre.
Proof. apply match_prefix_spec. Qed.

Lemma re_fullmatch_spec r s :
  re_fullmatch r s = true <-> Matches true r (list_ascii_of_string s).
Proof. apply match_all_spec. Qed.

(** A full match is a match at the start, and a match at the start is found
    by a search; neither converse holds. *)
Lemma fullmatch_match r s : re_fullmatch r s = true -> re_match r s = true.
Proof.
  rewrite re_fullmatch_spec, re_match_spec. intros H.
  exists (list_ascii_of_string s), []. rewrite app_nil_r; auto.
Qed.

Lemma match_search r s : re_match r s = true -> re_search r s = true.
Proof. unfold re_match, re_search. intros ->; auto. Qed.

Example match_not_fullmatch :
  let r := literal (list_ascii_of_string "Breaking") in
  re_match r "Breaking News" = true /\ re_fullmatch r "Breaking News" = false.
Proof. split; reflexivity. Qed.

Example search_not_match :
  let r := literal (list_ascii_of_string "News") in
  re_search r "Breaking News" = true /\ re_match r "Breaking News" = false.
Proof. split; reflexivity. Qed.

(* ===================================================================== *)
(** * Properties of the order on date-times *)
(* ===================================================================== *)

Lemma dt_gtb_iff a b :
  dt_gtb a b = true <->
  dt_day a > dt_day b \/
  (dt_day a = dt_day b /\
   (dt_sec a > dt_sec b \/ (dt_sec a = dt_sec b /\ dt_us a > dt_us b))).
Proof.
  unfold dt_gtb, dt_compare.
  destruct (Z.compare_spec (dt_day a) (dt_day b));
    destruct (Z.compare_spec (dt_sec a) (dt_sec b));
    destruct (Z.compare_spec (dt_us a) (dt_us b));
    split; intros; try discriminate; try reflexivity; lia.
Qed.

Lemma dt_geb_iff a b :
  dt_geb a b = true <->
  dt_day a > dt_day b \/
  (dt_day a = dt_day b /\
   (dt_sec a > dt_sec b \/ (dt_sec a = dt_sec b /\ dt_us a >= dt_us b))).
Proof.
  unfold dt_geb, dt_compare.
  destruct (Z.compare_spec (dt_day a) (dt_day b));
    destruct (Z.compare_spec (dt_sec a) (dt_sec b));
    destruct (Z.compare_spec (dt_us a) (dt_us b));
    split; intros; try discriminate; try reflexivity; lia.
Qed.

Lemma dt_geb_refl a : dt_geb a a = true.
Proof. apply dt_geb_iff. lia. Qed.

Lemma dt_geb_trans a b c :
  dt_geb a b = true -> dt_geb b c = true -> dt_geb a c = true.
Proof. rewrite !dt_geb_iff. lia. Qed.

Lemma dt_gtb_geb a b : dt_gtb a b = true -> dt_geb a b = true.
Proof. rewrite dt_gtb_iff, dt_geb_iff. lia. Qed.

Lemma dt_not_gtb_geb a b : dt_gtb a b = false -> dt_geb b a = true.
Proof.
  intros H. apply dt_geb_iff.
  assert (N : ~ dt_gtb a b = true) by congruence.
  rewrite dt_gtb_iff in N. lia.
Qed.

Lemma dt_max_geb_l a b : dt_geb (dt_max a b) a = true.
Proof.
  unfold dt_max. destruct (dt_gtb b a) eqn:E.
  - apply dt_gtb_geb; auto.
  - apply dt_geb_refl.
Qed.

Lemma dt_max_geb_r a b : dt_geb (dt_max a b) b = true.
Proof.
  unfold dt_max. destruct (dt_gtb b a) eqn:E.
  - apply dt_geb_refl.
  - apply dt_not_gtb_geb; auto.
Qed.

Lemma max_from_geb_cur l : forall cur, dt_geb (max_from cur l) cur = true.
Proof.
  induction l as [|x l IH]; simpl; intros cur.
  - apply dt_geb_refl.
  - destruct (dt_gtb x cur) eqn:E.
    + eapply dt_geb_trans; [apply IH | apply dt_gtb_geb; auto].
    + apply IH.
Qed.

Lemma max_from_geb l : forall cur x,
  In x l -> dt_geb (max_from cur l) x = true.
Proof.
  induction l as [|y l IH]; simpl; intros cur x [].
  - subst y. destruct (dt_gtb x cur) eqn:E.
    + apply max_from_geb_cur.
    + eapply dt_geb_trans; [apply max_from_geb_cur | apply dt_not_gtb_geb; auto].
  - apply IH; auto.
Qed.

Lemma max_from_in l : forall cur,
  max_from cur l = cur \/ In (max_from cur l) l.
Proof.
  induction l as [|y l IH]; simpl; intros cur; auto.
  destruct (dt_gtb y cur); destruct (IH (if true then y else cur)) as [E|E];
    destruct (IH cur) as [E'|E']; simpl in *; auto.
Qed.

(** [max] of a non-empty list is one of its items and not below any. *)
Lemma py_max_spec l m :
  py_max l = Ok m -> In m l /\ forall x, In x l -> dt_geb m x = true.
Proof.
  destruct l as [|x l]; simpl; intros H; inversion H; subst. split.
  - destruct (max_from_in l x); auto.
  - intros y [<-|Hy]; [apply max_from_geb_cur | apply max_from_geb; auto].
Qed.

(* ===================================================================== *)
(** * The timestamp resolver *)
(* ===================================================================== *)

(** The conversion of a parsed time to a local date-time raises no
    [AttributeError], the one exception the resolver catches. *)
Lemma local_datetime_not_caught w v e :
  local_datetime w v = Raise e -> is_AttributeError e = false.
Proof.
  unfold local_datetime, time_mktime, datetime_fromtimestamp.
  destruct v as [|t]; simpl; [intros H; inversion H; reflexivity |].
  destruct (w_mktime w t) as [timestamp|]; simpl;
    [| intros H; inversion H; reflexivity].
  destruct (w_localtime w timestamp) as [day sec| |];
    try (intros H; inversion H; reflexivity).
  destruct ((MINORDINAL <=? day) && (day <=? MAXORDINAL)
            && (0 <=? sec) && (sec <? 86400));
    intros H; inversion H; reflexivity.
Qed.


(** What the resolver returns is a date-time of whole seconds. *)
Lemma get_entry_datetime_whole_second w e t :
  get_entry_datetime w e = Ok t -> whole_second t.
Proof.
  assert (K : forall v, local_datetime w v = Ok t -> whole_second t).
  { unfold local_datetime, time_mktime, datetime_fromtimestamp.
    intros [|p]; simpl; [discriminate |].
    destruct (w_mktime w p) as [timestamp|]; simpl; [| discriminate].
    destruct (w_localtime w timestamp) as [day sec| |]; try discriminate.
    destruct ((MINORDINAL <=? day) && (day <=? MAXORDINAL)
              && (0 <=? sec) && (sec <? 86400)) eqn:R; [| discriminate].
    intros H; inversion H; subst. clear H.
    rewrite !andb_true_iff in R. destruct R as [[[R1 R2] R3] R4].
    apply Z.leb_le in R1, R2, R3. apply Z.ltb_lt in R4.
    unfold whole_second. simpl. lia. }
  unfold get_entry_datetime.
  destruct (published_parsed e) as [p|]; simpl.
  - destruct (local_datetime w p) as [t'|x] eqn:L; simpl.
    + intros H; inversion H; subst. eauto.
    + rewrite (local_datetime_not_caught _ _ L). discriminate.
  - destruct (updated_parsed e) as [u|]; simpl; [apply K | discriminate].
Qed.




(** A "published" date the feed parser could not read is not lacking: it is
    [None], and the resolver fails on it without looking at "updated". *)
Lemma get_entry_datetime_unparsed w e :
  published_parsed e = Some PyNone -> get_entry_datetime w e = Raise TypeError.
Proof. unfold get_entry_datetime. intros ->. reflexivity. Qed.

(* ===================================================================== *)
(** * The feed filter *)
(* ===================================================================== *)

Lemma extract_items_unfold w url regex newer_than st :
  extract_items w url regex newer_than st =
  (Exc.bind (fetched w url newer_than st) (fun entries =>
   Exc.bind (select_links w regex newer_than entries) (fun vurls =>
   Exc.bind (Exc.bind (entry_datetimes w entries) py_max) (fun newest =>
   Ok (vurls, newest)))),
   after_extract url newer_than st).
Proof.
  unfold extract_items, fetched, after_extract, Eff.bind, Eff.emit,
    feedparser_parse, Eff.lift, Eff.ret.
  destruct url; simpl; try reflexivity.
  destruct (w_feed w _ s) as [entries|]; simpl; try reflexivity.
  destruct (select_links w regex newer_than entries); simpl; try reflexivity.
  destruct (entry_datetimes w entries) as [ts|]; simpl; try reflexivity.
  destruct (py_max ts); reflexivity.
Qed.

Lemma extract_items_inv w url regex newer_than st vurls newest st' :
  extract_items w url regex newer_than st = (Ok (vurls, newest), st') ->
  exists entries,
    fetched w url newer_than st = Ok entries /\
    select_links w regex newer_than entries = Ok vurls /\
    Exc.bind (entry_datetimes w entries) py_max = Ok newest /\
    st' = after_extract url newer_than st.
Proof.
  rewrite extract_items_unfold. intros H. inversion H as [[E E']]. clear H.
  destruct (fetched w url newer_than st) as [entries|]; simpl in E;
    [| discriminate].
  destruct (select_links w regex newer_than entries) eqn:S; simpl in E;
    [| discriminate].
  destruct (Exc.bind (entry_datetimes w entries) py_max) eqn:N; simpl in E;
    [| discriminate].
  inversion E; subst. exists entries; auto.
Qed.

Lemma select_links_spec w regex newer_than entries : forall vurls,
  select_links w regex newer_than entries = Ok vurls ->
  map Some vurls = map link (filter (is_new_match w regex newer_than) entries).
Proof.
  induction entries as [|e entries IH]; simpl; intros vurls H.
  - inversion H; reflexivity.
  - unfold is_new_match.
    destruct (get_entry_datetime w e) as [t|]; simpl in *; [| discriminate].
    destruct (dt_gtb t newer_than); simpl in *; auto.
    destruct (title e) as [s|]; simpl in *; [| discriminate].
    destruct (re_match regex s); simpl in *; auto.
    destruct (link e) as [l|] eqn:L; simpl in *; [| discriminate].
    destruct (select_links w regex newer_than entries) as [rest|]; simpl in *;
      [| discriminate].
    inversion H; subst. simpl. f_equal. auto.
Qed.

Lemma select_links_total w regex newer_than entries :
  (forall e, In e entries -> complete_entry w e = true) ->
  exists vurls, select_links w regex newer_than entries = Ok vurls.
Proof.
  induction entries as [|e entries IH]; simpl; intros C.
  - eauto.
  - destruct IH as [rest R]; [auto |].
    assert (Ce := C e (or_introl eq_refl)). unfold complete_entry in Ce.
    destruct (get_entry_datetime w e) as [t|]; [| discriminate].
    destruct (title e) as [s|]; [| discriminate].
    destruct (link e) as [l|]; [| discriminate]. simpl.
    rewrite R.
    destruct (dt_gtb t newer_than); simpl; eauto.
    destruct (re_match regex s); simpl; eauto.
Qed.

Lemma entry_datetimes_spec w entries : forall ts,
  entry_datetimes w entries = Ok ts ->
  map (get_entry_datetime w) entries = map Ok ts.
Proof.
  induction entries as [|e entries IH]; simpl; intros ts H.
  - inversion H; reflexivity.
  - destruct (get_entry_datetime w e) as [t|]; simpl in *; [| discriminate].
    destruct (entry_datetimes w entries) as [ts'|]; simpl in *; [| discriminate].
    inversion H; subst. simpl. f_equal. auto.
Qed.

Lemma entry_datetimes_total w entries :
  (forall e, In e entries -> complete_entry w e = true) ->
  exists ts, entry_datetimes w entries = Ok ts /\
             List.length ts = List.length entries.
Proof.
  induction entries as [|e entries IH]; simpl; intros C.
  - eauto.
  - destruct IH as (ts & R & L); [auto |].
    assert (Ce := C e (or_introl eq_refl)). unfold complete_entry in Ce.
    destruct (get_entry_datetime w e) as [t|]; [| discriminate].
    simpl. rewrite R. simpl. exists (t :: ts). simpl. auto.
Qed.

Lemma newest_of_spec w entries newest :
  newest_of w entries = Ok newest ->
  (exists e, In e entries /\ get_entry_datetime w e = Ok newest) /\
  (forall e, In e entries ->
     exists t, get_entry_datetime w e = Ok t /\ dt_geb newest t = true).
Proof.
  unfold newest_of. intros H.
  destruct (entry_datetimes w entries) as [ts|] eqn:T; simpl in H;
    [| discriminate].
  apply entry_datetimes_spec in T.
  apply py_max_spec in H as [Hin Hge]. split.
  - assert (I : In (Ok newest) (map (get_entry_datetime w) entries)).
    { rewrite T. apply in_map; auto. }
    apply in_map_iff in I as (e & E & I). eauto.
  - intros e I.
    assert (I' : In (get_entry_datetime w e) (map Ok ts)).
    { rewrite <- T. apply in_map; auto. }
    apply in_map_iff in I' as (t & E & I'). eauto.
Qed.

(** C1. The links [extract_items] returns are the links of exactly those
    entries of the feed whose timestamp is strictly greater than the cutoff
    and whose title has a prefix that the pattern matches, a match anchored at
    the first character that need not reach the end of the title; they come
    in the order of the feed.  On a feed whose entries all have a timestamp,
    a title and a link, and which is not empty, [extract_items] does return. *)
Theorem extract_items_links (w : world) (url : json) (regex : regex)
        (newer_than : datetime) (st : state) :
  (forall vurls newest st',
     extract_items w url regex newer_than st = (Ok (vurls, newest), st') ->
     exists entries,
       fetched w url newer_than st = Ok entries /\
       map Some vurls
       = map link (filter (is_new_match w regex newer_than) entries) /\
       forall e,
         is_new_match w regex newer_than e = true <->
         exists t s pre post,
           get_entry_datetime w e = Ok t /\ dt_gtb t newer_than = true /\
           title e = Some s /\ list_ascii_of_string s = pre ++ post /\
           Matches true regex pre) /\
  (forall entries,
     fetched w url newer_than st = Ok entries ->
     entries <> [] ->
     (forall e, In e entries -> complete_entry w e = true) ->
     exists vurls newest,
       extract_items w url regex newer_than st
       = (Ok (vurls, newest), after_extract url newer_than st)).
Proof.
  split.
  - intros vurls newest st' H.
    apply extract_items_inv in H as (entries & F & S & _ & _).
    exists entries. split; [auto | split; [apply select_links_spec; auto |]].
    intros e. unfold is_new_match. split.
    + destruct (get_entry_datetime w e) as [t|]; [| discriminate].
      intros H. apply andb_true_iff in H as [G T].
      destruct (title e) as [s|]; [| discriminate].
      apply re_match_spec in T as (pre & post & E & M).
      exists t, s, pre, post. auto.
    + intros (t & s & pre & post & -> & G & -> & E & M).
      rewrite G. simpl. apply re_match_spec. eauto.
  - intros entries F N C.
    rewrite extract_items_unfold, F. simpl.
    destruct (select_links_total w regex newer_than entries C) as [vurls ->].
    destruct (entry_datetimes_total w entries C) as (ts & -> & L).
    simpl. destruct ts as [|t ts].
    + destruct entries; [congruence | discriminate].
    + simpl. eauto.
Qed.

Lemma extract_items_links_witness :
  let w := Sample.a_world JNull Sample.all_fine in
  let regex := literal (list_ascii_of_string "Breaking") in
  let newer_than := Sample.at_time (Sample.today - 7) 0 in
  exists entries,
    fetched w (JStr "http://feed/a") newer_than (Sample.initially None)
    = Ok entries /\
    map Some ["http://media/1"; "http://media/2"]
    = map link (filter (is_new_match w regex newer_than) entries) /\
    forall e,
      is_new_match w regex newer_than e = true <->
      exists t s pre post,
        get_entry_datetime w e = Ok t /\ dt_gtb t newer_than = true /\
        title e = Some s /\ list_ascii_of_string s = pre ++ post /\
        Matches true regex pre.
Proof.
  intros w regex newer_than.
  apply (proj1 (extract_items_links w (JStr "http://feed/a") regex newer_than
                  (Sample.initially None))
               ["http://media/1"; "http://media/2"]
               (Sample.at_time Sample.today 3600)
               (after_extract (JStr "http://feed/a") newer_than
                              (Sample.initially None))).
  reflexivity.
Defined.

(** C2. The [newest] timestamp [extract_items] returns is one of the
    timestamps of the feed's entries and not below any of them; it is the
    same for every pattern and every cutoff, so it does not depend on which
    entries pass the filter.  On a feed without entries [extract_items]
    returns nothing: it raises [ValueError]. *)
Theorem extract_items_newest (w : world) (url : json) (regex : regex)
        (newer_than : datetime) (st : state) :
  (forall vurls newest st',
     extract_items w url regex newer_than st = (Ok (vurls, newest), st') ->
     exists entries,
       fetched w url newer_than st = Ok entries /\
       newest_of w entries = Ok newest /\
       (exists e, In e entries /\ get_entry_datetime w e = Ok newest) /\
       (forall e, In e entries ->
          exists t, get_entry_datetime w e = Ok t /\ dt_geb newest t = true)) /\
  (fetched w url newer_than st = Ok [] ->
   extract_items w url regex newer_than st
   = (Raise ValueError, after_extract url newer_than st)) /\
  (forall entries,
     fetched w url newer_than st = Ok entries ->
     entries <> [] ->
     (forall e, In e entries -> complete_entry w e = true) ->
     exists vurls newest,
       extract_items w url regex newer_than st
       = (Ok (vurls, newest), after_extract url newer_than st)).
Proof.
  split; [| split].
  - intros vurls newest st' H.
    apply extract_items_inv in H as (entries & F & _ & N & _).
    exists entries. split; [auto | split; [auto |]].
    apply newest_of_spec; auto.
  - intros F. rewrite extract_items_unfold, F. reflexivity.
  - intros entries F N C.
    rewrite extract_items_unfold, F. simpl.
    destruct (select_links_total w regex newer_than entries C) as [vurls ->].
    destruct (entry_datetimes_total w entries C) as (ts & -> & L).
    simpl. destruct ts as [|t ts].
    + destruct entries; [congruence | discriminate].
    + simpl. eauto.
Qed.

Lemma extract_items_newest_witness :
  let w := Sample.a_world JNull Sample.all_fine in
  let regex := literal (list_ascii_of_string "No such headline") in
  let newer_than := Sample.at_time (Sample.today - 7) 0 in
  (exists entries,
     fetched w (JStr "http://feed/a") newer_than (Sample.initially None)
     = Ok entries /\
     newest_of w entries = Ok (Sample.at_time Sample.today 3600) /\
     (exists e, In e entries /\
                get_entry_datetime w e = Ok (Sample.at_time Sample.today 3600)) /\
     (forall e, In e entries ->
        exists t, get_entry_datetime w e = Ok t /\
                  dt_geb (Sample.at_time Sample.today 3600) t = true)) /\
  extract_items w (JStr "http://feed/none") regex newer_than
                (Sample.initially None)
  = (Raise ValueError,
     after_extract (JStr "http://feed/none") newer_than (Sample.initially None)).
Proof.
  intros w regex newer_than. split.
  - apply (proj1 (extract_items_newest w (JStr "http://feed/a") regex newer_than
                    (Sample.initially None))
                 []
                 (Sample.at_time Sample.today 3600)
                 (after_extract (JStr "http://feed/a") newer_than
                                (Sample.initially None))).
    reflexivity.
  - apply (proj1 (proj2 (extract_items_newest w (JStr "http://feed/none") regex
                           newer_than (Sample.initially None)))).
    reflexivity.
Defined.

(* ===================================================================== *)
(** * The downloader invoker *)
(* ===================================================================== *)

Lemma download_unfold w vurl d st :
  download w vurl (JStr d) st =
  match w_exec w (st_trace st) d vurl with
  | Exited code =>
      if code =? 0
      then (Ok tt, add_events [EvCall (JStr d) vurl] st)
      else (Ok tt, add_events [EvLog ERROR (DownloadFailed vurl)]
                     (add_events [EvCall (JStr d) vurl] st))
  | NotStarted => (Raise OSError, add_events [EvCall (JStr d) vurl] st)
  end.
Proof.
  unfold download, Eff.try_except, check_call, add_events.
  destruct (w_exec w (st_trace st) d vurl) as [code|]; [| reflexivity].
  destruct (code =? 0); reflexivity.
Qed.

(** C6, as the code has it.  When the external downloader exits with a
    status other than zero, [download] logs the failure with the URL at error
    severity and returns normally, so the loop over the links goes on with
    the next link. *)
Theorem download_absorbs_exit_status (w : world) (vurl d : string)
        (code : Z) (st0 : state) :
  let st := add_events [EvLog DEBUG (FoundUrl vurl)] st0 in
  let st' := add_events [EvLog ERROR (DownloadFailed vurl)]
               (add_events [EvCall (JStr d) vurl] st) in
  w_exec w (st_trace st) d vurl = Exited code ->
  code <> 0 ->
  download w vurl (JStr d) st = (Ok tt, st') /\
  forall rest,
    Eff.for_each (vurl :: rest) (download_link w (JStr d)) st0
    = Eff.for_each rest (download_link w (JStr d)) st'.
Proof.
  intros st st' E N.
  assert (D : download w vurl (JStr d) st = (Ok tt, st')).
  { rewrite download_unfold, E.
    destruct (Z.eqb_spec code 0); [contradiction | reflexivity]. }
  split; [exact D |].
  intros rest. simpl. unfold Eff.bind at 1. unfold download_link at 1.
  unfold Eff.bind at 1. unfold logging, Eff.emit.
  fold (add_events [EvLog DEBUG (FoundUrl vurl)] st0). fold st.
  rewrite D. reflexivity.
Qed.

Lemma download_absorbs_exit_status_witness :
  let w := Sample.a_world JNull (fun _ _ => Exited 8) in
  let st0 := Sample.initially None in
  download w "http://media/1" (JStr "wget")
           (add_events [EvLog DEBUG (FoundUrl "http://media/1")] st0)
  = (Ok tt,
     add_events [EvLog DEBUG (FoundUrl "http://media/1");
                 EvCall (JStr "wget") "http://media/1";
                 EvLog ERROR (DownloadFailed "http://media/1")] st0).
Proof.
  intros w st0.
  apply (proj1 (download_absorbs_exit_status w "http://media/1" "wget" st0
                  (code := 8) eq_refl ltac:(discriminate))).
Defined.

(** A downloader that cannot be started is not absorbed: the [OSError] of
    [check_call] is no [CalledProcessError], so it leaves [download] without
    a log record and ends the loop over the links. *)
Lemma download_not_started_propagates :
  let w := Sample.a_world JNull (fun _ _ => NotStarted) in
  let st := Sample.initially None in
  w_exec w (st_trace st) "wget" "http://media/1" = NotStarted /\
  download w "http://media/1" (JStr "wget") st
  = (Raise OSError, add_events [EvCall (JStr "wget") "http://media/1"] st) /\
  ~ (exists st', download w "http://media/1" (JStr "wget") st = (Ok tt, st')
                 /\ In (EvLog ERROR (DownloadFailed "http://media/1"))
                       (st_trace st')).
Proof.
  intros w st. split; [reflexivity | split; [reflexivity |]].
  intros (st' & H & _). discriminate H.
Qed.

Lemma download_launch_failure w vurl d st :
  w_exec w (st_trace st) d vurl = NotStarted ->
  download w vurl (JStr d) st
  = (Raise OSError, add_events [EvCall (JStr d) vurl] st).
Proof. intros E. rewrite download_unfold, E. reflexivity. Qed.

(* ===================================================================== *)
(** * The run orchestrator: one feed *)
(* ===================================================================== *)

Lemma feed_fields_pure w feed st :
  feed_fields w feed st = (feed_fields_of w feed, st).
Proof.
  unfold feed_fields, feed_fields_of, Eff.try_except, Eff.lift,
    Exc.try_except, config_error_of, Eff.raise.
  match goal with |- context [match ?x with _ => _ end] => destruct x end;
    [reflexivity |].
  match goal with |- context [if ?c then _ else _] => destruct c end;
    reflexivity.
Qed.

Lemma feed_newer_than_pure start_time last_run url st :
  feed_newer_than start_time last_run url st
  = (newer_than_of start_time last_run url, st).
Proof.
  unfold feed_newer_than, newer_than_of, Eff.try_except, Eff.lift,
    Exc.try_except, Eff.ret.
  match goal with |- context [match ?x with _ => _ end] => destruct x end;
    [reflexivity |].
  destruct (is_KeyError e); reflexivity.
Qed.

Lemma strptime_raises s e : Strptime.strptime s = Raise e -> e = ValueError.
Proof.
  unfold Strptime.strptime.
  destruct (Strptime.format_match _) as [[[[[[[y m] d] hh] mm] ss] [|c r]]|];
    try (intros H; inversion H; reflexivity).
  match goal with |- context [if ?c then _ else _] => destruct c end;
    intros H; inversion H; reflexivity.
Qed.

Lemma newer_than_of_ok start_time last_run url c :
  newer_than_of start_time last_run url = Ok c ->
  cutoff_for start_time last_run url c.
Proof.
  unfold newer_than_of, Exc.try_except.
  destruct (py_subscript last_run url) as [v|e] eqn:L; simpl.
  - destruct v; simpl; try discriminate.
    destruct (Strptime.strptime s) as [t|e] eqn:P; simpl.
    + intros H; inversion H; subst. econstructor; eauto.
    + apply strptime_raises in P; subst. discriminate.
  - destruct e; simpl; try discriminate.
    intros H; inversion H; subst. constructor; auto.
Qed.

(** A watermark that is a string the parser rejects makes the cutoff a
    [ValueError], which the handler for a missing watermark lets pass. *)
Lemma newer_than_of_rejected start_time last_run url s :
  py_subscript last_run url = Ok (JStr s) ->
  (forall t, Strptime.strptime s <> Ok t) ->
  newer_than_of start_time last_run url = Raise ValueError.
Proof.
  intros L R. unfold newer_than_of, Exc.try_except. rewrite L. simpl.
  destruct (Strptime.strptime s) as [t|e] eqn:P.
  - destruct (R t); reflexivity.
  - apply strptime_raises in P; subst. reflexivity.
Qed.

(** [process_feed], step by step. *)
Lemma process_feed_unfold w start_time feed last_run st :
  process_feed w start_time feed last_run st =
  match feed_fields_of w feed with
  | Raise e => (Raise e, st)
  | Ok (url, regex, downloader) =>
      let st1 := add_events (parsing url) st in
      if negb (py_in downloader SUPPORTED_DOWNLOADERS)
      then (Raise (InvalidInputDataException
                     (UnsupportedDownloader downloader)), st1)
      else
        match newer_than_of start_time last_run url with
        | Raise e => (Raise e, st1)
        | Ok newer_than =>
            match extract_items w url regex newer_than st1 with
            | (Raise e, st2) => (Raise e, st2)
            | (Ok (vurls, newest), st2) =>
                match Eff.for_each vurls (download_link w downloader) st2 with
                | (Raise e, st3) => (Raise e, st3)
                | (Ok _, st3) =>
                    match store_watermark last_run url
                            (JStr (isoformat newest)) with
                    | Raise e => (Raise e, st3)
                    | Ok last_run' => (Ok last_run', written last_run' st3)
                    end
                end
            end
        end
  end.
Proof.
  unfold process_feed. unfold Eff.bind at 1. rewrite feed_fields_pure.
  destruct (feed_fields_of w feed) as [[[url regex] downloader]|e];
    [| reflexivity].
  change (fun vurl : string =>
            Eff.bind (logging DEBUG (FoundUrl vurl))
                     (fun _ => download w vurl downloader))
    with (download_link w downloader).
  unfold Eff.bind at 1. unfold logging at 1. unfold Eff.emit.
  fold (add_events (parsing url) st). cbv zeta.
  destruct (negb (py_in downloader SUPPORTED_DOWNLOADERS)); [reflexivity |].
  unfold Eff.bind at 1. rewrite feed_newer_than_pure.
  destruct (newer_than_of start_time last_run url) as [newer_than|e];
    [| reflexivity].
  unfold Eff.bind at 1.
  destruct (extract_items w url regex newer_than _) as [[[vurls newest]|e] st2];
    [| reflexivity].
  unfold Eff.bind at 1.
  destruct (Eff.for_each vurls (download_link w downloader) st2)
    as [[[]|e] st3]; [| reflexivity].
  unfold Eff.bind at 1, Eff.lift.
  destruct (store_watermark last_run url (JStr (isoformat newest)))
    as [last_run'|e]; reflexivity.
Qed.

Lemma add_events_nil st : add_events [] st = st.
Proof. destruct st; unfold add_events; simpl. rewrite app_nil_r; auto. Qed.

Lemma add_events_app evs1 evs2 st :
  add_events evs2 (add_events evs1 st) = add_events (evs1 ++ evs2) st.
Proof. unfold add_events; simpl. rewrite app_assoc; auto. Qed.

Lemma download_events w vurl d st r st' :
  download w vurl d st = (r, st') ->
  exists evs, st' = add_events evs st /\ Forall plain evs.
Proof.
  assert (T : forall x, Forall plain [] /\ x = add_events [] x).
  { intros x. rewrite add_events_nil. auto. }
  destruct d as [| | | | s | |];
    try (intros H; inversion H; subst; exists []; apply and_comm, T).
  rewrite download_unfold.
  destruct (w_exec w (st_trace st) s vurl) as [code|];
    [destruct (code =? 0) |]; intros H; inversion H; subst.
  - eexists; split; [reflexivity |]. repeat constructor.
  - rewrite add_events_app. eexists; split; [reflexivity |].
    repeat constructor.
  - eexists; split; [reflexivity |]. repeat constructor.
Qed.

Lemma download_link_events w d vurl st r st' :
  download_link w d vurl st = (r, st') ->
  exists evs, st' = add_events evs st /\ Forall plain evs.
Proof.
  unfold download_link, Eff.bind, logging, Eff.emit.
  fold (add_events [EvLog DEBUG (FoundUrl vurl)] st).
  intros H. apply download_events in H as (evs & -> & P).
  rewrite add_events_app. eexists; split; [reflexivity |].
  constructor; auto. split; reflexivity.
Qed.

Lemma for_each_download_events w d vurls : forall st r st',
  Eff.for_each vurls (download_link w d) st = (r, st') ->
  exists evs, st' = add_events evs st /\ Forall plain evs.
Proof.
  induction vurls as [|vurl vurls IH]; simpl; intros st r st' H.
  - inversion H; subst. exists []. rewrite add_events_nil; auto.
  - unfold Eff.bind in H.
    destruct (download_link w d vurl st) as [[[]|e] st1] eqn:D.
    + apply download_link_events in D as (evs1 & -> & P1).
      apply IH in H as (evs2 & -> & P2).
      rewrite add_events_app. eexists; split; [reflexivity |].
      apply Forall_app; auto.
    + inversion H; subst.
      apply download_link_events in D; auto.
Qed.

Lemma plain_not_extract evs :
  Forall plain evs -> Forall (fun ev => is_extract ev = false) evs.
Proof. apply Forall_impl. intros ev []; auto. Qed.

Lemma plain_not_write evs :
  Forall plain evs -> Forall (fun ev => is_write ev = false) evs.
Proof. apply Forall_impl. intros ev []; auto. Qed.

(** The outcome of one feed, with the events it adds. *)
Lemma process_feed_events w start_time feed last_run st r st' :
  process_feed w start_time feed last_run st = (r, st') ->
  exists evs,
    feed_events start_time last_run evs /\
    match r with
    | Ok last_run' =>
        exists evs0,
          evs = evs0 ++ [EvWrite (st_cwd st) last_run'] /\
          Forall (fun ev => is_write ev = false) evs0 /\
          st' = written last_run' (add_events evs0 st)
    | Raise _ =>
        Forall (fun ev => is_write ev = false) evs /\
        st' = add_events evs st
    end.
Proof.
  rewrite process_feed_unfold.
  destruct (feed_fields_of w feed) as [[[url regex] downloader]|e].
  2: { intros H; inversion H; subst. exists []. rewrite add_events_nil.
       split; [constructor |]; auto. }
  cbv zeta.
  assert (Pp : Forall plain (parsing url)).
  { repeat constructor. }
  destruct (negb (py_in downloader SUPPORTED_DOWNLOADERS)).
  { intros H; inversion H; subst. exists (parsing url).
    split; [constructor; auto |]. split; auto. apply plain_not_write; auto. }
  destruct (newer_than_of start_time last_run url) as [c|e] eqn:C.
  2: { intros H; inversion H; subst. exists (parsing url).
       split; [constructor; auto |]. split; auto. apply plain_not_write; auto. }
  apply newer_than_of_ok in C.
  rewrite extract_items_unfold.
  set (st2 := after_extract url c (add_events (parsing url) st)).
  assert (E2 : st2 = add_events
                       (parsing url ++ EvExtractItems url c :: [EvParse url])
                       st).
  { unfold st2, after_extract, add_events; simpl.
    rewrite <- !app_assoc. reflexivity. }
  match goal with |- context [match ?x with _ => _ end] =>
    destruct x as [[vurls newest]|e] end.
  2: { intros H; inversion H; subst. eexists; split.
       - apply fe_extract with (evs := [EvParse url]); eauto.
       - split; [| exact E2]. repeat constructor. }
  destruct (Eff.for_each vurls (download_link w downloader) st2)
    as [[[]|e] st3] eqn:D;
    apply for_each_download_events in D as (evs3 & -> & P3);
    rewrite E2, add_events_app.
  2: { intros H; inversion H; subst.
       exists (parsing url ++ EvExtractItems url c :: EvParse url :: evs3).
       split.
       - apply fe_extract; auto.
         constructor; auto. apply plain_not_extract; auto.
       - split; [| reflexivity].
         repeat (constructor; [reflexivity |]). apply plain_not_write; auto. }
  destruct (store_watermark last_run url (JStr (isoformat newest)))
    as [last_run'|e]; intros H; inversion H; subst.
  - exists ((parsing url ++ EvExtractItems url c :: EvParse url :: evs3)
            ++ [EvWrite (st_cwd st) last_run']).
    split.
    + rewrite <- app_assoc. simpl. apply fe_extract; auto.
      constructor; auto. apply Forall_app. split.
      * apply plain_not_extract; auto.
      * repeat constructor.
    + eexists; split; [reflexivity | split; [| reflexivity]].
      repeat (constructor; [reflexivity |]). apply plain_not_write; auto.
  - exists (parsing url ++ EvExtractItems url c :: EvParse url :: evs3).
    split.
    + apply fe_extract; auto.
      constructor; auto. apply plain_not_extract; auto.
    + split; [| reflexivity].
      repeat (constructor; [reflexivity |]). apply plain_not_write; auto.
Qed.

(* ===================================================================== *)
(** * The run orchestrator: the loop over the feeds *)
(* ===================================================================== *)

Lemma current_store_app initial evs1 evs2 :
  current_store initial (evs1 ++ evs2)
  = current_store (current_store initial evs1) evs2.
Proof. apply fold_left_app. Qed.

Lemma current_store_no_write evs : forall initial,
  Forall (fun ev => is_write ev = false) evs ->
  current_store initial evs = initial.
Proof.
  induction evs as [|ev evs IH]; intros initial F; [reflexivity |].
  inversion F; subst. simpl. destruct ev; try discriminate; apply IH; auto.
Qed.

Lemma no_extract_split evs pre url c post :
  Forall (fun ev => is_extract ev = false) evs ->
  evs <> pre ++ EvExtractItems url c :: post.
Proof.
  intros F E. subst. apply Forall_app in F as [_ F].
  inversion F; subst. discriminate.
Qed.

Lemma feed_events_cutoffs start_time last_run evs :
  feed_events start_time last_run evs ->
  cutoffs_right start_time last_run evs.
Proof.
  intros [evs' P | url c evs' C N] pre url' c' post E.
  - apply plain_not_extract in P. destruct (no_extract_split _ _ _ _ P E).
  - destruct pre as [|p pre]; [discriminate |].
    inversion E as [[E1 E2]]. subst p.
    destruct pre as [|p pre].
    + inversion E2; subst. exact C.
    + inversion E2 as [[E3 E4]].
      destruct (no_extract_split _ _ _ _ N E4).
Qed.

Lemma cutoffs_right_app start_time initial evs1 evs2 :
  cutoffs_right start_time initial evs1 ->
  cutoffs_right start_time (current_store initial evs1) evs2 ->
  cutoffs_right start_time initial (evs1 ++ evs2).
Proof.
  intros C1 C2 pre url c post E.
  apply app_eq_app in E as [l [[E1 E2] | [E1 E2]]].
  - destruct l as [|x l].
    + rewrite app_nil_r in E1. subst pre. simpl in E2.
      apply (C2 [] url c post). auto.
    + inversion E2; subst. apply (C1 pre url c l). reflexivity.
  - subst pre. rewrite current_store_app. apply (C2 l url c post). auto.
Qed.

(** The loop over the feeds keeps the cutoffs right and ends with the store
    it wrote last. *)
Lemma process_feeds_events w start_time feeds : forall last_run st r st',
  process_feeds w start_time feeds last_run st = (r, st') ->
  exists evs,
    st_trace st' = st_trace st ++ evs /\
    cutoffs_right start_time last_run evs /\
    forall last_run', r = Ok last_run' -> current_store last_run evs = last_run'.
Proof.
  induction feeds as [|feed feeds IH]; simpl; intros last_run st r st' H.
  - inversion H; subst. exists []. rewrite app_nil_r.
    split; [reflexivity | split].
    + intros pre url c post E. destruct pre; discriminate.
    + intros lr E; inversion E; reflexivity.
  - unfold Eff.bind in H.
    destruct (process_feed w start_time feed last_run st) as [[lr1|e] st1] eqn:P;
      apply process_feed_events in P as (evs1 & F & P).
    + destruct P as (evs0 & -> & W & ->).
      apply IH in H as (evs2 & T & C & S).
      assert (S1 : current_store last_run (evs0 ++ [EvWrite (st_cwd st) lr1])
                   = lr1).
      { rewrite current_store_app. reflexivity. }
      exists ((evs0 ++ [EvWrite (st_cwd st) lr1]) ++ evs2).
      split; [| split].
      * rewrite T. simpl. rewrite <- !app_assoc. reflexivity.
      * apply cutoffs_right_app; [apply feed_events_cutoffs; auto |].
        rewrite S1. auto.
      * intros lr E. rewrite current_store_app, S1. auto.
    + destruct P as (W & ->). inversion H; subst.
      exists evs1. split; [reflexivity |].
      split; [apply feed_events_cutoffs; auto |]. discriminate.
Qed.

(* ===================================================================== *)
(** * The run orchestrator: settings and watermarks of the previous run *)
(* ===================================================================== *)

Lemma bind_run {A B} (m : M A) (k : A -> M B) st :
  Eff.bind m k st =
  match m st with
  | (Ok a, st') => k a st'
  | (Raise e, st') => (Raise e, st')
  end.
Proof. reflexivity. Qed.

Lemma try_lift_run {A} (r : result A) catches (h : M A) st :
  Eff.try_except (Eff.lift r) catches h st =
  match r with
  | Ok a => (Ok a, st)
  | Raise e => if catches e then h st else (Raise e, st)
  end.
Proof. unfold Eff.try_except, Eff.lift. destruct r; reflexivity. Qed.

Lemma try2_lift_run {A} (r : result A) c1 (h1 : M A) c2 (h2 : M A) st :
  Eff.try_except2 (Eff.lift r) c1 h1 c2 h2 st =
  match r with
  | Ok a => (Ok a, st)
  | Raise e => if c1 e then h1 st else if c2 e then h2 st else (Raise e, st)
  end.
Proof. unfold Eff.try_except2, Eff.lift. destruct r; reflexivity. Qed.

Lemma config_error_run {A} msg st :
  @config_error_of A msg st = (Raise (InvalidInputDataException msg), st).
Proof. reflexivity. Qed.

(** [os.chdir] inside its handler. *)
Lemma chdir_run w directory st :
  Eff.try_except (chdir w directory) is_OSError
                 (config_error_of DirectoryMissing) st =
  match directory with
  | JStr d =>
      if has_nul d then (Raise ValueError, st)
      else if w_dirs w d then (Ok tt, entered d st)
      else (Raise (InvalidInputDataException DirectoryMissing), st)
  | JInt fd =>
      if (- 2 ^ 31 <=? fd) && (fd <? 2 ^ 31)
      then (Raise (InvalidInputDataException DirectoryMissing), st)
      else (Raise OverflowError, st)
  | JBool _ =>
      (Raise (InvalidInputDataException DirectoryMissing), st)
  | _ => (Raise TypeError, st)
  end.
Proof.
  unfold Eff.try_except, chdir.
  destruct directory as [| |fd| |d| |]; try reflexivity.
  - destruct ((- 2 ^ 31 <=? fd) && (fd <? 2 ^ 31)); reflexivity.
  - destruct (has_nul d); [reflexivity |].
    destruct (w_dirs w d); reflexivity.
Qed.

Lemma start_time_of_ok w settings start_time :
  start_time_of w settings = Ok start_time ->
  exists maxage,
    maxage_of settings = Ok maxage /\ start_time = window_start w maxage.
Proof.
  unfold start_time_of, maxage_of, window_start.
  destruct (py_subscript settings (JStr "maxage")) as [v|]; simpl;
    [| discriminate].
  destruct (py_int v) as [maxage|]; simpl; [| discriminate].
  unfold timedelta_days, dt_sub_days, midnight.
  destruct (Z.abs maxage <=? 999999999); simpl; [| discriminate].
  destruct ((MINORDINAL <=? dt_day (w_now w) - maxage)
            && (dt_day (w_now w) - maxage <=? MAXORDINAL)); simpl;
    [| discriminate].
  intros H; inversion H. eauto.
Qed.

(** [read_settings], step by step. *)
Lemma read_settings_unfold w settings_file st :
  read_settings w settings_file st =
  match w_files w settings_file with
  | None => (Raise OSError, st)
  | Some Undecodable => (Raise UnicodeDecodeError, st)
  | Some (NotJson _) => (Raise JSONDecodeError, st)
  | Some (TooDeep _) => (Raise RecursionError, st)
  | Some (HugeNumber _) => (Raise ValueError, st)
  | Some (JsonDoc settings) =>
      match py_subscript settings (JStr "directory") with
      | Raise e =>
          (Raise (if is_KeyError e then InvalidInputDataException NoDirectory
                  else e), st)
      | Ok directory =>
          match Eff.try_except (chdir w directory) is_OSError
                  (config_error_of DirectoryMissing) st with
          | (Raise e, st1) => (Raise e, st1)
          | (Ok _, st1) =>
              match start_time_of w settings with
              | Raise e =>
                  (Raise (if is_KeyError e
                          then InvalidInputDataException NoTimeFrame
                          else if is_TypeError e
                               then InvalidInputDataException InvalidTimeFrame
                               else e), st1)
              | Ok start_time =>
                  match py_subscript settings (JStr "feeds") with
                  | Raise e =>
                      (Raise (if is_KeyError e
                              then InvalidInputDataException NoFeeds
                              else e), st1)
                  | Ok feeds => (Ok (start_time, feeds), st1)
                  end
              end
          end
      end
  end.
Proof.
  unfold read_settings. rewrite bind_run. unfold Eff.lift at 1.
  destruct (w_files w settings_file) as [[|text|text|text|settings]|];
    unfold read_file; cbv beta iota; try reflexivity.
  rewrite bind_run. unfold Eff.lift at 1, json_loads. cbv beta iota.
  rewrite bind_run, try_lift_run.
  destruct (py_subscript settings (JStr "directory")) as [directory|e].
  2: { destruct (is_KeyError e); reflexivity. }
  rewrite bind_run.
  destruct (Eff.try_except (chdir w directory) is_OSError
              (config_error_of DirectoryMissing) st) as [[[]|e] st1];
    [| reflexivity].
  rewrite bind_run, try2_lift_run. fold (start_time_of w settings).
  destruct (start_time_of w settings) as [start_time|e].
  2: { destruct (is_KeyError e); [reflexivity |].
       destruct (is_TypeError e); reflexivity. }
  rewrite bind_run, try_lift_run.
  destruct (py_subscript settings (JStr "feeds")) as [feeds|e].
  2: { destruct (is_KeyError e); reflexivity. }
  reflexivity.
Qed.

Lemma read_settings_ok w settings_file st start_time feeds st1 :
  read_settings w settings_file st = (Ok (start_time, feeds), st1) ->
  exists settings dir maxage,
    w_files w settings_file = Some (JsonDoc settings) /\
    py_subscript settings (JStr "directory") = Ok (JStr dir) /\
    (has_nul dir = false /\ w_dirs w dir = true) /\
    maxage_of settings = Ok maxage /\
    start_time = window_start w maxage /\
    py_subscript settings (JStr "feeds") = Ok feeds /\
    st1 = entered dir st.
Proof.
  rewrite read_settings_unfold.
  destruct (w_files w settings_file) as [[|text|text|text|settings]|];
    try discriminate.
  destruct (py_subscript settings (JStr "directory")) as [directory|e] eqn:Dir;
    [| discriminate].
  rewrite chdir_run.
  destruct directory as [| | fd | | dir | |]; try discriminate.
  1: { destruct ((- 2 ^ 31 <=? fd) && (fd <? 2 ^ 31)); discriminate. }
  destruct (has_nul dir) eqn:Nul; [discriminate |].
  destruct (w_dirs w dir) eqn:D; [| discriminate].
  destruct (start_time_of w settings) as [t|e] eqn:S; [| discriminate].
  destruct (py_subscript settings (JStr "feeds")) as [fs|e] eqn:F;
    [| discriminate].
  intros H; inversion H; subst.
  apply start_time_of_ok in S as (maxage & Mx & ->).
  exists settings, dir, maxage. repeat split; auto.
Qed.

(** The watermarks of the previous run: a missing file is an empty store, a
    file that is not JSON is an empty store and a warning; a file that does
    not decode, nests too deep or holds too long a number raises. *)
Lemma read_last_run_unfold st :
  read_last_run st =
  match st_wm st (st_cwd st) with
  | Some Undecodable => (Raise UnicodeDecodeError, st)
  | Some (NotJson _) =>
      (Ok (JDict []), add_events [EvLog WARNING IgnoringWatermarks] st)
  | Some (TooDeep _) => (Raise RecursionError, st)
  | Some (HugeNumber _) => (Raise ValueError, st)
  | Some (JsonDoc doc) => (Ok doc, st)
  | None => (Ok (JDict []), st)
  end.
Proof.
  unfold read_last_run, Eff.bind, Eff.try_except, read_watermark_file.
  destruct (st_wm st (st_cwd st)) as [[|text|text|text|doc]|]; reflexivity.
Qed.

Lemma read_last_run_store st :
  (exists evs,
     read_last_run st
     = (Ok (initial_store (st_wm st (st_cwd st))), add_events evs st) /\
     Forall plain evs) \/
  (exists e, read_last_run st = (Raise e, st)).
Proof.
  rewrite read_last_run_unfold.
  destruct (st_wm st (st_cwd st)) as [[|text|text|text|doc]|]; simpl;
    try (right; eexists; reflexivity); left.
  - eexists; split; [reflexivity |]. repeat constructor.
  - exists []. rewrite add_events_nil. auto.
  - exists []. rewrite add_events_nil. auto.
Qed.

(** [download_new], phase by phase. *)
Lemma download_new_unfold w settings_file st :
  download_new w settings_file st =
  match read_settings w settings_file
          (add_events [EvLog DEBUG Starting] st) with
  | (Raise e, st1) => (Raise e, st1)
  | (Ok (start_time, feeds), st1) =>
      match read_last_run st1 with
      | (Raise e, st2) => (Raise e, st2)
      | (Ok last_run, st2) =>
          match py_iter feeds with
          | Raise e => (Raise e, st2)
          | Ok items =>
              match process_feeds w start_time items last_run st2 with
              | (Raise e, st3) => (Raise e, st3)
              | (Ok _, st3) => (Ok tt, st3)
              end
          end
      end
  end.
Proof.
  unfold download_new. unfold Eff.bind at 1. unfold logging, Eff.emit.
  fold (add_events [EvLog DEBUG Starting] st).
  unfold Eff.bind at 1.
  destruct (read_settings w settings_file _) as [[[start_time feeds]|e] st1];
    [| reflexivity].
  unfold Eff.bind at 1.
  destruct (read_last_run st1) as [[last_run|e] st2]; [| reflexivity].
  unfold Eff.bind at 1, Eff.lift.
  destruct (py_iter feeds) as [items|e]; [| reflexivity].
  unfold Eff.bind at 1.
  destruct (process_feeds w start_time items last_run st2) as [[lr|e] st3];
    reflexivity.
Qed.

Lemma read_settings_events w settings_file st r st1 :
  read_settings w settings_file st = (r, st1) ->
  exists evs, st1 = add_events evs {| st_cwd := st_cwd st1;
                                      st_wm := st_wm st;
                                      st_trace := st_trace st |}
              /\ Forall plain evs.
Proof.
  assert (N : forall x, x = add_events [] {| st_cwd := st_cwd x;
                                             st_wm := st_wm x;
                                             st_trace := st_trace x |}).
  { intros []. unfold add_events. simpl. rewrite app_nil_r. reflexivity. }
  rewrite read_settings_unfold.
  destruct (w_files w settings_file) as [[|text|text|text|settings]|];
    try (intros H; inversion H; subst; exists []; split; [apply N | constructor]).
  destruct (py_subscript settings (JStr "directory")) as [directory|e];
    try (intros H; inversion H; subst; exists []; split; [apply N | constructor]).
  rewrite chdir_run.
  assert (K : forall (r' : result (datetime * json)) x,
             (r', x) = (r, st1) ->
             (x = st \/ exists d, x = entered d st) ->
             exists evs, st1 = add_events evs {| st_cwd := st_cwd st1;
                                                 st_wm := st_wm st;
                                                 st_trace := st_trace st |}
                         /\ Forall plain evs).
  { intros r' x H [->|[d ->]]; inversion H; subst.
    - exists []; split; [apply N | constructor].
    - exists [EvChdir d]. split; [reflexivity | repeat constructor]. }
  destruct directory as [| | fd | | d | |];
    try (intros H; apply (K _ _ H); auto).
  1: { destruct ((- 2 ^ 31 <=? fd) && (fd <? 2 ^ 31));
         intros H; apply (K _ _ H); auto. }
  destruct (has_nul d); [intros H; apply (K _ _ H); auto |].
  destruct (w_dirs w d); [| intros H; apply (K _ _ H); auto].
  destruct (start_time_of w settings);
    [| intros H; apply (K _ _ H); eauto].
  destruct (py_subscript settings (JStr "feeds"));
    intros H; apply (K _ _ H); eauto.
Qed.

Lemma cutoffs_right_plain start_time initial evs :
  Forall plain evs -> cutoffs_right start_time initial evs.
Proof.
  intros P pre url c post E. apply plain_not_extract in P.
  destruct (no_extract_split _ _ _ _ P E).
Qed.

(** C3. In every run of [download_new] there is one start of the time
    window, midnight of the current day minus [maxage] days, and every entry
    into [extract_items] is made with the cutoff that belongs to the feed's
    URL and the watermark store of that moment (the store as last written, or
    as loaded if nothing was written yet): the later of the window start and
    the watermark if the store has one for the URL, the window start if it
    has none. *)
Theorem cutoff_invariant (w : world) (settings_file : string)
        (st : state) (r : result unit) (st' : state) :
  download_new w settings_file st = (r, st') ->
  exists evs,
    st_trace st' = st_trace st ++ evs /\
    (Forall (fun ev => is_extract ev = false) evs \/
     exists settings dir maxage,
       w_files w settings_file = Some (JsonDoc settings) /\
       py_subscript settings (JStr "directory") = Ok (JStr dir) /\
       maxage_of settings = Ok maxage /\
       let start_time :=
         {| dt_day := dt_day (w_now w) - maxage; dt_sec := 0; dt_us := 0 |} in
       let loaded := initial_store (st_wm st dir) in
       forall pre url newer_than post,
         evs = pre ++ EvExtractItems url newer_than :: post ->
         let store := current_store loaded pre in
         (exists s t,
            py_subscript store url = Ok (JStr s) /\
            Strptime.strptime s = Ok t /\
            newer_than = dt_max start_time t) \/
         (py_subscript store url = Raise KeyError /\
          newer_than = start_time)).
Proof.
  rewrite download_new_unfold.
  destruct (read_settings w settings_file _) as [[[start_time feeds]|e] st1]
    eqn:RS.
  2: { intros H; inversion H; subst.
       apply read_settings_events in RS as (evs & -> & P). simpl.
       exists (EvLog DEBUG Starting :: evs). split.
       - rewrite <- app_assoc. reflexivity.
       - left. constructor; auto. apply plain_not_extract; auto. }
  apply read_settings_ok in RS
    as (settings & dir & maxage & F & D & Dx & Mx & -> & Fs & ->).
  destruct (read_last_run_store
              (entered dir (add_events [EvLog DEBUG Starting] st)))
    as [(evsL & -> & PL) | (x & ->)].
  2: { intros H; inversion H; subst.
       exists [EvLog DEBUG Starting; EvChdir dir]. split.
       - simpl. rewrite <- app_assoc. reflexivity.
       - left. repeat constructor. }
  simpl st_wm. simpl st_cwd.
  set (pre_evs := [EvLog DEBUG Starting; EvChdir dir] ++ evsL).
  assert (Ppre : Forall plain pre_evs).
  { repeat (constructor; [split; reflexivity |]). auto. }
  set (st2 := add_events evsL _).
  assert (T2 : st_trace st2 = st_trace st ++ pre_evs).
  { unfold st2, pre_evs. simpl. rewrite <- !app_assoc. reflexivity. }
  destruct (py_iter feeds) as [items|e].
  2: { intros H; inversion H; subst. exists pre_evs. split; auto.
       left. apply plain_not_extract; auto. }
  destruct (process_feeds w (window_start w maxage) items
              (initial_store (st_wm st dir)) st2) as [r3 st3] eqn:PF.
  apply process_feeds_events in PF as (evs & T & C & _).
  intros H.
  assert (st' = st3) by (destruct r3; inversion H; auto). subst st3.
  exists (pre_evs ++ evs). split.
  - rewrite T, T2, app_assoc. reflexivity.
  - right. exists settings, dir, maxage.
    split; [auto | split; [auto | split; [auto |]]].
    intros start_time loaded pre url c post E store.
    assert (CR : cutoffs_right start_time loaded (pre_evs ++ evs)).
    { apply cutoffs_right_app; [apply cutoffs_right_plain; auto |].
      rewrite current_store_no_write; [exact C |].
      apply plain_not_write; auto. }
    destruct (CR pre url c post E) as [s t L P | L]; [left | right]; eauto.
Qed.

Lemma cutoff_invariant_witness :
  let w := Sample.a_world
             (Sample.settings (JInt 7)
                [Sample.feed_config "http://feed/a" "wget";
                 Sample.feed_config "http://feed/b" "wget"])
             Sample.all_fine in
  let stored := JDict [("http://feed/a", JStr "2024-02-28T00:00:00")] in
  let start_time := Sample.at_time (Sample.today - 7) 0 in
  (exists s t,
     py_subscript stored (JStr "http://feed/a") = Ok (JStr s) /\
     Strptime.strptime s = Ok t /\
     Sample.at_time (Sample.today - 1) 0 = dt_max start_time t) \/
  (py_subscript stored (JStr "http://feed/a") = Raise KeyError /\
   Sample.at_time (Sample.today - 1) 0 = start_time).
Proof.
  intros w stored start_time.
  destruct (cutoff_invariant w "settings.json"
              (Sample.initially (Some (JsonDoc stored)))
              (r := fst (download_new w "settings.json"
                           (Sample.initially (Some (JsonDoc stored)))))
              (st' := snd (download_new w "settings.json"
                             (Sample.initially (Some (JsonDoc stored)))))
              eq_refl)
    as (evs & T & [N | (settings & dir & maxage & F & D & Mx & C)]).
  - simpl in T. subst evs. exfalso.
    inversion N as [|? ? _ N1]. inversion N1 as [|? ? _ N2].
    inversion N2 as [|? ? _ N3]. inversion N3 as [|? ? X _].
    discriminate X.
  - simpl in T. subst evs.
    inversion F; subst settings. inversion D; subst dir.
    inversion Mx; subst maxage.
    eapply (C [EvLog DEBUG Starting; EvChdir "media";
               EvLog DEBUG (ParsingFeed (JStr "http://feed/a"))]
              (JStr "http://feed/a") (Sample.at_time (Sample.today - 1) 0)).
    reflexivity.
Defined.

(* ===================================================================== *)
(** * Checkpoints *)
(* ===================================================================== *)

Lemma assoc_get_set_same d : forall k v,
  assoc_get (assoc_set d k v) k = Some v.
Proof.
  induction d as [|[k' v'] d IH]; simpl; intros k v.
  - rewrite String.eqb_refl. reflexivity.
  - destruct (String.eqb k' k) eqn:E; simpl; rewrite E; auto.
Qed.

Lemma assoc_get_set_other d : forall k k' v,
  k <> k' -> assoc_get (assoc_set d k v) k' = assoc_get d k'.
Proof.
  induction d as [|[k0 v0] d IH]; simpl; intros k k' v N.
  - destruct (String.eqb_spec k k'); [contradiction | reflexivity].
  - destruct (String.eqb_spec k0 k); simpl.
    + subst k0. destruct (String.eqb_spec k k'); [contradiction | reflexivity].
    + destruct (String.eqb k0 k'); auto.
Qed.

Lemma feed_fields_of_ok w feed url regex downloader :
  feed_fields_of w feed = Ok (url, regex, downloader) ->
  py_subscript feed (JStr "url") = Ok url /\
  (exists source, py_subscript feed (JStr "regex") = Ok source /\
                  re_compile w source = Ok regex) /\
  py_subscript feed (JStr "downloader") = Ok downloader.
Proof.
  unfold feed_fields_of, Exc.try_except. intros F.
  destruct (py_subscript feed (JStr "url")) as [x|e]; simpl in F.
  - destruct (py_subscript feed (JStr "regex")) as [src|e]; simpl in F.
    + destruct (re_compile w src) as [rx|e] eqn:R; simpl in F.
      * destruct (py_subscript feed (JStr "downloader")) as [y|e]; simpl in F.
        -- inversion F; subst. eauto.
        -- destruct (is_KeyError e || is_TypeError e); discriminate.
      * destruct (is_KeyError e || is_TypeError e); discriminate.
    + destruct (is_KeyError e || is_TypeError e); discriminate.
  - destruct (is_KeyError e || is_TypeError e); discriminate.
Qed.

(** What a feed whose processing completes has done. *)
Lemma process_feed_ok w start_time feed last_run st last_run' st' :
  process_feed w start_time feed last_run st = (Ok last_run', st') ->
  exists u regex downloader newer_than entries vurls newest evs d,
    feed_fields_of w feed = Ok (JStr u, regex, downloader) /\
    py_in downloader SUPPORTED_DOWNLOADERS = true /\
    newer_than_of start_time last_run (JStr u) = Ok newer_than /\
    fetched w (JStr u) newer_than (add_events (parsing (JStr u)) st)
    = Ok entries /\
    select_links w regex newer_than entries = Ok vurls /\
    newest_of w entries = Ok newest /\
    last_run = JDict d /\
    last_run' = JDict (assoc_set d u (JStr (isoformat newest))) /\
    Forall plain evs /\
    st' = written last_run'
            (add_events (parsing (JStr u)
                         ++ EvExtractItems (JStr u) newer_than
                         :: EvParse (JStr u) :: evs) st).
Proof.
  rewrite process_feed_unfold.
  destruct (feed_fields_of w feed) as [[[url regex] downloader]|e];
    [| discriminate].
  cbv zeta.
  destruct (py_in downloader SUPPORTED_DOWNLOADERS) eqn:S; simpl;
    [| discriminate].
  destruct (newer_than_of start_time last_run url) as [c|e] eqn:C;
    [| discriminate].
  destruct (extract_items w url regex c _) as [[[vurls newest]|e] st2] eqn:X;
    [| discriminate].
  apply extract_items_inv in X as (entries & F & L & N & ->).
  destruct url as [| | | | u | |]; try discriminate F.
  destruct (Eff.for_each vurls (download_link w downloader) _)
    as [[[]|e] st3] eqn:D; [| discriminate].
  apply for_each_download_events in D as (evs & -> & P).
  unfold store_watermark, py_setitem.
  destruct last_run as [| | | | | |d]; try discriminate.
  intros H; inversion H; subst.
  exists u, regex, downloader, c, entries, vurls, newest, evs, d.
  repeat (split; [solve [auto] |]).
  f_equal. unfold after_extract, add_events. simpl.
  rewrite <- !app_assoc. reflexivity.
Qed.

(** A feed whose processing raises has written nothing. *)
Lemma process_feed_raise w start_time feed last_run st e st' :
  process_feed w start_time feed last_run st = (Raise e, st') ->
  st_cwd st' = st_cwd st /\ st_wm st' = st_wm st /\
  exists evs, st_trace st' = st_trace st ++ evs /\
              Forall (fun ev => is_write ev = false) evs.
Proof.
  intros H. apply process_feed_events in H as (evs & _ & W & ->).
  simpl. eauto.
Qed.

Lemma process_feeds_app w start_time feeds1 feeds2 : forall last_run st,
  process_feeds w start_time (feeds1 ++ feeds2) last_run st =
  match process_feeds w start_time feeds1 last_run st with
  | (Ok last_run1, st1) => process_feeds w start_time feeds2 last_run1 st1
  | (Raise e, st1) => (Raise e, st1)
  end.
Proof.
  induction feeds1 as [|feed feeds1 IH]; simpl; intros last_run st.
  - reflexivity.
  - rewrite !bind_run.
    destruct (process_feed w start_time feed last_run st) as [[lr1|e] st1];
      auto.
Qed.

(** Once a feed has been completed, the watermark file holds the store the
    loop works with, whatever follows. *)
Lemma process_feeds_persisted w start_time feeds : forall last_run st lr' st',
  process_feeds w start_time feeds last_run st = (Ok lr', st') ->
  st_cwd st' = st_cwd st /\
  (st_wm st (st_cwd st) = Some (JsonDoc last_run) ->
   st_wm st' (st_cwd st') = Some (JsonDoc lr')).
Proof.
  induction feeds as [|feed feeds IH]; simpl; intros last_run st lr' st' H.
  - inversion H; subst. auto.
  - rewrite bind_run in H.
    destruct (process_feed w start_time feed last_run st) as [[lr1|e] st1] eqn:P;
      [| discriminate].
    apply process_feed_events in P as (evs & _ & evs0 & _ & _ & ->).
    apply IH in H as [C K]. simpl in *. split; [auto |].
    intros _. apply K. rewrite String.eqb_refl. reflexivity.
Qed.

(** Feeds with other URLs leave the watermark of a URL as it is. *)
Lemma process_feeds_other_urls w start_time u feeds :
  forall last_run st lr' st',
  process_feeds w start_time feeds last_run st = (Ok lr', st') ->
  (forall feed, In feed feeds ->
                py_subscript feed (JStr "url") <> Ok (JStr u)) ->
  py_subscript lr' (JStr u) = py_subscript last_run (JStr u).
Proof.
  induction feeds as [|feed feeds IH]; simpl; intros last_run st lr' st' H N.
  - inversion H; subst. reflexivity.
  - rewrite bind_run in H.
    destruct (process_feed w start_time feed last_run st) as [[lr1|e] st1] eqn:P;
      [| discriminate].
    apply IH in H; [| auto]. rewrite H.
    apply process_feed_ok in P
      as (u' & regex & dl & c & es & vs & nw & evs & d
          & F & _ & _ & _ & _ & _ & -> & -> & _).
    apply feed_fields_of_ok in F as (U & _ & _).
    assert (D : u' <> u).
    { intros ->. apply (N feed); auto. }
    simpl. rewrite assoc_get_set_other; auto.
Qed.

(** C4. A feed whose processing completes has, as its last act, written the
    watermark store with its new watermark (the ISO form of the newest
    timestamp of the feed) over the watermark file; a feed whose processing
    raises writes nothing.  So when a feed A is completed and a later feed B
    raises, a configuration error or any other, the run ends with that error
    and the watermark file holds the store as written by the last completed
    feed: it has the watermark of A, as long as no completed feed in between
    has the URL of A, and nothing of B. *)
Theorem checkpoint_durability (w : world) (start_time : datetime) :
  (forall feed last_run st last_run' st',
     process_feed w start_time feed last_run st = (Ok last_run', st') ->
     st_wm st' (st_cwd st') = Some (JsonDoc last_run') /\
     (exists evs, st_trace st'
                  = st_trace st ++ evs ++ [EvWrite (st_cwd st) last_run']) /\
     exists u newer_than entries newest,
       py_subscript feed (JStr "url") = Ok (JStr u) /\
       fetched w (JStr u) newer_than (add_events (parsing (JStr u)) st)
       = Ok entries /\
       newest_of w entries = Ok newest /\
       py_subscript last_run' (JStr u) = Ok (JStr (isoformat newest))) /\
  (forall done A between B rest last_run st lr0 st0 lrA stA lrM stM e stB,
     process_feeds w start_time done last_run st = (Ok lr0, st0) ->
     process_feed w start_time A lr0 st0 = (Ok lrA, stA) ->
     process_feeds w start_time between lrA stA = (Ok lrM, stM) ->
     process_feed w start_time B lrM stM = (Raise e, stB) ->
     process_feeds w start_time (done ++ A :: between ++ B :: rest) last_run st
     = (Raise e, stB) /\
     st_wm stB = st_wm stM /\
     st_wm stB (st_cwd stB) = Some (JsonDoc lrM) /\
     (exists evs, st_trace stB = st_trace stM ++ evs /\
                  Forall (fun ev => is_write ev = false) evs) /\
     forall u,
       py_subscript A (JStr "url") = Ok (JStr u) ->
       (forall feed, In feed between ->
                     py_subscript feed (JStr "url") <> Ok (JStr u)) ->
       py_subscript lrM (JStr u) = py_subscript lrA (JStr u)).
Proof.
  split.
  - intros feed last_run st last_run' st' H.
    apply process_feed_ok in H
      as (u & regex & dl & c & es & vs & nw & evs & d
          & F & _ & _ & Fe & _ & Nw & -> & -> & _ & ->).
    split; [| split].
    + simpl. rewrite String.eqb_refl. reflexivity.
    + simpl. eexists. rewrite <- app_assoc. reflexivity.
    + exists u, c, es, nw. split; [| split; [auto | split; [auto |]]].
      * apply feed_fields_of_ok in F as (U & _ & _). exact U.
      * simpl. rewrite assoc_get_set_same. reflexivity.
  - intros done A between B rest last_run st lr0 st0 lrA stA lrM stM e stB
           Hd HA Hb HB.
    assert (PA : st_wm stA (st_cwd stA) = Some (JsonDoc lrA)).
    { apply process_feed_events in HA as (evs & _ & evs0 & _ & _ & ->).
      simpl. rewrite String.eqb_refl. reflexivity. }
    destruct (process_feeds_persisted _ _ _ _ _ Hb) as [Cb Kb].
    destruct (process_feed_raise _ _ _ _ _ HB) as (CB & WB & evs & TB & NB).
    split; [| split; [| split; [| split]]].
    + rewrite process_feeds_app, Hd. simpl. rewrite bind_run, HA.
      rewrite process_feeds_app, Hb. simpl. rewrite bind_run, HB. reflexivity.
    + exact WB.
    + rewrite WB, CB. auto.
    + eauto.
    + intros u _ N. eapply process_feeds_other_urls; eauto.
Qed.

Lemma checkpoint_durability_witness :
  let w := Sample.a_world JNull Sample.all_fine in
  let start_time := Sample.at_time (Sample.today - 7) 0 in
  let A := Sample.feed_config "http://feed/a" "wget" in
  let B := Sample.feed_config "http://feed/b" "curl" in
  let st := entered "media" (Sample.initially None) in
  let lrA := JDict [("http://feed/a", JStr "2024-02-29T01:00:00")] in
  let stA := snd (process_feed w start_time A (JDict []) st) in
  let stB := snd (process_feed w start_time B lrA stA) in
  let e := InvalidInputDataException (UnsupportedDownloader (JStr "curl")) in
  st_wm stA (st_cwd stA) = Some (JsonDoc lrA) /\
  process_feeds w start_time [A; B] (JDict []) st = (Raise e, stB) /\
  st_wm stB (st_cwd stB) = Some (JsonDoc lrA) /\
  py_subscript lrA (JStr "http://feed/a") = Ok (JStr "2024-02-29T01:00:00") /\
  py_subscript lrA (JStr "http://feed/b") = Raise KeyError.
Proof.
  intros w start_time A B st lrA stA stB e.
  destruct (proj1 (checkpoint_durability w start_time)
                  A (JDict []) st lrA stA eq_refl) as (P1 & _ & _).
  destruct (proj2 (checkpoint_durability w start_time)
                  [] A [] B [] (JDict []) st (JDict []) st lrA stA lrA stA
                  e stB eq_refl eq_refl eq_refl eq_refl)
    as (R & _ & P2 & _ & _).
  split; [exact P1 | split; [exact R | split; [exact P2 |]]].
  split; reflexivity.
Defined.

(* ===================================================================== *)
(** * The run orchestrator: errors of the run *)
(* ===================================================================== *)

Lemma run_feeds_unfold w start_time feeds last_run st :
  run_feeds w start_time feeds last_run st =
  match py_iter feeds with
  | Raise e => (Raise e, st)
  | Ok items =>
      match process_feeds w start_time items last_run st with
      | (Raise e, st') => (Raise e, st')
      | (Ok _, st') => (Ok tt, st')
      end
  end.
Proof.
  unfold run_feeds. rewrite bind_run. unfold Eff.lift.
  destruct (py_iter feeds) as [items|e]; [| reflexivity].
  rewrite bind_run.
  destruct (process_feeds w start_time items last_run st) as [[lr|e] st'];
    reflexivity.
Qed.

Lemma download_new_phases w settings_file st :
  download_new w settings_file st =
  match read_settings w settings_file
          (add_events [EvLog DEBUG Starting] st) with
  | (Raise e, st1) => (Raise e, st1)
  | (Ok (start_time, feeds), st1) =>
      match read_last_run st1 with
      | (Raise e, st2) => (Raise e, st2)
      | (Ok last_run, st2) => run_feeds w start_time feeds last_run st2
      end
  end.
Proof.
  rewrite download_new_unfold.
  destruct (read_settings w settings_file _) as [[[start_time feeds]|e] st1];
    [| reflexivity].
  destruct (read_last_run st1) as [[last_run|e] st2]; [| reflexivity].
  rewrite run_feeds_unfold. reflexivity.
Qed.


(** The handlers of the watermark file catch [IOError] and
    [JSONDecodeError] and nothing else: a file whose bytes do not decode, or
    a text that the parser fails on for its depth or for the length of a
    number, raises past them, and the run ends there without a warning. *)
Lemma unreadable_watermarks_raise (w : world) (settings_file : string)
      (st : state) (start_time : datetime) (feeds : json) (st1 : state) :
  read_settings w settings_file (add_events [EvLog DEBUG Starting] st)
  = (Ok (start_time, feeds), st1) ->
  (st_wm st1 (st_cwd st1) = Some Undecodable ->
   download_new w settings_file st = (Raise UnicodeDecodeError, st1)) /\
  (forall text,
     st_wm st1 (st_cwd st1) = Some (TooDeep text) ->
     download_new w settings_file st = (Raise RecursionError, st1)) /\
  (forall text,
     st_wm st1 (st_cwd st1) = Some (HugeNumber text) ->
     download_new w settings_file st = (Raise ValueError, st1)).
Proof.
  intros RS. split; [| split].
  - intros A. rewrite download_new_phases, RS, read_last_run_unfold, A.
    reflexivity.
  - intros text A. rewrite download_new_phases, RS, read_last_run_unfold, A.
    reflexivity.
  - intros text A. rewrite download_new_phases, RS, read_last_run_unfold, A.
    reflexivity.
Qed.



(** The run up to the loop over the feeds makes no access. *)
Lemma before_feeds_no_access w settings_file st start_time feeds st1 r st2 :
  read_settings w settings_file (add_events [EvLog DEBUG Starting] st)
  = (Ok (start_time, feeds), st1) ->
  read_last_run st1 = (r, st2) ->
  exists evs,
    st_trace st2 = st_trace st ++ evs /\
    Forall (fun ev => is_access ev = false) evs.
Proof.
  intros RS RL. apply read_settings_ok in RS
    as (settings & dir & maxage & _ & _ & _ & _ & _ & _ & ->).
  rewrite read_last_run_unfold in RL.
  destruct (st_wm _ _) as [[|text|text|text|doc]|]; inversion RL; subst; simpl;
    rewrite <- !app_assoc; eexists; (split; [reflexivity |]);
    repeat constructor.
Qed.

(** A feed with its keys in order and a downloader outside the allow-list
    raises before anything else happens for it. *)
Lemma process_feed_unsupported w start_time feed last_run st
      url regex downloader :
  feed_fields_of w feed = Ok (url, regex, downloader) ->
  py_in downloader SUPPORTED_DOWNLOADERS = false ->
  process_feed w start_time feed last_run st
  = (Raise (InvalidInputDataException (UnsupportedDownloader downloader)),
     add_events (parsing url) st).
Proof.
  intros F S. rewrite process_feed_unfold, F. cbv zeta. rewrite S. reflexivity.
Qed.

(** C7, as the code has it.  A feed whose keys are in order and whose
    downloader is not in the allow-list makes [download_new] raise a
    configuration error when the loop reaches it: nothing but the debug
    record happens for that feed, and nothing at all for the feeds after it,
    so no feed is retrieved and no downloader started for them.  The feeds
    before it are processed first, with their retrievals, downloads and
    checkpoints, and an error of one of them ends the run instead.  Up to the
    loop no access is made, so when the feed is the first one the run aborts
    before any access. *)
Theorem unsupported_downloader_aborts (w : world) (settings_file : string)
        (st : state) (start_time : datetime) (feeds : json) (st1 : state)
        (last_run : json) (st2 : state) (done : list json) (bad : json)
        (rest : list json) (url : json) (regex : regex) (downloader : json) :
  read_settings w settings_file (add_events [EvLog DEBUG Starting] st)
  = (Ok (start_time, feeds), st1) ->
  read_last_run st1 = (Ok last_run, st2) ->
  py_iter feeds = Ok (done ++ bad :: rest) ->
  feed_fields_of w bad = Ok (url, regex, downloader) ->
  py_in downloader SUPPORTED_DOWNLOADERS = false ->
  (exists evs, st_trace st2 = st_trace st ++ evs /\
               Forall (fun ev => is_access ev = false) evs) /\
  download_new w settings_file st =
  match process_feeds w start_time done last_run st2 with
  | (Ok _, st3) =>
      (Raise (InvalidInputDataException (UnsupportedDownloader downloader)),
       add_events (parsing url) st3)
  | (Raise e, st3) => (Raise e, st3)
  end.
Proof.
  intros RS RL It F S. split.
  - eapply before_feeds_no_access; eauto.
  - rewrite download_new_phases, RS, RL, run_feeds_unfold, It.
    rewrite process_feeds_app.
    destruct (process_feeds w start_time done last_run st2) as [[lr3|e] st3];
      [| reflexivity].
    simpl. rewrite bind_run.
    rewrite (process_feed_unsupported w start_time bad lr3 st3 F S).
    reflexivity.
Qed.

Lemma unsupported_downloader_aborts_witness :
  let doc := Sample.settings (JInt 7)
               [Sample.feed_config "http://feed/a" "curl";
                Sample.feed_config "http://feed/b" "wget"] in
  let w := Sample.a_world doc Sample.all_fine in
  download_new w "settings.json" (Sample.initially None)
  = (Raise (InvalidInputDataException (UnsupportedDownloader (JStr "curl"))),
     add_events [EvLog DEBUG Starting; EvChdir "media";
                 EvLog DEBUG (ParsingFeed (JStr "http://feed/a"))]
                {| st_cwd := "media";
                   st_wm := st_wm (Sample.initially None);
                   st_trace := [] |}).
Proof.
  intros doc w.
  apply (proj2 (unsupported_downloader_aborts w "settings.json"
                  (Sample.initially None)
                  (start_time := Sample.at_time (Sample.today - 7) 0)
                  (feeds := JList [Sample.feed_config "http://feed/a" "curl";
                                   Sample.feed_config "http://feed/b" "wget"])
                  (last_run := JDict [])
                  []
                  (Sample.feed_config "http://feed/a" "curl")
                  [Sample.feed_config "http://feed/b" "wget"]
                  (url := JStr "http://feed/a")
                  (regex := literal (list_ascii_of_string "Breaking"))
                  (downloader := JStr "curl")
                  eq_refl eq_refl eq_refl eq_refl eq_refl)).
Defined.

(** The check of the downloader is made feed by feed, inside the loop: a
    feed with an unsupported downloader that comes second aborts the run
    only after the first feed has been retrieved and its links handed to the
    downloader. *)
Lemma unsupported_downloader_after_access :
  let doc := Sample.settings (JInt 7)
               [Sample.feed_config "http://feed/a" "wget";
                Sample.feed_config "http://feed/b" "curl"] in
  let run := download_new (Sample.a_world doc Sample.all_fine)
                          "settings.json" (Sample.initially None) in
  fst run
  = Raise (InvalidInputDataException (UnsupportedDownloader (JStr "curl"))) /\
  In (EvParse (JStr "http://feed/a")) (st_trace (snd run)) /\
  In (EvCall (JStr "wget") "http://media/1") (st_trace (snd run)) /\
  ~ Forall (fun ev => is_access ev = false) (st_trace (snd run)).
Proof.
  intros doc run. split; [reflexivity |].
  assert (P : In (EvParse (JStr "http://feed/a")) (st_trace (snd run))).
  { vm_compute. tauto. }
  split; [exact P | split].
  - vm_compute. tauto.
  - intros N. rewrite Forall_forall in N. apply N in P. discriminate P.
Qed.

(** A feed that completes while the store has a watermark the parser rejects
    has another URL, and leaves that watermark in place. *)
Lemma process_feeds_keep_rejected w start_time url s feeds :
  (forall t, Strptime.strptime s <> Ok t) ->
  forall last_run st lr' st',
    process_feeds w start_time feeds last_run st = (Ok lr', st') ->
    py_subscript last_run url = Ok (JStr s) ->
    py_subscript lr' url = Ok (JStr s).
Proof.
  intros R. induction feeds as [|feed feeds IH]; simpl;
    intros last_run st lr' st' H L.
  - inversion H; subst. exact L.
  - rewrite bind_run in H.
    destruct (process_feed w start_time feed last_run st) as [[lr1|e] st1] eqn:P;
      [| discriminate].
    apply IH in H; auto.
    apply process_feed_ok in P
      as (u' & regex & dl & c & es & vs & nw & evs & d
          & _ & _ & C & _ & _ & _ & -> & -> & _).
    destruct url as [| | | | u | |]; simpl in L; try discriminate.
    destruct (String.eqb_spec u' u) as [->|N].
    + rewrite (newer_than_of_rejected start_time (JDict d) (JStr u) L R) in C.
      discriminate.
    + simpl. rewrite assoc_get_set_other; auto.
Qed.

(** A feed does not complete on a watermark that the parser rejects. *)
Lemma process_feed_rejected_watermark w start_time feed last_run st url s :
  py_subscript feed (JStr "url") = Ok url ->
  py_subscript last_run url = Ok (JStr s) ->
  (forall t, Strptime.strptime s <> Ok t) ->
  exists e st', process_feed w start_time feed last_run st = (Raise e, st').
Proof.
  intros U L R. rewrite process_feed_unfold.
  destruct (feed_fields_of w feed) as [[[url' regex] downloader]|e] eqn:F;
    [| eauto].
  apply feed_fields_of_ok in F as (U' & _ & _).
  rewrite U in U'. inversion U'; subst url'. cbv zeta.
  destruct (negb (py_in downloader SUPPORTED_DOWNLOADERS)); [eauto |].
  rewrite (newer_than_of_rejected start_time last_run url L R). eauto.
Qed.

(** C10, as the code has it.  When the watermark file is a JSON document
    in which the value for the URL of a configured feed is a string that
    [strptime] rejects for the format [%Y-%m-%dT%H:%M:%S], the run does not
    complete: it raises at that feed at the latest.  When the feeds before
    that feed are completed and the feed itself has its three keys, a pattern
    that compiles and a supported downloader, [download_new] raises
    [ValueError] when it reaches the feed, before the feed is retrieved: the
    error is no configuration error, nothing catches it, no warning is logged
    for it, and the feeds after it are not processed. *)
Theorem malformed_watermark_aborts (w : world) (settings_file : string)
        (st : state) (start_time : datetime) (feeds : json) (st1 : state)
        (doc : json) (done : list json) (feed : json) (rest : list json)
        (url : json) (s : string) :
  read_settings w settings_file (add_events [EvLog DEBUG Starting] st)
  = (Ok (start_time, feeds), st1) ->
  st_wm st1 (st_cwd st1) = Some (JsonDoc doc) ->
  py_iter feeds = Ok (done ++ feed :: rest) ->
  py_subscript feed (JStr "url") = Ok url ->
  py_subscript doc url = Ok (JStr s) ->
  (forall t, Strptime.strptime s <> Ok t) ->
  (exists e st', download_new w settings_file st = (Raise e, st')) /\
  (forall regex downloader lr2 st2,
     feed_fields_of w feed = Ok (url, regex, downloader) ->
     py_in downloader SUPPORTED_DOWNLOADERS = true ->
     process_feeds w start_time done doc st1 = (Ok lr2, st2) ->
     download_new w settings_file st
     = (Raise ValueError, add_events (parsing url) st2)) /\
  is_InvalidInputDataException ValueError = false.
Proof.
  intros RS A It U L R.
  split; [| split; [| reflexivity]].
  - rewrite download_new_phases, RS, read_last_run_unfold, A.
    rewrite run_feeds_unfold, It, process_feeds_app.
    destruct (process_feeds w start_time done doc st1) as [[lr2|e] st2] eqn:Pd;
      [| eauto].
    simpl. rewrite bind_run.
    destruct (@process_feed_rejected_watermark w start_time feed lr2 st2
                url s U
                (process_feeds_keep_rejected w start_time url done R
                   doc st1 Pd L) R) as (e & st' & ->).
    eauto.
  - intros regex downloader lr2 st2 F S Pd.
    rewrite download_new_phases, RS, read_last_run_unfold, A.
    rewrite run_feeds_unfold, It, process_feeds_app, Pd.
    simpl. rewrite bind_run, process_feed_unfold, F. cbv zeta. rewrite S. simpl.
    rewrite (newer_than_of_rejected start_time lr2 url
               (process_feeds_keep_rejected w start_time url done R
                  doc st1 Pd L) R).
    reflexivity.
Qed.

Lemma malformed_watermark_aborts_witness :
  let doc := Sample.settings (JInt 7)
               [Sample.feed_config "http://feed/a" "wget";
                Sample.feed_config "http://feed/b" "wget"] in
  let w := Sample.a_world doc Sample.all_fine in
  let stored := JDict [("http://feed/b", JStr "yesterday")] in
  let st := Sample.initially (Some (JsonDoc stored)) in
  let st1 := entered "media" (add_events [EvLog DEBUG Starting] st) in
  let start_time := Sample.at_time (Sample.today - 7) 0 in
  let st2 := snd (process_feeds w start_time
                    [Sample.feed_config "http://feed/a" "wget"] stored st1) in
  download_new w "settings.json" st
  = (Raise ValueError, add_events (parsing (JStr "http://feed/b")) st2).
Proof.
  intros doc w stored st st1 start_time st2.
  apply (proj1 (proj2 (malformed_watermark_aborts w "settings.json" st
           (start_time := start_time)
           (feeds := JList [Sample.feed_config "http://feed/a" "wget";
                            Sample.feed_config "http://feed/b" "wget"])
           (st1 := st1) (doc := stored)
           [Sample.feed_config "http://feed/a" "wget"]
           (Sample.feed_config "http://feed/b" "wget") []
           (url := JStr "http://feed/b") (s := "yesterday")
           eq_refl eq_refl eq_refl eq_refl eq_refl
           ltac:(intros t H; discriminate H)))
           (literal (list_ascii_of_string "Breaking")) (JStr "wget")
           (JDict [("http://feed/b", JStr "yesterday");
                   ("http://feed/a", JStr "2024-02-29T01:00:00")])
           st2 eq_refl eq_refl eq_refl).
Defined.

(** [strptime] reads more than the exact format: single digits for month,
    day, hour, minute and second and a lower-case [t] are timestamps for it.
    A watermark of that kind is not in the exact format, and the run goes
    through with it. *)
Lemma lenient_watermark_accepted :
  let doc := Sample.settings (JInt 7)
               [Sample.feed_config "http://feed/a" "wget"] in
  let w := Sample.a_world doc Sample.all_fine in
  let stored := JDict [("http://feed/a", JStr "2024-2-28t0:0:0")] in
  iso_shaped "2024-2-28t0:0:0" = false /\
  Strptime.strptime "2024-2-28t0:0:0"
  = Ok (Sample.at_time (Sample.today - 1) 0) /\
  fst (download_new w "settings.json"
         (Sample.initially (Some (JsonDoc stored)))) = Ok tt.
Proof. intros doc w stored. split; [| split]; reflexivity. Qed.

(** A string in the exact format is accepted when it names a date and a
    time, and only then. *)
Example iso_shaped_examples :
  iso_shaped "2024-02-28T00:00:00" = true /\
  Strptime.strptime "2024-02-28T00:00:00"
  = Ok (Sample.at_time (Sample.today - 1) 0) /\
  iso_shaped "2024-02-30T00:00:00" = true /\
  Strptime.strptime "2024-02-30T00:00:00" = Raise ValueError.
Proof. repeat split. Qed.

(** ** Errors in the settings *)

(** The settings of a run: what [read_settings] makes of a document once the
    file is read. *)
Lemma settings_errors w settings_file st settings :
  w_files w settings_file = Some (JsonDoc settings) ->
  let raises e st' := read_settings w settings_file st = (Raise e, st') in
  (py_subscript settings (JStr "directory") = Raise KeyError ->
   raises (InvalidInputDataException NoDirectory) st) /\
  (forall dir,
     py_subscript settings (JStr "directory") = Ok (JStr dir) ->
     (has_nul dir = true -> raises ValueError st) /\
     (has_nul dir = false ->
      (w_dirs w dir = false ->
       raises (InvalidInputDataException DirectoryMissing) st) /\
      (w_dirs w dir = true ->
       (py_subscript settings (JStr "maxage") = Raise KeyError ->
        raises (InvalidInputDataException NoTimeFrame) (entered dir st)) /\
       (forall v,
          py_subscript settings (JStr "maxage") = Ok v ->
          (py_int v = Raise TypeError ->
           raises (InvalidInputDataException InvalidTimeFrame)
                  (entered dir st)) /\
          (py_int v = Raise ValueError ->
           raises ValueError (entered dir st))) /\
       (forall start_time,
          start_time_of w settings = Ok start_time ->
          py_subscript settings (JStr "feeds") = Raise KeyError ->
          raises (InvalidInputDataException NoFeeds) (entered dir st))))).
Proof.
  intros F raises. unfold raises. rewrite read_settings_unfold, F.
  split; [intros ->; reflexivity |].
  intros dir ->. rewrite chdir_run. split; [intros ->; reflexivity |].
  intros ->. split; [intros ->; reflexivity |].
  intros ->. unfold start_time_of. split; [| split].
  - intros ->. reflexivity.
  - intros v ->. simpl. split; intros ->; reflexivity.
  - intros start_time -> ->. reflexivity.
Qed.

(** [int] raises [TypeError] on [null], on a list and on a dict; on a string
    that is no number it raises [ValueError]; a boolean is an integer for
    it. *)
Lemma py_int_cases :
  py_int JNull = Raise TypeError /\
  (forall l, py_int (JList l) = Raise TypeError) /\
  (forall d, py_int (JDict d) = Raise TypeError) /\
  py_int (JStr "abc") = Raise ValueError /\
  py_int (JStr " 7 ") = Ok 7 /\
  py_int (JBool true) = Ok 1.
Proof. repeat split. Qed.

(** C5 at its failing input.  With the settings
    [{"directory": "media", "maxage": "abc", "feeds": [...]}] the run ends
    before any feed is processed, but with the [ValueError] of [int("abc")]
    and not with a configuration error: the handlers around the time window
    catch [KeyError] and [TypeError] only. *)
Theorem maxage_not_a_number_raises_ValueError :
  let doc := Sample.settings (JStr "abc")
               [Sample.feed_config "http://feed/a" "wget"] in
  let w := Sample.a_world doc Sample.all_fine in
  download_new w "settings.json" (Sample.initially None)
  = (Raise ValueError,
     entered "media" (add_events [EvLog DEBUG Starting]
                                 (Sample.initially None))) /\
  is_InvalidInputDataException ValueError = false.
Proof. split; reflexivity. Qed.

(** A [maxage] of [true] is taken for one day: no error at all. *)
Lemma maxage_true_accepted :
  let doc := Sample.settings (JBool true)
               [Sample.feed_config "http://feed/a" "wget"] in
  let w := Sample.a_world doc Sample.all_fine in
  fst (download_new w "settings.json" (Sample.initially None)) = Ok tt /\
  In (EvExtractItems (JStr "http://feed/a")
                     (Sample.at_time (Sample.today - 1) 0))
     (st_trace (snd (download_new w "settings.json" (Sample.initially None)))).
Proof. intros doc w. split; [reflexivity | vm_compute; tauto]. Qed.

(* ===================================================================== *)
(** * The checkpoint format: [isoformat] and [strptime] *)
(* ===================================================================== *)

Lemma all_from_spec P count : forall i k,
  all_from count i P = true -> i <= k < i + Z.of_nat count -> P k = true.
Proof.
  induction count as [|count IH]; simpl all_from; intros i k H B; [lia |].
  apply andb_true_iff in H as [H1 H2].
  destruct (Z.eq_dec k i) as [->|N]; [exact H1 |].
  apply (IH (i + 1)); [exact H2 | lia].
Qed.

Lemma cycle_days_ok : all_from (Z.to_nat DI400Y) 0 cycle_day_ok = true.
Proof. vm_compute. reflexivity. Qed.

Lemma cycle_day_ok_all r : 0 <= r < DI400Y -> cycle_day_ok r = true.
Proof.
  intros B. eapply all_from_spec; [exact cycle_days_ok |].
  rewrite Z2Nat.id; unfold DI400Y in *; lia.
Qed.

Lemma ord2ymd_period q r :
  0 <= r < DI400Y ->
  ord2ymd (DI400Y * q + r + 1)
  = let '(y, m, d) := ord2ymd (r + 1) in (400 * q + y, m, d).
Proof.
  intros B. unfold DI400Y in *. unfold ord2ymd.
  replace (146097 * q + r + 1 - 1) with (r + q * 146097) by lia.
  replace (r + 1 - 1) with r by lia.
  rewrite Z.div_add, Z.mod_add by lia.
  rewrite (Z.div_small r 146097), (Z.mod_small r 146097) by lia.
  cbv zeta.
  repeat match goal with
         | |- context [if ?c then _ else _] => destruct c
         end; f_equal; try (f_equal; lia); lia.
Qed.

Lemma days_before_year_period q y :
  days_before_year (400 * q + y) = DI400Y * q + days_before_year y.
Proof.
  unfold days_before_year, DI400Y. cbv zeta.
  replace (400 * q + y - 1) with (y - 1 + (100 * q) * 4) at 2 by lia.
  replace (400 * q + y - 1) with (y - 1 + (4 * q) * 100) at 2 by lia.
  replace (400 * q + y - 1) with (y - 1 + q * 400) at 2 by lia.
  rewrite !Z.div_add by lia. lia.
Qed.

Lemma is_leap_period q y : is_leap (400 * q + y) = is_leap y.
Proof.
  unfold is_leap.
  replace ((400 * q + y) mod 4) with (y mod 4)
    by (replace (400 * q + y) with (y + (100 * q) * 4) by lia;
        rewrite Z.mod_add; lia).
  replace ((400 * q + y) mod 100) with (y mod 100)
    by (replace (400 * q + y) with (y + (4 * q) * 100) by lia;
        rewrite Z.mod_add; lia).
  replace ((400 * q + y) mod 400) with (y mod 400)
    by (replace (400 * q + y) with (y + q * 400) by lia;
        rewrite Z.mod_add; lia).
  reflexivity.
Qed.

(** The year, month and day of an ordinal of the [datetime] module form a
    date of the calendar, and [ymd2ord] takes them back to the ordinal. *)
Lemma ord2ymd_valid n :
  MINORDINAL <= n <= MAXORDINAL ->
  exists y m d,
    ord2ymd n = (y, m, d) /\
    1 <= y <= 9999 /\ 1 <= m <= 12 /\ 1 <= d <= days_in_month y m /\
    ymd2ord y m d = n.
Proof.
  unfold MINORDINAL, MAXORDINAL. intros B.
  set (q := (n - 1) / 146097). set (r := (n - 1) mod 146097).
  assert (E : n = DI400Y * q + r + 1).
  { unfold DI400Y, q, r. pose proof (Z.div_mod (n - 1) 146097). lia. }
  assert (Br : 0 <= r < DI400Y).
  { unfold r, DI400Y. apply Z.mod_pos_bound. lia. }
  assert (Bq : 0 <= q <= 24).
  { unfold q. split; [apply Z.div_pos; lia |].
    apply Z.lt_succ_r. apply Z.div_lt_upper_bound; lia. }
  pose proof (cycle_day_ok_all Br) as C.
  replace (ord2ymd n) with (ord2ymd (DI400Y * q + r + 1))
    by (rewrite <- E; reflexivity).
  rewrite (ord2ymd_period q Br).
  unfold cycle_day_ok in C.
  destruct (ord2ymd (r + 1)) as [[y m] d].
  repeat (apply andb_true_iff in C as [C ?]).
  exists (400 * q + y), m, d. split; [reflexivity |].
  assert (Dm : days_in_month (400 * q + y) m = days_in_month y m).
  { unfold days_in_month. rewrite is_leap_period. reflexivity. }
  assert (Yo : ymd2ord (400 * q + y) m d = DI400Y * q + ymd2ord y m d).
  { unfold ymd2ord, days_before_month.
    rewrite days_before_year_period, is_leap_period. lia. }
  rewrite Dm, Yo.
  repeat match goal with
         | H : (_ <=? _) = true |- _ => apply Z.leb_le in H
         | H : (_ =? _) = true |- _ => apply Z.eqb_eq in H
         end.
  assert (Y4 : y < 400 \/ 145731 <= r).
  { match goal with H : _ || _ = true |- _ =>
      apply orb_true_iff in H as [H|H] end;
      [left; apply Z.ltb_lt | right; apply Z.leb_le]; auto. }
  unfold DI400Y in *. lia.
Qed.

(** ** Digits *)

Lemma digit_char_cases n :
  exists k, (k < 10)%nat /\
            digit_char n = ascii_of_N (N.of_nat (48 + k)) /\
            n mod 10 = Z.of_nat k.
Proof.
  unfold digit_char. pose proof (Z.mod_pos_bound n 10 ltac:(lia)) as B.
  exists (Z.to_nat (n mod 10)). split; [lia | split; [| lia]].
  f_equal. lia.
Qed.

Ltac digit_cases n :=
  let k := fresh "k" in let B := fresh in let E := fresh in let V := fresh in
  destruct (digit_char_cases n) as (k & B & E & V);
  rewrite E;
  do 10 (destruct k as [|k]; [reflexivity || (simpl; lia) |]); lia.

Lemma digit_digit_char n : Strptime.digit (digit_char n) = true.
Proof. digit_cases n. Qed.

Lemma is_digit_digit_char n : is_digit (digit_char n) = true.
Proof. digit_cases n. Qed.

Lemma digit_val_digit_char n : digit_val (digit_char n) = n mod 10.
Proof.
  destruct (digit_char_cases n) as (k & B & E & V). rewrite E, V.
  do 10 (destruct k as [|k]; [reflexivity |]). lia.
Qed.

Lemma num_snoc ds c :
  Strptime.num (ds ++ [c])
  = if is_digit c then 10 * Strptime.num ds + digit_val c else Strptime.num ds.
Proof. unfold Strptime.num. rewrite fold_left_app. reflexivity. Qed.

Lemma num_zero_pad w : forall n,
  Strptime.num (zero_pad w n) = n mod 10 ^ Z.of_nat w.
Proof.
  induction w as [|w IH]; intros n.
  - simpl. rewrite Z.mod_1_r. reflexivity.
  - simpl zero_pad. rewrite num_snoc, is_digit_digit_char, digit_val_digit_char.
    rewrite IH. rewrite Nat2Z.inj_succ, Z.pow_succ_r by lia.
    set (p := 10 ^ Z.of_nat w). assert (0 < p) by (apply Z.pow_pos_nonneg; lia).
    rewrite Z.rem_mul_r by lia. lia.
Qed.

(** ** The groups of the format on formatted numbers *)

Lemma in_count lo n v :
  lo <= v < lo + Z.of_nat n ->
  In v (map (fun k => lo + Z.of_nat k) (seq 0 n)).
Proof.
  intros B. apply in_map_iff. exists (Z.to_nat (v - lo)).
  split; [lia | apply in_seq; lia].
Qed.

(** One check per value of a two-digit field. *)
Ltac two_digit_field v lo n K :=
  let I := fresh "I" in
  assert (I : In v (map (fun k => lo + Z.of_nat k) (seq 0 n)))
    by (apply in_count; simpl; lia);
  simpl in I;
  repeat (destruct I as [I|I];
          [subst v; vm_compute in K |- *; rewrite K; reflexivity |]);
  destruct I.

Lemma group_Y (R : Type) (k : list ascii -> list ascii -> option R)
      (rest : list ascii) (r : R) y :
  k (zero_pad 4 y) rest = Some r ->
  Strptime.group Strptime.re_Y (zero_pad 4 y ++ rest) k = Some r.
Proof.
  intros K. simpl zero_pad in *. simpl app in *.
  unfold Strptime.re_Y, Strptime.group, Strptime.match_seq.
  rewrite !digit_digit_char. rewrite K. reflexivity.
Qed.

Lemma group_m (R : Type) (k : list ascii -> list ascii -> option R)
      (rest : list ascii) (r : R) v :
  1 <= v <= 12 ->
  k (zero_pad 2 v) rest = Some r ->
  Strptime.group Strptime.re_m (zero_pad 2 v ++ rest) k = Some r.
Proof. intros B K. two_digit_field v 1 12%nat K. Qed.

Lemma group_d (R : Type) (k : list ascii -> list ascii -> option R)
      (rest : list ascii) (r : R) v :
  1 <= v <= 31 ->
  k (zero_pad 2 v) rest = Some r ->
  Strptime.group Strptime.re_d (zero_pad 2 v ++ rest) k = Some r.
Proof. intros B K. two_digit_field v 1 31%nat K. Qed.

Lemma group_H (R : Type) (k : list ascii -> list ascii -> option R)
      (rest : list ascii) (r : R) v :
  0 <= v <= 23 ->
  k (zero_pad 2 v) rest = Some r ->
  Strptime.group Strptime.re_H (zero_pad 2 v ++ rest) k = Some r.
Proof. intros B K. two_digit_field v 0 24%nat K. Qed.

Lemma group_M (R : Type) (k : list ascii -> list ascii -> option R)
      (rest : list ascii) (r : R) v :
  0 <= v <= 59 ->
  k (zero_pad 2 v) rest = Some r ->
  Strptime.group Strptime.re_M (zero_pad 2 v ++ rest) k = Some r.
Proof. intros B K. two_digit_field v 0 60%nat K. Qed.

Lemma group_S (R : Type) (k : list ascii -> list ascii -> option R)
      (rest : list ascii) (r : R) v :
  0 <= v <= 59 ->
  k (zero_pad 2 v) rest = Some r ->
  Strptime.group Strptime.re_S (zero_pad 2 v ++ rest) k = Some r.
Proof. intros B K. two_digit_field v 0 60%nat K. Qed.

Lemma days_in_month_le y m : days_in_month y m <= 31.
Proof.
  unfold days_in_month.
  repeat match goal with |- context [if ?c then _ else _] => destruct c end;
    lia.
Qed.

Lemma isoformat_read_back (d : datetime) :
  whole_second d -> Strptime.strptime (isoformat d) = Ok d.
Proof.
  intros (Bd & Bs & Us).
  destruct (ord2ymd_valid Bd) as (y & m & dd & E & By & Bm & Bdd & O).
  destruct d as [day sec us]. simpl in *. subst us.
  unfold isoformat, Strptime.strptime. simpl dt_day. simpl dt_sec. simpl dt_us.
  rewrite E. cbv zeta. rewrite Z.eqb_refl.
  rewrite list_ascii_of_string_of_list_ascii.
  set (hh := sec / 3600). set (mm := sec mod 3600 / 60). set (ss := sec mod 60).
  assert (Bh : 0 <= hh <= 23) by (unfold hh; Z.div_mod_to_equations; lia).
  assert (Bmm : 0 <= mm <= 59) by (unfold mm; Z.div_mod_to_equations; lia).
  assert (Bss : 0 <= ss <= 59) by (unfold ss; Z.div_mod_to_equations; lia).
  assert (Es : hh * 3600 + mm * 60 + ss = sec)
    by (unfold hh, mm, ss; Z.div_mod_to_equations; lia).
  assert (N4 : Strptime.num (zero_pad 4 y) = y).
  { rewrite num_zero_pad. apply Z.mod_small. simpl. lia. }
  assert (N2 : forall v, 0 <= v <= 99 -> Strptime.num (zero_pad 2 v) = v).
  { intros v Bv. rewrite num_zero_pad. apply Z.mod_small. simpl. lia. }
  pose proof (days_in_month_le y m) as D31.
  assert (F : Strptime.format_match
                (zero_pad 4 y ++ ["-"%char] ++ zero_pad 2 m ++ ["-"%char]
                 ++ zero_pad 2 dd ++ ["T"%char] ++ zero_pad 2 hh
                 ++ [":"%char] ++ zero_pad 2 mm ++ [":"%char]
                 ++ zero_pad 2 ss ++ [])
              = Some ((y, m, dd, hh, mm, ss), [])).
  { unfold Strptime.format_match.
    apply group_Y. simpl app. unfold Strptime.literal at 1. simpl Ascii.eqb.
    cbv beta iota. simpl orb. cbv iota.
    apply group_m; [lia |]. simpl app. unfold Strptime.literal at 1.
    simpl Ascii.eqb. simpl orb. cbv iota.
    apply group_d; [lia |]. simpl app. unfold Strptime.literal at 1.
    simpl Ascii.eqb. simpl orb. cbv iota.
    apply group_H; [lia |]. simpl app. unfold Strptime.literal at 1.
    simpl Ascii.eqb. simpl orb. cbv iota.
    apply group_M; [lia |]. simpl app. unfold Strptime.literal at 1.
    simpl Ascii.eqb. simpl orb. cbv iota.
    rewrite <- (app_nil_r (zero_pad 2 ss)) at 1.
    apply group_S; [lia |].
    rewrite N4, !N2 by lia. reflexivity. }
  rewrite F.
  replace ((1 <=? y) && (dd <=? days_in_month y m) && (ss <=? 59)) with true.
  - rewrite O, Es. reflexivity.
  - symmetry. apply andb_true_iff. split; [apply andb_true_iff; split |];
      apply Z.leb_le; lia.
Qed.

(** X1. The checkpoint format is read back as written: for a date-time of
    the [datetime] module with a microsecond of zero, [strptime] with the
    format [%Y-%m-%dT%H:%M:%S] takes [isoformat] back to the date-time; so two
    such date-times with the same ISO form are the same. *)
Theorem strptime_isoformat (d : datetime) :
  whole_second d ->
  Strptime.strptime (isoformat d) = Ok d /\
  forall d', whole_second d' -> isoformat d' = isoformat d -> d' = d.
Proof.
  intros W. split; [apply isoformat_read_back; exact W |].
  intros d' W' E.
  pose proof (isoformat_read_back W') as R'. rewrite E in R'.
  rewrite (isoformat_read_back W) in R'. inversion R'. reflexivity.
Qed.

Lemma strptime_isoformat_witness :
  Strptime.strptime
    (isoformat {| dt_day := 738945; dt_sec := 47159; dt_us := 0 |})
  = Ok {| dt_day := 738945; dt_sec := 47159; dt_us := 0 |}.
Proof.
  apply (proj1 (@strptime_isoformat
                  {| dt_day := 738945; dt_sec := 47159; dt_us := 0 |}
                  ltac:(unfold whole_second, MINORDINAL, MAXORDINAL;
                        simpl; lia))).
Defined.

(** With a microsecond that is not zero [isoformat] appends a fraction,
    which the format does not read. *)
Example strptime_isoformat_fraction :
  isoformat {| dt_day := 738945; dt_sec := 47159; dt_us := 250000 |}
  = "2024-02-29T13:05:59.250000" /\
  Strptime.strptime
    (isoformat {| dt_day := 738945; dt_sec := 47159; dt_us := 250000 |})
  = Raise ValueError.
Proof. split; reflexivity. Qed.

(* ===================================================================== *)
(** * More on the feed filter *)
(* ===================================================================== *)

Lemma dt_gtb_geb_trans a b c :
  dt_gtb a b = true -> dt_geb b c = true -> dt_gtb a c = true.
Proof. rewrite !dt_gtb_iff, dt_geb_iff. lia. Qed.

Lemma dt_geb_not_gtb a b : dt_geb a b = true -> dt_gtb b a = false.
Proof.
  intros G. destruct (dt_gtb b a) eqn:E; [| reflexivity].
  rewrite dt_gtb_iff in E. rewrite dt_geb_iff in G. lia.
Qed.

Lemma dt_geb_antisym a b :
  dt_geb a b = true -> dt_geb b a = true -> a = b.
Proof.
  rewrite !dt_geb_iff. destruct a, b; simpl. intros H1 H2.
  f_equal; lia.
Qed.

(** Entries that are not newer than the cutoff are passed over without a
    look at their title or link. *)
Lemma select_links_nothing_new w regex newer_than entries :
  (forall e, In e entries ->
     exists t, get_entry_datetime w e = Ok t /\ dt_geb newer_than t = true) ->
  select_links w regex newer_than entries = Ok [].
Proof.
  induction entries as [|e entries IH]; simpl; intros H; [reflexivity |].
  destruct (H e (or_introl eq_refl)) as (t & -> & G). simpl.
  rewrite (dt_geb_not_gtb _ _ G). simpl. apply IH. auto.
Qed.

Lemma extract_items_no_news (w : world) (url : json) (regex : regex)
      (newer_than : datetime) (st : state) (entries : list entry)
      (newest : datetime) :
  fetched w url newer_than st = Ok entries ->
  newest_of w entries = Ok newest ->
  dt_geb newer_than newest = true ->
  extract_items w url regex newer_than st
  = (Ok ([], newest), after_extract url newer_than st).
Proof.
  intros F N G. rewrite extract_items_unfold, F. simpl.
  rewrite select_links_nothing_new.
  - fold (newest_of w entries). rewrite N. reflexivity.
  - intros e I. destruct (proj2 (@newest_of_spec w _ _ N) e I) as (t & T & Gt).
    exists t. split; [exact T |]. eapply dt_geb_trans; eauto.
Qed.

(** X3. When the cutoff is not below the newest timestamp of the feed,
    [extract_items] returns no link and the newest timestamp, also when
    entries of the feed lack a title or a link: the title and the link of an
    entry that is not newer than the cutoff are never read. *)
Theorem extract_items_nothing_new (w : world) (url : json) (regex : regex)
        (newer_than : datetime) (st : state) (entries : list entry)
        (newest : datetime) :
  fetched w url newer_than st = Ok entries ->
  newest_of w entries = Ok newest ->
  dt_geb newer_than newest = true ->
  extract_items w url regex newer_than st
  = (Ok ([], newest), after_extract url newer_than st) /\
  filter (is_new_match w regex newer_than) entries = [].
Proof.
  intros F N G.
  pose proof (@extract_items_no_news w url regex newer_than st entries newest
                F N G) as X.
  split; [exact X |].
  apply extract_items_inv in X as (entries' & F' & S & _ & _).
  rewrite F in F'. inversion F'; subst entries'.
  apply select_links_spec in S. simpl in S.
  destruct (filter (is_new_match w regex newer_than) entries);
    [reflexivity | discriminate].
Qed.

Lemma extract_items_nothing_new_witness :
  let w := Sample.a_world JNull Sample.all_fine in
  let untitled := {| published_parsed := Some (StructTime
                                                 (Sample.at_time 738000 0));
                     updated_parsed := None;
                     title := None;
                     link := None |} in
  let w' := {| w_files := w_files w; w_dirs := w_dirs w; w_now := w_now w;
               w_mktime := w_mktime w;
               w_localtime := w_localtime w;
               w_compile := w_compile w;
               w_feed := fun _ _ => Ok [untitled];
               w_exec := w_exec w |} in
  extract_items w' (JStr "http://feed/a") Dot (Sample.at_time 738000 0)
                (Sample.initially None)
  = (Ok ([], Sample.at_time 738000 0),
     after_extract (JStr "http://feed/a") (Sample.at_time 738000 0)
                   (Sample.initially None)).
Proof.
  intros w untitled w'.
  apply (proj1 (@extract_items_nothing_new w' (JStr "http://feed/a") Dot
                  (Sample.at_time 738000 0) (Sample.initially None) [untitled]
                  (Sample.at_time 738000 0) eq_refl eq_refl eq_refl)).
Defined.

Lemma select_links_raise w regex newer_than entries e x :
  In e entries -> get_entry_datetime w e = Raise x ->
  exists x', select_links w regex newer_than entries = Raise x'.
Proof.
  induction entries as [|e0 entries IH]; simpl; intros I R; [destruct I |].
  destruct I as [->|I].
  - rewrite R. simpl. eauto.
  - destruct (get_entry_datetime w e0) as [t|x0]; simpl; [| eauto].
    destruct (IH I R) as [x' E].
    destruct (dt_gtb t newer_than); simpl; [| eauto].
    destruct (title e0) as [s|]; simpl; [| eauto].
    destruct (re_match regex s); simpl; [| eauto].
    destruct (link e0) as [l|]; simpl; [| eauto].
    rewrite E. simpl. eauto.
Qed.

(** X4. One entry whose timestamp does not resolve makes the whole feed
    fail: [extract_items] raises for every pattern and every cutoff, whether
    or not the entry would have passed the filter.  An entry without
    "published" and "updated" is such an entry, and so is an entry whose
    "published" date is there but was not parsed, even when it has an
    "updated" time. *)
Theorem extract_items_unresolved_entry (w : world) (url : json)
        (regex : regex) (newer_than : datetime) (st : state)
        (entries : list entry) (e : entry) :
  fetched w url newer_than st = Ok entries ->
  In e entries ->
  (published_parsed e = None /\ updated_parsed e = None) \/
  published_parsed e = Some PyNone ->
  exists x,
    extract_items w url regex newer_than st
    = (Raise x, after_extract url newer_than st).
Proof.
  intros F I U.
  assert (R : exists x, get_entry_datetime w e = Raise x).
  { unfold get_entry_datetime. destruct U as [[-> ->] | ->]; simpl; eauto. }
  destruct R as [x R].
  destruct (select_links_raise w regex newer_than entries e I R) as [x' S].
  rewrite extract_items_unfold, F. simpl. rewrite S. simpl. eauto.
Qed.

Lemma extract_items_unresolved_entry_witness :
  let w := Sample.a_world JNull Sample.all_fine in
  let unparsed := {| published_parsed := Some PyNone;
                     updated_parsed := Some (StructTime
                                               (Sample.at_time 738000 0));
                     title := Some "Other";
                     link := Some "http://media/4" |} in
  let w' := {| w_files := w_files w; w_dirs := w_dirs w; w_now := w_now w;
               w_mktime := w_mktime w;
               w_localtime := w_localtime w;
               w_compile := w_compile w;
               w_feed := fun _ _ => Ok (Sample.entries ++ [unparsed]);
               w_exec := w_exec w |} in
  exists x,
    extract_items w' (JStr "http://feed/a")
                  (literal (list_ascii_of_string "Breaking"))
                  (Sample.at_time 739999 0) (Sample.initially None)
    = (Raise x, after_extract (JStr "http://feed/a")
                              (Sample.at_time 739999 0)
                              (Sample.initially None)).
Proof.
  intros w unparsed w'.
  apply (@extract_items_unresolved_entry w' (JStr "http://feed/a")
           (literal (list_ascii_of_string "Breaking"))
           (Sample.at_time 739999 0) (Sample.initially None)
           (Sample.entries ++ [unparsed]) unparsed eq_refl).
  - apply in_or_app. right. left. reflexivity.
  - right. reflexivity.
Defined.

Lemma entry_datetimes_perm w l l' :
  Permutation l l' ->
  forall ts, entry_datetimes w l = Ok ts ->
  exists ts', entry_datetimes w l' = Ok ts' /\ Permutation ts ts'.
Proof.
  induction 1 as [| x l l' P IH | x y l | l l' l'' P1 IH1 P2 IH2];
    simpl; intros ts E.
  - inversion E; subst. eauto.
  - destruct (get_entry_datetime w x) as [t|]; simpl in *; [| discriminate].
    destruct (entry_datetimes w l) as [ts0|]; simpl in *; [| discriminate].
    inversion E; subst.
    destruct (IH ts0 eq_refl) as (ts' & -> & P'). simpl. eauto.
  - destruct (get_entry_datetime w y) as [ty|]; simpl in *; [| discriminate].
    destruct (get_entry_datetime w x) as [tx|]; simpl in *; [| discriminate].
    destruct (entry_datetimes w l) as [ts0|]; simpl in *; [| discriminate].
    inversion E; subst. eexists; split; [reflexivity |]. apply perm_swap.
  - destruct (IH1 ts E) as (ts1 & E1 & Q1).
    destruct (IH2 ts1 E1) as (ts2 & E2 & Q2).
    exists ts2. split; [exact E2 |]. eapply perm_trans; eauto.
Qed.

(** X5. The newest timestamp does not depend on the order in which the
    feed lists its entries. *)
Theorem newest_of_permutation (w : world) (entries entries' : list entry)
        (newest : datetime) :
  Permutation entries entries' ->
  newest_of w entries = Ok newest ->
  newest_of w entries' = Ok newest.
Proof.
  unfold newest_of. intros P N.
  destruct (entry_datetimes w entries) as [ts|] eqn:E; simpl in N;
    [| discriminate].
  destruct (entry_datetimes_perm w P E) as (ts' & -> & Q). simpl.
  destruct (py_max ts') as [m|x] eqn:M'.
  - apply py_max_spec in N as [I G]. apply py_max_spec in M' as [I' G'].
    f_equal. apply dt_geb_antisym.
    + apply G'. eapply Permutation_in; eauto.
    + apply G. eapply Permutation_in; [apply Permutation_sym |]; eauto.
  - destruct ts' as [|t ts']; [| discriminate].
    apply Permutation_sym, Permutation_nil in Q. subst ts. discriminate.
Qed.

Lemma newest_of_permutation_witness :
  newest_of (Sample.a_world JNull Sample.all_fine) (rev Sample.entries)
  = Ok (Sample.at_time Sample.today 3600).
Proof.
  apply (@newest_of_permutation (Sample.a_world JNull Sample.all_fine)
           Sample.entries (rev Sample.entries)).
  - apply Permutation_rev.
  - reflexivity.
Defined.

(* ===================================================================== *)
(** * More on the downloader invoker *)
(* ===================================================================== *)

(** X6. [download] returns normally exactly when the program could be
    started, whatever its exit status; after an exit status of zero it has
    logged nothing.  A [CalledProcessError] never leaves it, and it never
    touches the watermark file or the working directory. *)
Theorem download_outcomes (w : world) (vurl d : string) (st : state) :
  (fst (download w vurl (JStr d) st) = Ok tt <->
   w_exec w (st_trace st) d vurl <> NotStarted) /\
  (w_exec w (st_trace st) d vurl = Exited 0 ->
   download w vurl (JStr d) st
   = (Ok tt, add_events [EvCall (JStr d) vurl] st)) /\
  fst (download w vurl (JStr d) st) <> Raise CalledProcessError /\
  st_wm (snd (download w vurl (JStr d) st)) = st_wm st /\
  st_cwd (snd (download w vurl (JStr d) st)) = st_cwd st.
Proof.
  rewrite download_unfold.
  destruct (w_exec w (st_trace st) d vurl) as [code|].
  - destruct (Z.eqb_spec code 0) as [->|N]; simpl;
      (split; [split; [discriminate | reflexivity] |]);
      (split; [intros E; inversion E; try reflexivity; congruence |]);
      (split; [discriminate | split; reflexivity]).
  - simpl. split; [split; [discriminate | congruence] |].
    split; [discriminate |]. split; [discriminate | split; reflexivity].
Qed.

Lemma download_outcomes_witness :
  let w := Sample.a_world JNull Sample.all_fine in
  download w "http://media/1" (JStr "wget") (Sample.initially None)
  = (Ok tt, add_events [EvCall (JStr "wget") "http://media/1"]
                       (Sample.initially None)).
Proof.
  intros w.
  apply (proj1 (proj2 (download_outcomes w "http://media/1" "wget"
                         (Sample.initially None)))).
  reflexivity.
Defined.

(* ===================================================================== *)
(** * More on one feed *)
(* ===================================================================== *)

Lemma calls_of_app evs1 evs2 :
  calls_of (evs1 ++ evs2) = calls_of evs1 ++ calls_of evs2.
Proof.
  induction evs1 as [|ev evs1 IH]; simpl; [reflexivity |].
  destruct ev; simpl; rewrite ?IH; reflexivity.
Qed.

Lemma writes_of_app evs1 evs2 :
  writes_of (evs1 ++ evs2) = writes_of evs1 ++ writes_of evs2.
Proof.
  induction evs1 as [|ev evs1 IH]; simpl; [reflexivity |].
  destruct ev; simpl; rewrite ?IH; reflexivity.
Qed.

Lemma writes_of_none evs :
  Forall (fun ev => is_write ev = false) evs -> writes_of evs = [].
Proof.
  induction 1 as [|ev evs N _ IH]; simpl; [reflexivity |].
  destruct ev; try discriminate; exact IH.
Qed.

(** The loop over the links, when it completes, has started the downloader
    once for each link, in order. *)
Lemma for_each_download_calls w d vurls : forall st st',
  Eff.for_each vurls (download_link w (JStr d)) st = (Ok tt, st') ->
  exists evs,
    st' = add_events evs st /\
    calls_of evs = map (pair (JStr d)) vurls /\
    Forall plain evs.
Proof.
  induction vurls as [|vurl vurls IH]; simpl; intros st st' H.
  - inversion H; subst. exists []. rewrite add_events_nil. auto.
  - rewrite bind_run in H.
    destruct (download_link w (JStr d) vurl st) as [[[]|e] st1] eqn:D;
      [| discriminate].
    apply IH in H as (evs2 & -> & C2 & P2).
    unfold download_link in D. rewrite bind_run in D.
    unfold logging, Eff.emit in D.
    fold (add_events [EvLog DEBUG (FoundUrl vurl)] st) in D.
    rewrite download_unfold in D.
    destruct (w_exec w _ d vurl) as [code|]; [| discriminate].
    destruct (code =? 0); inversion D; subst; rewrite !add_events_app;
      eexists; (split; [reflexivity |]); simpl; rewrite C2;
      (split; [reflexivity |]);
      repeat (constructor; [split; reflexivity |]); exact P2.
Qed.

Lemma py_in_string x l : py_in x l = true -> exists s, x = JStr s /\ In s l.
Proof.
  destruct x; simpl; try discriminate. intros H.
  apply existsb_exists in H as (s' & I & E).
  apply String.eqb_eq in E. subst. eauto.
Qed.

(** What a feed whose processing completes has done, with the starts of the
    downloader. *)
Lemma process_feed_ok_calls w start_time feed last_run st last_run' st' :
  process_feed w start_time feed last_run st = (Ok last_run', st') ->
  exists u regex d newer_than entries vurls newest evs dct,
    feed_fields_of w feed = Ok (JStr u, regex, JStr d) /\
    In d SUPPORTED_DOWNLOADERS /\
    newer_than_of start_time last_run (JStr u) = Ok newer_than /\
    fetched w (JStr u) newer_than (add_events (parsing (JStr u)) st)
    = Ok entries /\
    select_links w regex newer_than entries = Ok vurls /\
    newest_of w entries = Ok newest /\
    last_run = JDict dct /\
    last_run' = JDict (assoc_set dct u (JStr (isoformat newest))) /\
    calls_of evs = map (pair (JStr d)) vurls /\
    Forall plain evs /\
    st' = written last_run'
            (add_events (parsing (JStr u)
                         ++ EvExtractItems (JStr u) newer_than
                         :: EvParse (JStr u) :: evs) st).
Proof.
  rewrite process_feed_unfold.
  destruct (feed_fields_of w feed) as [[[url regex] downloader]|e];
    [| discriminate].
  cbv zeta.
  destruct (py_in downloader SUPPORTED_DOWNLOADERS) eqn:S; simpl;
    [| discriminate].
  apply py_in_string in S as (d & -> & Sd).
  destruct (newer_than_of start_time last_run url) as [c|e] eqn:C;
    [| discriminate].
  destruct (extract_items w url regex c _) as [[[vurls newest]|e] st2] eqn:X;
    [| discriminate].
  apply extract_items_inv in X as (entries & F & L & N & ->).
  destruct url as [| | | | u | |]; try discriminate F.
  destruct (Eff.for_each vurls (download_link w (JStr d)) _)
    as [[[]|e] st3] eqn:D; [| discriminate].
  apply for_each_download_calls in D as (evs & -> & Cs & P).
  unfold store_watermark, py_setitem.
  destruct last_run as [| | | | | |dct]; try discriminate.
  intros H; inversion H; subst.
  exists u, regex, d, c, entries, vurls, newest, evs, dct.
  repeat (split; [solve [auto] |]).
  f_equal. unfold after_extract, add_events. simpl.
  rewrite <- !app_assoc. reflexivity.
Qed.

Lemma calls_of_feed url newer_than last_run dir evs :
  calls_of (parsing url ++ EvExtractItems url newer_than :: EvParse url :: evs
            ++ [EvWrite dir last_run])
  = calls_of evs.
Proof. simpl. rewrite calls_of_app. simpl. apply app_nil_r. Qed.

(** X7. A feed whose processing completes has started its downloader
    exactly once for each link that [extract_items] returned, in the order of
    the feed, and for nothing else: the links are those of the entries that
    are newer than the cutoff and whose title matches. *)
Theorem feed_calls_are_selected_links (w : world) (start_time : datetime)
        (feed last_run : json) (st : state) (last_run' : json) (st' : state) :
  process_feed w start_time feed last_run st = (Ok last_run', st') ->
  exists u regex d newer_than entries evs,
    feed_fields_of w feed = Ok (JStr u, regex, JStr d) /\
    fetched w (JStr u) newer_than (add_events (parsing (JStr u)) st)
    = Ok entries /\
    st_trace st' = st_trace st ++ evs /\
    map fst (calls_of evs) = map (fun _ => JStr d) (calls_of evs) /\
    map (fun c => Some (snd c)) (calls_of evs)
    = selected_links w regex newer_than entries.
Proof.
  intros H. apply process_feed_ok_calls in H
    as (u & regex & d & c & entries & vurls & newest & evs & dct
        & F & _ & _ & Fe & S & _ & -> & -> & Cs & _ & ->).
  exists u, regex, d, c, entries.
  eexists. split; [exact F | split; [exact Fe | split]].
  - simpl. rewrite <- app_assoc. reflexivity.
  - simpl. rewrite !calls_of_app, Cs. simpl. rewrite app_nil_r.
    rewrite !map_map. simpl. split; [reflexivity |].
    unfold selected_links. rewrite <- (@select_links_spec w _ _ _ _ S).
    reflexivity.
Qed.

Lemma feed_calls_are_selected_links_witness :
  let w := Sample.a_world JNull Sample.all_fine in
  let start_time := Sample.at_time (Sample.today - 7) 0 in
  let feed := Sample.feed_config "http://feed/a" "wget" in
  let st := entered "media" (Sample.initially None) in
  exists u regex d newer_than entries evs,
    feed_fields_of w feed = Ok (JStr u, regex, JStr d) /\
    fetched w (JStr u) newer_than (add_events (parsing (JStr u)) st)
    = Ok entries /\
    st_trace (snd (process_feed w start_time feed (JDict []) st))
    = st_trace st ++ evs /\
    map fst (calls_of evs) = map (fun _ => JStr d) (calls_of evs) /\
    map (fun c => Some (snd c)) (calls_of evs)
    = selected_links w regex newer_than entries.
Proof.
  intros w start_time feed st.
  apply (@feed_calls_are_selected_links w start_time feed (JDict []) st
           (JDict [("http://feed/a", JStr "2024-02-29T01:00:00")])
           (snd (process_feed w start_time feed (JDict []) st))).
  reflexivity.
Defined.

Lemma dt_gtb_max a b t :
  dt_gtb t (dt_max a b) = true -> dt_gtb t a = true /\ dt_gtb t b = true.
Proof.
  intros G. split; eapply dt_gtb_geb_trans; eauto;
    [apply dt_max_geb_l | apply dt_max_geb_r].
Qed.

(** X8. Whatever a completed feed has handed to its downloader is the link
    of an entry that is strictly newer than the start of the time window
    and, when the store had a watermark for the feed, strictly newer than
    that watermark: nothing older than either is downloaded. *)
Theorem feed_calls_are_new (w : world) (start_time : datetime)
        (feed last_run : json) (st : state) (last_run' : json) (st' : state) :
  process_feed w start_time feed last_run st = (Ok last_run', st') ->
  exists u newer_than entries evs,
    py_subscript feed (JStr "url") = Ok (JStr u) /\
    fetched w (JStr u) newer_than (add_events (parsing (JStr u)) st)
    = Ok entries /\
    st_trace st' = st_trace st ++ evs /\
    forall downloader vurl,
      In (downloader, vurl) (calls_of evs) ->
      exists e t,
        In e entries /\ link e = Some vurl /\
        get_entry_datetime w e = Ok t /\
        dt_gtb t start_time = true /\
        forall s watermark,
          py_subscript last_run (JStr u) = Ok (JStr s) ->
          Strptime.strptime s = Ok watermark ->
          dt_gtb t watermark = true.
Proof.
  intros H. apply process_feed_ok_calls in H
    as (u & regex & d & c & entries & vurls & newest & evs & dct
        & F & _ & C & Fe & S & _ & -> & -> & Cs & _ & ->).
  apply feed_fields_of_ok in F as (U & _ & _).
  exists u, c, entries. eexists.
  split; [exact U | split; [exact Fe | split]].
  - simpl. rewrite <- app_assoc. reflexivity.
  - intros downloader vurl I.
    simpl in I. rewrite !calls_of_app, Cs in I. simpl in I.
    rewrite app_nil_r in I. apply in_map_iff in I as (v & E & I).
    inversion E; subst v downloader. clear E.
    assert (I' : In (Some vurl)
                    (map link (filter (is_new_match w regex c) entries))).
    { rewrite <- (@select_links_spec w _ _ _ _ S). apply in_map. exact I. }
    apply in_map_iff in I' as (e & L & I').
    apply filter_In in I' as [Ie M].
    unfold is_new_match in M.
    destruct (get_entry_datetime w e) as [t|] eqn:T; [| discriminate].
    apply andb_true_iff in M as [G _].
    exists e, t. split; [exact Ie | split; [exact L | split; [exact T |]]].
    apply newer_than_of_ok in C.
    destruct C as [s0 t0 L0 P0 | L0].
    + apply dt_gtb_max in G as [G1 G2]. split; [exact G1 |].
      intros s watermark L1 P1. rewrite L0 in L1. inversion L1; subst s0.
      rewrite P0 in P1. inversion P1; subst. exact G2.
    + split; [exact G |]. intros s watermark L1. rewrite L0 in L1.
      discriminate.
Qed.

Lemma feed_calls_are_new_witness :
  let w := Sample.a_world JNull Sample.all_fine in
  let start_time := Sample.at_time (Sample.today - 7) 0 in
  let feed := Sample.feed_config "http://feed/a" "wget" in
  let stored := JDict [("http://feed/a", JStr "2024-02-28T12:00:00")] in
  let st := entered "media" (Sample.initially None) in
  exists u newer_than entries evs,
    py_subscript feed (JStr "url") = Ok (JStr u) /\
    fetched w (JStr u) newer_than (add_events (parsing (JStr u)) st)
    = Ok entries /\
    st_trace (snd (process_feed w start_time feed stored st))
    = st_trace st ++ evs /\
    forall downloader vurl,
      In (downloader, vurl) (calls_of evs) ->
      exists e t,
        In e entries /\ link e = Some vurl /\
        get_entry_datetime w e = Ok t /\
        dt_gtb t start_time = true /\
        forall s watermark,
          py_subscript stored (JStr u) = Ok (JStr s) ->
          Strptime.strptime s = Ok watermark ->
          dt_gtb t watermark = true.
Proof.
  intros w start_time feed stored st.
  apply (@feed_calls_are_new w start_time feed stored st
           (JDict [("http://feed/a", JStr "2024-02-29T01:00:00")])
           (snd (process_feed w start_time feed stored st))).
  reflexivity.
Defined.




Lemma assoc_set_keys d : forall k v,
  map fst (assoc_set d k v)
  = if existsb (String.eqb k) (map fst d) then map fst d
    else map fst d ++ [k].
Proof.
  induction d as [|[k' v'] d IH]; simpl; intros k v; [reflexivity |].
  rewrite (String.eqb_sym k k').
  destruct (String.eqb k' k); simpl; [reflexivity |].
  rewrite IH. destruct (existsb (String.eqb k) (map fst d)); reflexivity.
Qed.

Lemma existsb_eqb_In k l : existsb (String.eqb k) l = true <-> In k l.
Proof.
  rewrite existsb_exists. split.
  - intros (x & I & E). apply String.eqb_eq in E. subst. exact I.
  - intros I. exists k. split; [exact I | apply String.eqb_refl].
Qed.

(** X9. For a feed whose URL is a string and a store with strings for keys,
    as [json.loads] gives it, the checkpoint of the completed feed changes
    the watermark of the URL of that feed and nothing else in the store: the
    watermarks of all other URLs stay, the URLs keep their order, a URL that
    is new to the store goes last, and no URL comes to stand twice. *)
Theorem checkpoint_keeps_other_watermarks (w : world) (start_time : datetime)
        (feed last_run : json) (st : state) (last_run' : json) (st' : state)
        (u : string) :
  py_subscript feed (JStr "url") = Ok (JStr u) ->
  process_feed w start_time feed last_run st = (Ok last_run', st') ->
  exists dct dct',
    last_run = JDict dct /\ last_run' = JDict dct' /\
    assoc_get dct' u <> None /\
    (forall k, k <> u -> assoc_get dct' k = assoc_get dct k) /\
    (In u (map fst dct) -> map fst dct' = map fst dct) /\
    (~ In u (map fst dct) -> map fst dct' = map fst dct ++ [u]) /\
    (NoDup (map fst dct) -> NoDup (map fst dct')).
Proof.
  intros Us H. apply process_feed_ok in H
    as (u' & regex & dl & c & es & vs & nw & evs & d
        & F & _ & _ & _ & _ & _ & -> & -> & _).
  apply feed_fields_of_ok in F as (U & _ & _).
  rewrite Us in U. inversion U; subst u'. clear U.
  exists d. eexists. split; [reflexivity |].
  split; [reflexivity |].
  split; [rewrite assoc_get_set_same; discriminate |].
  pose proof (assoc_set_keys d u (JStr (isoformat nw))) as K.
  destruct (existsb (String.eqb u) (map fst d)) eqn:E.
  - apply existsb_eqb_In in E.
    split; [intros k N; apply assoc_get_set_other; congruence |].
    split; [intros _; exact K |].
    split; [intros N; contradiction | rewrite K; auto].
  - assert (N : ~ In u (map fst d)).
    { intros I. apply existsb_eqb_In in I. congruence. }
    split; [intros k Nk; apply assoc_get_set_other; congruence |].
    split; [intros I; contradiction |].
    split; [intros _; exact K |].
    intros D. rewrite K. apply NoDup_app; [exact D | repeat constructor; auto |].
    intros x I [<-|[]]. contradiction.
Qed.

Lemma checkpoint_keeps_other_watermarks_witness :
  let w := Sample.a_world JNull Sample.all_fine in
  let start_time := Sample.at_time (Sample.today - 7) 0 in
  let feed := Sample.feed_config "http://feed/a" "wget" in
  let stored := JDict [("http://feed/b", JStr "2024-02-01T00:00:00")] in
  let st := entered "media" (Sample.initially None) in
  let u := "http://feed/a" in
  exists dct dct',
    stored = JDict dct /\
    JDict [("http://feed/b", JStr "2024-02-01T00:00:00");
           ("http://feed/a", JStr "2024-02-29T01:00:00")] = JDict dct' /\
    assoc_get dct' u <> None /\
    (forall k, k <> u -> assoc_get dct' k = assoc_get dct k) /\
    (In u (map fst dct) -> map fst dct' = map fst dct) /\
    (~ In u (map fst dct) -> map fst dct' = map fst dct ++ [u]) /\
    (NoDup (map fst dct) -> NoDup (map fst dct')).
Proof.
  intros w start_time feed stored st u.
  apply (@checkpoint_keeps_other_watermarks w start_time feed stored st
           (JDict [("http://feed/b", JStr "2024-02-01T00:00:00");
                   ("http://feed/a", JStr "2024-02-29T01:00:00")])
           (snd (process_feed w start_time feed stored st)) u).
  - reflexivity.
  - reflexivity.
Defined.




(** X11. A watermark store that is valid JSON but no object, or in which
    the value for the URL of a feed is no string, is not tolerated: the feed,
    its settings being in order, raises [TypeError] before it is retrieved,
    and the handler for a missing watermark lets that pass. *)
Theorem watermark_store_type_errors (w : world) (start_time : datetime)
        (feed last_run : json) (st : state) (u : string) (regex : regex)
        (downloader : json) :
  feed_fields_of w feed = Ok (JStr u, regex, downloader) ->
  py_in downloader SUPPORTED_DOWNLOADERS = true ->
  ((forall dct, last_run <> JDict dct) ->
   process_feed w start_time feed last_run st
   = (Raise TypeError, add_events (parsing (JStr u)) st)) /\
  (forall v,
     py_subscript last_run (JStr u) = Ok v ->
     (forall s, v <> JStr s) ->
     process_feed w start_time feed last_run st
     = (Raise TypeError, add_events (parsing (JStr u)) st)).
Proof.
  intros F S. split.
  - intros N. rewrite process_feed_unfold, F. cbv zeta. rewrite S. simpl.
    unfold newer_than_of, Exc.try_except.
    destruct last_run; try reflexivity. destruct (N d); reflexivity.
  - intros v L N. rewrite process_feed_unfold, F. cbv zeta. rewrite S. simpl.
    unfold newer_than_of, Exc.try_except. rewrite L. simpl.
    destruct v; try reflexivity. destruct (N s); reflexivity.
Qed.

Lemma watermark_store_type_errors_witness :
  let w := Sample.a_world JNull Sample.all_fine in
  let start_time := Sample.at_time (Sample.today - 7) 0 in
  let feed := Sample.feed_config "http://feed/a" "wget" in
  let st := entered "media" (Sample.initially None) in
  process_feed w start_time feed (JList []) st
  = (Raise TypeError, add_events (parsing (JStr "http://feed/a")) st) /\
  process_feed w start_time feed
    (JDict [("http://feed/a", JInt 1709168400)]) st
  = (Raise TypeError, add_events (parsing (JStr "http://feed/a")) st).
Proof.
  intros w start_time feed st. split.
  - apply (proj1 (@watermark_store_type_errors w start_time feed (JList []) st
                    "http://feed/a"
                    (literal (list_ascii_of_string "Breaking"))
                    (JStr "wget") eq_refl eq_refl)).
    intros dct H. discriminate H.
  - apply (proj2 (@watermark_store_type_errors w start_time feed
                    (JDict [("http://feed/a", JInt 1709168400)]) st
                    "http://feed/a"
                    (literal (list_ascii_of_string "Breaking"))
                    (JStr "wget") eq_refl eq_refl)
                 (JInt 1709168400) eq_refl).
    intros s H. discriminate H.
Defined.

(* ===================================================================== *)
(** * More on the whole run *)
(* ===================================================================== *)

(** X12. With the settings file read, a missing "directory" key, a
    directory name without a null character that names no directory, a
    missing "maxage" key, a "maxage" that [int] rejects with a [TypeError]
    and a missing "feeds" key each end the run with their own configuration
    error; nothing but the start record is logged, and at most the working
    directory has changed.  A directory name with a null character in it is
    no configuration error: [os.chdir] raises [ValueError] on it, which the
    handler for [OSError] lets pass. *)
Theorem configuration_errors_abort (w : world) (settings_file : string)
        (st : state) (settings : json) :
  w_files w settings_file = Some (JsonDoc settings) ->
  let st0 := add_events [EvLog DEBUG Starting] st in
  let aborts msg st' :=
    download_new w settings_file st
    = (Raise (InvalidInputDataException msg), st') in
  (py_subscript settings (JStr "directory") = Raise KeyError ->
   aborts NoDirectory st0) /\
  (forall dir,
     py_subscript settings (JStr "directory") = Ok (JStr dir) ->
     (has_nul dir = true ->
      download_new w settings_file st = (Raise ValueError, st0)) /\
     (has_nul dir = false ->
      (w_dirs w dir = false -> aborts DirectoryMissing st0) /\
      (w_dirs w dir = true ->
       (py_subscript settings (JStr "maxage") = Raise KeyError ->
        aborts NoTimeFrame (entered dir st0)) /\
       (forall v,
          py_subscript settings (JStr "maxage") = Ok v ->
          py_int v = Raise TypeError ->
          aborts InvalidTimeFrame (entered dir st0)) /\
       (forall start_time,
          start_time_of w settings = Ok start_time ->
          py_subscript settings (JStr "feeds") = Raise KeyError ->
          aborts NoFeeds (entered dir st0))))).
Proof.
  intros F st0 aborts. unfold aborts.
  destruct (settings_errors w settings_file st0 F) as (E1 & E2).
  split.
  - intros D. rewrite download_new_unfold. fold st0. rewrite (E1 D).
    reflexivity.
  - intros dir D. destruct (E2 dir D) as (E0 & E34). split.
    + intros Nul. rewrite download_new_unfold. fold st0. rewrite (E0 Nul).
      reflexivity.
    + intros Nul. destruct (E34 Nul) as (E3 & E4). split.
      * intros X. rewrite download_new_unfold. fold st0. rewrite (E3 X).
        reflexivity.
      * intros X. destruct (E4 X) as (E5 & E6 & E7). split; [| split].
        -- intros M. rewrite download_new_unfold. fold st0. rewrite (E5 M).
           reflexivity.
        -- intros v M T. rewrite download_new_unfold. fold st0.
           rewrite (proj1 (E6 v M) T). reflexivity.
        -- intros start_time S Fs. rewrite download_new_unfold. fold st0.
           rewrite (E7 start_time S Fs). reflexivity.
Qed.

Lemma configuration_errors_abort_witness :
  let w := Sample.a_world
             (JDict [("directory", JStr "media"); ("maxage", JNull);
                     ("feeds", JList [])])
             Sample.all_fine in
  download_new w "settings.json" (Sample.initially None)
  = (Raise (InvalidInputDataException InvalidTimeFrame),
     entered "media" (add_events [EvLog DEBUG Starting]
                                 (Sample.initially None))).
Proof.
  intros w.
  apply (proj1 (proj2 (proj2 (proj2 (proj2 (@configuration_errors_abort
     w "settings.json" (Sample.initially None) _ eq_refl) "media" eq_refl)
     eq_refl) eq_refl)) JNull eq_refl eq_refl).
Defined.

Lemma digit_val_range c : is_digit c = true -> 0 <= digit_val c <= 9.
Proof.
  unfold is_digit, digit_val. intros H.
  apply andb_true_iff in H as [L U].
  apply N.leb_le in L, U. lia.
Qed.

Lemma int_digits_bound s : forall acc after_digit n k,
  int_digits s acc after_digit = Some n ->
  0 <= k -> 0 <= acc < 10 ^ k ->
  0 <= n < 10 ^ (k + Z.of_nat (List.length (filter is_digit s))).
Proof.
  induction s as [|c s IH]; intros acc b n k H K B.
  - simpl in *. rewrite Z.add_0_r.
    destruct b; inversion H; subst; exact B.
  - cbn [int_digits filter] in *.
    destruct (is_digit c) eqn:D.
    + pose proof (digit_val_range c D) as V.
      apply (IH _ _ _ (k + 1)) in H; [| lia |].
      * cbn [List.length]. rewrite Nat2Z.inj_succ.
        replace (k + Z.succ (Z.of_nat (List.length (filter is_digit s))))
          with (k + 1 + Z.of_nat (List.length (filter is_digit s))) by lia.
        exact H.
      * rewrite Z.pow_add_r, Z.pow_1_r by lia. lia.
    + destruct (Ascii.eqb c "_" && b); [| discriminate].
      destruct s as [|d s']; [discriminate |].
      destruct (is_digit d) eqn:D'; [| discriminate].
      apply (IH _ _ _ k) in H; auto.
Qed.

(** What [int] makes of a string has at most [MAX_STR_DIGITS] digits. *)
Lemma int_of_string_bound s n :
  int_of_string s = Ok n -> Z.abs n < 10 ^ MAX_STR_DIGITS.
Proof.
  unfold int_of_string.
  assert (K : forall (neg : bool) ds,
             match int_digits ds 0 false with
             | Some m =>
                 if Z.of_nat (List.length (filter is_digit ds))
                    <=? MAX_STR_DIGITS
                 then Ok (if neg then - m else m) else Raise ValueError
             | None => Raise ValueError
             end = Ok n ->
             Z.abs n < 10 ^ MAX_STR_DIGITS).
  { intros neg ds. destruct (int_digits ds 0 false) as [m|] eqn:I;
      [| discriminate].
    destruct (Z.leb_spec (Z.of_nat (List.length (filter is_digit ds)))
                         MAX_STR_DIGITS) as [L|L]; [| discriminate].
    intros H. inversion H; subst n. clear H.
    apply (@int_digits_bound ds 0 false m 0) in I;
      [| lia | rewrite Z.pow_0_r; lia].
    rewrite Z.add_0_l in I.
    assert (P : 10 ^ Z.of_nat (List.length (filter is_digit ds))
                <= 10 ^ MAX_STR_DIGITS)
      by (apply Z.pow_le_mono_r; lia).
    generalize dependent (10 ^ MAX_STR_DIGITS).
    generalize dependent (10 ^ Z.of_nat (List.length (filter is_digit ds))).
    intros. destruct neg; lia. }
  destruct (strip (list_ascii_of_string s)) as [|c r]; [apply (K false) |].
  destruct (Ascii.eqb c "-"); [apply (K true) |].
  destruct (Ascii.eqb c "+"); apply (K false).
Qed.

(** So [int] converts no "maxage" of more than [MAX_STR_DIGITS] digits. *)
Lemma py_int_string_bound s n :
  py_int (JStr s) = Ok n -> Z.abs n < 10 ^ MAX_STR_DIGITS.
Proof. apply int_of_string_bound. Qed.

(** X13. A time window that the [datetime] module cannot hold is no
    configuration error: a "maxage" that [int] converts to more than
    999999999 days either way, or to a number of days that takes the start of
    the window before the year 1 or past the year 9999, ends the run with an
    [OverflowError]. *)
Theorem window_out_of_range (w : world) (settings_file : string)
        (st : state) (settings : json) (dir : string) (maxage : Z) :
  w_files w settings_file = Some (JsonDoc settings) ->
  py_subscript settings (JStr "directory") = Ok (JStr dir) ->
  has_nul dir = false ->
  w_dirs w dir = true ->
  maxage_of settings = Ok maxage ->
  999999999 < Z.abs maxage \/
  dt_day (w_now w) - maxage < MINORDINAL \/
  MAXORDINAL < dt_day (w_now w) - maxage ->
  download_new w settings_file st
  = (Raise OverflowError,
     entered dir (add_events [EvLog DEBUG Starting] st)).
Proof.
  intros F D Nul X M B.
  rewrite download_new_unfold, read_settings_unfold, F, D, chdir_run, Nul, X.
  unfold maxage_of in M. unfold start_time_of.
  destruct (py_subscript settings (JStr "maxage")) as [v|]; simpl in *;
    [| discriminate].
  rewrite M. simpl. unfold timedelta_days, dt_sub_days, midnight.
  destruct (Z.leb_spec (Z.abs maxage) 999999999) as [A|A]; simpl;
    [| reflexivity].
  destruct (Z.leb_spec MINORDINAL (dt_day (w_now w) - maxage)); simpl;
    [| reflexivity].
  destruct (Z.leb_spec (dt_day (w_now w) - maxage) MAXORDINAL); simpl;
    [| reflexivity].
  lia.
Qed.

Lemma window_out_of_range_witness :
  let w := Sample.a_world (Sample.settings (JInt 1000000) []) Sample.all_fine in
  download_new w "settings.json" (Sample.initially None)
  = (Raise OverflowError,
     entered "media" (add_events [EvLog DEBUG Starting]
                                 (Sample.initially None))).
Proof.
  intros w.
  apply (@window_out_of_range w "settings.json" (Sample.initially None)
           (Sample.settings (JInt 1000000) []) "media" 1000000
           eq_refl eq_refl eq_refl eq_refl eq_refl).
  right. left. reflexivity.
Defined.

Lemma process_feeds_frame w start_time feeds : forall last_run st r st',
  process_feeds w start_time feeds last_run st = (r, st') ->
  st_cwd st' = st_cwd st /\
  (forall dir, dir <> st_cwd st -> st_wm st' dir = st_wm st dir) /\
  exists evs,
    st_trace st' = st_trace st ++ evs /\
    (forall last_run', r = Ok last_run' ->
                       List.length (writes_of evs) = List.length feeds).
Proof.
  induction feeds as [|feed feeds IH]; simpl; intros last_run st r st' H.
  - inversion H; subst. split; [reflexivity | split; [reflexivity |]].
    exists []. rewrite app_nil_r. auto.
  - rewrite bind_run in H.
    destruct (process_feed w start_time feed last_run st) as [[lr1|e] st1] eqn:P;
      apply process_feed_events in P as (evs1 & _ & P).
    + destruct P as (evs0 & -> & W & ->).
      apply IH in H as (C & Wm & evs2 & T & L). simpl in *.
      split; [exact C | split].
      * intros dir N. rewrite (Wm dir N).
        destruct (String.eqb_spec dir (st_cwd st)); [contradiction |].
        reflexivity.
      * exists ((evs0 ++ [EvWrite (st_cwd st) lr1]) ++ evs2). split.
        -- rewrite T. rewrite <- !app_assoc. reflexivity.
        -- intros lr E. rewrite !writes_of_app, (writes_of_none W).
           simpl. rewrite (L lr E). reflexivity.
    + destruct P as (W & ->). inversion H; subst. simpl.
      split; [reflexivity | split; [reflexivity |]].
      exists evs1. split; [reflexivity |]. discriminate.
Qed.

(** X14. A run that completes has written the watermark file once for each
    item of the "feeds" value of its settings, and not more often; with an
    empty list of feeds it completes without a single write. *)
Theorem completed_run_checkpoints_each_feed (w : world)
        (settings_file : string) (st st' : state) :
  download_new w settings_file st = (Ok tt, st') ->
  exists settings feeds items evs,
    w_files w settings_file = Some (JsonDoc settings) /\
    py_subscript settings (JStr "feeds") = Ok feeds /\
    py_iter feeds = Ok items /\
    st_trace st' = st_trace st ++ evs /\
    List.length (writes_of evs) = List.length items.
Proof.
  rewrite download_new_unfold.
  destruct (read_settings w settings_file _) as [[[start_time feeds]|e] st1]
    eqn:RS; [| discriminate].
  apply read_settings_ok in RS
    as (settings & dir & maxage & F & _ & _ & _ & _ & Fs & ->).
  destruct (read_last_run_store
              (entered dir (add_events [EvLog DEBUG Starting] st)))
    as [(evsL & -> & PL) | (x & ->)]; [| discriminate].
  destruct (py_iter feeds) as [items|e] eqn:It; [| discriminate].
  destruct (process_feeds w start_time items _ _) as [[lr|e] st3] eqn:PF;
    [| discriminate].
  intros H. inversion H; subst st3.
  apply process_feeds_frame in PF as (_ & _ & evs & T & L).
  exists settings, feeds, items.
  exists (([EvLog DEBUG Starting; EvChdir dir] ++ evsL) ++ evs).
  split; [exact F | split; [exact Fs | split; [exact It | split]]].
  - rewrite T. simpl. rewrite <- !app_assoc. reflexivity.
  - rewrite writes_of_app. simpl.
    rewrite (writes_of_none (plain_not_write PL)). simpl. eapply L. reflexivity.
Qed.

Lemma completed_run_checkpoints_each_feed_witness :
  let w := Sample.a_world
             (Sample.settings (JInt 7)
                [Sample.feed_config "http://feed/a" "wget";
                 Sample.feed_config "http://feed/a" "aria2c"])
             Sample.all_fine in
  exists settings feeds items evs,
    w_files w "settings.json" = Some (JsonDoc settings) /\
    py_subscript settings (JStr "feeds") = Ok feeds /\
    py_iter feeds = Ok items /\
    st_trace (snd (download_new w "settings.json" (Sample.initially None)))
    = st_trace (Sample.initially None) ++ evs /\
    List.length (writes_of evs) = List.length items.
Proof.
  intros w.
  apply (@completed_run_checkpoints_each_feed w "settings.json"
           (Sample.initially None)
           (snd (download_new w "settings.json" (Sample.initially None)))).
  vm_compute. reflexivity.
Defined.

Lemma read_settings_frame w settings_file st r st1 :
  read_settings w settings_file st = (r, st1) ->
  st_wm st1 = st_wm st /\
  (st_cwd st1 = st_cwd st \/
   exists settings,
     w_files w settings_file = Some (JsonDoc settings) /\
     py_subscript settings (JStr "directory") = Ok (JStr (st_cwd st1)) /\
     w_dirs w (st_cwd st1) = true).
Proof.
  rewrite read_settings_unfold.
  assert (Same : forall r', (r', st) = (r, st1) ->
            st_wm st1 = st_wm st /\
            (st_cwd st1 = st_cwd st \/
             exists settings,
               w_files w settings_file = Some (JsonDoc settings) /\
               py_subscript settings (JStr "directory")
               = Ok (JStr (st_cwd st1)) /\
               w_dirs w (st_cwd st1) = true)).
  { intros r' H. inversion H; subst. auto. }
  destruct (w_files w settings_file) as [[|text|text|text|settings]|];
    try apply Same.
  destruct (py_subscript settings (JStr "directory")) as [directory|e] eqn:D;
    [| apply Same].
  rewrite chdir_run.
  destruct directory as [| | fd | | d | |]; try apply Same.
  1: { destruct ((- 2 ^ 31 <=? fd) && (fd <? 2 ^ 31)); apply Same. }
  destruct (has_nul d); [apply Same |].
  destruct (w_dirs w d) eqn:X; [| apply Same].
  assert (K : forall (r' : result (datetime * json)),
             (r', entered d st) = (r, st1) ->
             st_wm st1 = st_wm st /\
             (st_cwd st1 = st_cwd st \/
              exists s0,
                Some (JsonDoc settings) = Some (JsonDoc s0) /\
                py_subscript s0 (JStr "directory") = Ok (JStr (st_cwd st1)) /\
                w_dirs w (st_cwd st1) = true)).
  { intros r' H. inversion H; subst. simpl. split; [reflexivity |].
    right. exists settings. auto. }
  destruct (start_time_of w settings); [| apply K].
  destruct (py_subscript settings (JStr "feeds")); apply K.
Qed.

(** X15. Whatever a run does and however it ends, it changes no watermark
    file but the one of the directory it ends in; and either that directory is
    the existing one that the settings name, or the run has moved nowhere and
    changed no watermark file at all. *)
Theorem only_settings_directory_written (w : world) (settings_file : string)
        (st : state) (r : result unit) (st' : state) :
  download_new w settings_file st = (r, st') ->
  (forall dir, dir <> st_cwd st' -> st_wm st' dir = st_wm st dir) /\
  ((exists settings,
      w_files w settings_file = Some (JsonDoc settings) /\
      py_subscript settings (JStr "directory") = Ok (JStr (st_cwd st')) /\
      w_dirs w (st_cwd st') = true) \/
   (st_cwd st' = st_cwd st /\ st_wm st' = st_wm st)).
Proof.
  rewrite download_new_unfold.
  destruct (read_settings w settings_file _) as [r1 st1] eqn:RS.
  destruct r1 as [[start_time feeds]|e].
  - apply read_settings_ok in RS
      as (settings & dir & maxage & F & D & [_ X] & _ & _ & _ & ->).
    assert (K : forall st3,
               st_cwd st3 = dir ->
               (forall d, d <> dir -> st_wm st3 d = st_wm st d) ->
               (forall d, d <> st_cwd st3 -> st_wm st3 d = st_wm st d) /\
               ((exists settings,
                   w_files w settings_file = Some (JsonDoc settings) /\
                   py_subscript settings (JStr "directory")
                   = Ok (JStr (st_cwd st3)) /\
                   w_dirs w (st_cwd st3) = true) \/
                (st_cwd st3 = st_cwd st /\ st_wm st3 = st_wm st))).
    { intros st3 C W. rewrite C. split; [exact W |].
      left. exists settings. auto. }
    destruct (read_last_run_store
                (entered dir (add_events [EvLog DEBUG Starting] st)))
      as [(evsL & -> & _) | (x & ->)].
    2: { intros H. inversion H; subst. apply K; reflexivity. }
    destruct (py_iter feeds) as [items|e].
    + destruct (process_feeds w start_time items _ _) as [r3 st3] eqn:PF.
      apply process_feeds_frame in PF as (C3 & W3 & _). simpl in C3, W3.
      intros H. assert (st3 = st') by (destruct r3; inversion H; auto).
      subst st3. apply K; assumption.
    + intros H. inversion H; subst. apply K; reflexivity.
  - pose proof (read_settings_frame _ _ _ RS) as (W1 & C1). simpl in W1, C1.
    intros H. inversion H; subst. rewrite W1. split; [reflexivity |].
    destruct C1 as [C1|C1]; auto.
Qed.

Lemma only_settings_directory_written_witness :
  let w := Sample.a_world
             (Sample.settings (JInt 7) [Sample.feed_config "http://feed/a" "wget"])
             Sample.all_fine in
  let st' := snd (download_new w "settings.json" (Sample.initially None)) in
  (forall dir, dir <> st_cwd st' ->
               st_wm st' dir = st_wm (Sample.initially None) dir) /\
  ((exists settings,
      w_files w "settings.json" = Some (JsonDoc settings) /\
      py_subscript settings (JStr "directory") = Ok (JStr (st_cwd st')) /\
      w_dirs w (st_cwd st') = true) \/
   (st_cwd st' = st_cwd (Sample.initially None) /\
    st_wm st' = st_wm (Sample.initially None))).
Proof.
  intros w st'.
  apply (@only_settings_directory_written w "settings.json"
           (Sample.initially None)
           (fst (download_new w "settings.json" (Sample.initially None))) st').
  vm_compute. reflexivity.
Defined.

(** X16. The entry point.  No configuration error ever leaves it: it is
    logged and the program ends normally.  With fewer than two program
    arguments nothing is run.  Otherwise the second argument names the
    settings file; a file that cannot be opened, does not decode or does not
    load is not reported as invalid input: the [OSError], the
    [UnicodeDecodeError], or the [JSONDecodeError], [RecursionError] or
    [ValueError] of [json.loads] leaves the program, while a settings
    document without "directory" is logged as invalid input. *)
Theorem main_outcomes (w : world) (argv : list string) (st : state) :
  (forall err st' records,
     main w argv st <> (Raise (InvalidInputDataException err), st', records)) /\
  ((List.length argv < 2)%nat ->
   main w argv st = (Ok tt, st, [NoSettingsFile])) /\
  (forall settings_file,
     nth_error argv 1 = Some settings_file ->
     let st0 := add_events [EvLog DEBUG Starting] st in
     (w_files w settings_file = None ->
      main w argv st = (Raise OSError, st0, [])) /\
     (w_files w settings_file = Some Undecodable ->
      main w argv st = (Raise UnicodeDecodeError, st0, [])) /\
     (forall text,
        w_files w settings_file = Some (NotJson text) ->
        main w argv st = (Raise JSONDecodeError, st0, [])) /\
     (forall text,
        w_files w settings_file = Some (TooDeep text) ->
        main w argv st = (Raise RecursionError, st0, [])) /\
     (forall text,
        w_files w settings_file = Some (HugeNumber text) ->
        main w argv st = (Raise ValueError, st0, [])) /\
     (forall settings,
        w_files w settings_file = Some (JsonDoc settings) ->
        py_subscript settings (JStr "directory") = Raise KeyError ->
        main w argv st = (Ok tt, st0, [InvalidInput NoDirectory]))).
Proof.
  split; [| split].
  - intros err st' records. unfold main.
    destruct argv as [|prog [|settings_file rest]]; try discriminate.
    destruct (download_new w settings_file st) as [[[]|[]] st1]; discriminate.
  - intros L. destruct argv as [|prog [|settings_file rest]];
      [reflexivity | reflexivity | simpl in L; lia].
  - intros settings_file N st0.
    destruct argv as [|prog [|settings_file' rest]]; try discriminate.
    simpl in N. inversion N; subst settings_file'. unfold main.
    rewrite download_new_unfold, read_settings_unfold. fold st0.
    split; [| split; [| split; [| split; [| split]]]].
    + intros F. rewrite F. reflexivity.
    + intros F. rewrite F. reflexivity.
    + intros text F. rewrite F. reflexivity.
    + intros text F. rewrite F. reflexivity.
    + intros text F. rewrite F. reflexivity.
    + intros settings F D. rewrite F, D. reflexivity.
Qed.

Lemma main_outcomes_witness :
  let w := Sample.a_world (JDict [("maxage", JInt 7); ("feeds", JList [])])
                          Sample.all_fine in
  let st := Sample.initially None in
  main w ["newsfeed_media_dl.py"] st = (Ok tt, st, [NoSettingsFile]) /\
  main w ["newsfeed_media_dl.py"; "nowhere.json"] st
  = (Raise OSError, add_events [EvLog DEBUG Starting] st, []) /\
  main w ["newsfeed_media_dl.py"; "settings.json"] st
  = (Ok tt, add_events [EvLog DEBUG Starting] st, [InvalidInput NoDirectory]).
Proof.
  intros w st. split; [| split].
  - apply (proj1 (proj2 (main_outcomes w ["newsfeed_media_dl.py"] st))).
    simpl. lia.
  - apply (proj1 (proj2 (proj2 (main_outcomes
             w ["newsfeed_media_dl.py"; "nowhere.json"] st))
             "nowhere.json" eq_refl)).
    reflexivity.
  - apply (proj2 (proj2 (proj2 (proj2 (proj2 (proj2 (proj2 (main_outcomes
             w ["newsfeed_media_dl.py"; "settings.json"] st))
             "settings.json" eq_refl)))))
             (JDict [("maxage", JInt 7); ("feeds", JList [])])).
    + reflexivity.
    + reflexivity.
Defined.

Lemma process_feeds_first_raises w start_time feed feeds last_run st e st' :
  process_feed w start_time feed last_run st = (Raise e, st') ->
  process_feeds w start_time (feed :: feeds) last_run st = (Raise e, st').
Proof.
  intros P. simpl. rewrite bind_run, P. reflexivity.
Qed.

Lemma process_feed_of_string w start_time s last_run st :
  process_feed w start_time (JStr s) last_run st
  = (Raise (InvalidInputDataException InvalidFeedsList), st).
Proof.
  rewrite process_feed_unfold. reflexivity.
Qed.

(** X17. A "feeds" value that is no list is not refused as such.  An object
    or a string is iterated, key by key or character by character: when it is
    empty the run completes without a write, otherwise its first item is no
    feed and the run ends with the configuration error "Invalid feeds list"
    before anything is done for a feed.  A number, a boolean or null cannot
    be iterated: the [TypeError] is no configuration error. *)
Theorem feeds_not_a_list (w : world) (settings_file : string) (st : state)
        (start_time : datetime) (feeds : json) (st1 : state)
        (last_run : json) (st2 : state) :
  read_settings w settings_file (add_events [EvLog DEBUG Starting] st)
  = (Ok (start_time, feeds), st1) ->
  read_last_run st1 = (Ok last_run, st2) ->
  (feeds = JDict [] \/ feeds = JStr "" \/ feeds = JList [] ->
   download_new w settings_file st = (Ok tt, st2)) /\
  ((exists kv d, feeds = JDict (kv :: d)) \/
   (exists c s, feeds = JStr (String c s)) ->
   download_new w settings_file st
   = (Raise (InvalidInputDataException InvalidFeedsList), st2)) /\
  (feeds = JNull \/ (exists b, feeds = JBool b) \/
   (exists n, feeds = JInt n) \/ (exists x, feeds = JFloat x) ->
   download_new w settings_file st = (Raise TypeError, st2)).
Proof.
  intros RS RL. rewrite download_new_unfold, RS, RL.
  split; [| split].
  - intros [->|[->| ->]]; reflexivity.
  - intros [(kv & d & ->)|(c & s & ->)]; unfold py_iter;
      cbn [map list_ascii_of_string];
      erewrite process_feeds_first_raises by apply process_feed_of_string;
      reflexivity.
  - intros [->|[(b & ->)|[(n & ->)|(x & ->)]]]; reflexivity.
Qed.

Lemma feeds_not_a_list_witness :
  let doc := JDict [("directory", JStr "media"); ("maxage", JInt 7);
                    ("feeds", JDict [("http://feed/a", JStr "wget")])] in
  let w := Sample.a_world doc Sample.all_fine in
  let st := Sample.initially None in
  download_new w "settings.json" st
  = (Raise (InvalidInputDataException InvalidFeedsList),
     entered "media" (add_events [EvLog DEBUG Starting] st)).
Proof.
  intros doc w st.
  refine (proj1 (proj2 (@feeds_not_a_list w "settings.json" st
            (window_start w 7) (JDict [("http://feed/a", JStr "wget")])
            (entered "media" (add_events [EvLog DEBUG Starting] st))
            (JDict [])
            (entered "media" (add_events [EvLog DEBUG Starting] st)) _ _)) _).
  - vm_compute. reflexivity.
  - vm_compute. reflexivity.
  - left. eexists. eexists. reflexivity.
Defined.
